(** * Spark (ai.py): a shallow embedding of the chat client's core

    The program is a single Python module, [ai.py].  Its methods mutate the
    attributes of one [GeminiApp] object, read and write a handful of files
    and talk to three outside services (the text endpoint, the language
    detector and the speech synthesiser).  The embedding below follows that
    shape: Python values that travel through [json] are a small inductive
    type, the object and the files form one record that is threaded through
    a state-and-exception monad, and everything the program cannot decide by
    itself (the clock, the endpoint, whether a file can be opened, what the
    user answers to a dialog) is an oracle in a read-only environment. *)

From Stdlib Require Import ZArith String Ascii List Bool Lia.
From stdpp Require Import gmap strings.
Import ListNotations.

Set Warnings "-register-all".

Open Scope nat_scope.

(** ** Python strings

    A [str] is modelled as a [string] whose characters are the code points
    below 256.  [isspace] is [str.isspace] on those code points and [strip]
    is [str.strip()] without argument. *)

Module PyStr.

Definition isspace (c : ascii) : bool :=
  let n := N_of_ascii c in
  (((9 <=? n) && (n <=? 13)) || ((28 <=? n) && (n <=? 32))
  || (n =? 133) || (n =? 160))%N.

Fixpoint lstrip (s : string) : string :=
  match s with
  | EmptyString => EmptyString
  | String c s' => if isspace c then lstrip s' else s
  end.

Fixpoint rstrip (s : string) : string :=
  match s with
  | EmptyString => EmptyString
  | String c s' =>
      match rstrip s' with
      | EmptyString => if isspace c then EmptyString else String c EmptyString
      | r => String c r
      end
  end.

Definition strip (s : string) : string := rstrip (lstrip s).

(** [bool(s)] for a [str]: the empty string is falsy. *)
Definition truthy (s : string) : bool :=
  match s with EmptyString => false | String _ _ => true end.

End PyStr.

(** ** Python values that go through [json]

    [json.load] yields [None], booleans, numbers, strings, lists and
    dictionaries with string keys.  Dictionaries keep insertion order, and a
    lookup finds the entry of a key (keys are unique in a [dict]; the lookup
    below takes the first one).  Numbers are restricted to integers. *)

Inductive value : Type :=
| VNone
| VBool (b : bool)
| VInt (n : Z)
| VStr (s : string)
| VList (l : list value)
| VDict (d : list (string * value)).

Fixpoint dict_get (k : string) (d : list (string * value)) : option value :=
  match d with
  | [] => None
  | (k', v) :: d' => if String.eqb k k' then Some v else dict_get k d'
  end.

(** [bool(v)]. *)
Definition truthy (v : value) : bool :=
  match v with
  | VNone => false
  | VBool b => b
  | VInt n => negb (Z.eqb n 0)
  | VStr s => PyStr.truthy s
  | VList l => match l with [] => false | _ => true end
  | VDict d => match d with [] => false | _ => true end
  end.

(** ** Exceptions *)

Inductive exn_kind : Type :=
| AttributeError | TypeError | KeyError | ValueError | IndexError
| OSError | JSONDecodeError | UnknownValueError | RequestError | ServiceError
| OverflowError | ConnectionError | ReadTimeout | gTTSError.

(** [exn_msg] is what [str(e)] returns. *)
Record exn : Type := Exn { exn_is : exn_kind; exn_msg : string }.

Inductive outcome (A : Type) : Type :=
| Returned (a : A)
| Raised (e : exn).
Arguments Returned {A} a.
Arguments Raised {A} e.

(** ** QDateTime and the formats the program uses *)

Record QDateTime : Type := {
  year : N; month : N; day : N;
  hour : N; minute : N; second : N; msec : N
}.

Module Fmt.

#[local] Open Scope N_scope.

Definition digit (n : N) : ascii := ascii_of_N (48 + n).

(** Two and four digit fields with leading zeros ([MM], [dd], [HH], [hh],
    [mm], [ss] and [yyyy]); the fields of a valid date and time of day
    never need more. *)
Definition pad2 (n : N) : string :=
  String (digit (n / 10)) (String (digit (n mod 10)) EmptyString).

Definition pad4 (n : N) : string := pad2 (n / 100) +:+ pad2 (n mod 100).

(** [toString("yyyy-MM-dd HH:mm:ss")] *)
Definition display_stamp (t : QDateTime) : string :=
  pad4 (year t) +:+ "-" +:+ pad2 (month t) +:+ "-" +:+ pad2 (day t) +:+ " "
  +:+ pad2 (hour t) +:+ ":" +:+ pad2 (minute t) +:+ ":" +:+ pad2 (second t).

(** [toString("yyyyMMdd_hhmmss")] and [toString("yyyyMMdd_HHmmss")]: with
    no AM/PM marker in the format, [hh] is the 24-hour clock like [HH]. *)
Definition file_stamp (t : QDateTime) : string :=
  pad4 (year t) +:+ pad2 (month t) +:+ pad2 (day t) +:+ "_"
  +:+ pad2 (hour t) +:+ pad2 (minute t) +:+ pad2 (second t).

End Fmt.

(** A date and time the clock can return. *)
Definition valid_datetime (t : QDateTime) : Prop :=
  (year t < 10000 /\ 1 <= month t <= 12 /\ 1 <= day t <= 31 /\
   hour t < 24 /\ minute t < 60 /\ second t < 60 /\ msec t < 1000)%N.

(** ** The world the program runs in *)

(** What a file holds.  A file written by [json.dump v] holds the JSON
    document of [v], and [json.load] gives [v] back; [Json v] stands for
    that document.  [Text s] is any other content (what [f.write(s)] or the
    synthesiser wrote), and [Dir] is a directory. *)
Inductive content : Type :=
| Json (v : value)
| Text (s : string)
| Dir.

(** What the chat display shows, in order: the greeting put there by
    [setup_ui], one block per [display_message] call, and the line that
    [display_message] appends when rendering raised. *)
Inductive chat_item : Type :=
| Welcome
| Message (sender : string) (message : string) (timestamp : value)
| DisplayError (message : string).

(** The object returned by [generate_content], as far as the program looks
    at it: whether it is a list, and what reading its [text] attribute
    does. *)
Inductive attribute : Type :=
| NoAttribute
| Attribute (v : value)
| AttributeRaises (e : exn).

Inductive response : Type :=
| RObject (text : attribute)
| RList (items : list response).

(** Background units of work started with [threading.Thread(...).start()]. *)
Inductive task : Type :=
| ProcessMessage (message : string)
| RecognizeSpeech
| GenerateAudio (last_response : value).

(** What is queued for the thread that owns the widgets, in the order of
    the calls.

    Signals, which that thread delivers to their slots: [response_received],
    [speech_recognized] and [audio_ready], emitted by the background
    threads, and [audio_error] of [AudioController].

    [QTimer.singleShot] calls made by a background thread: the two spinner
    calls and the error message of [process_message], and the delayed
    start and the error report of [generate_audio].  The callbacks of the
    two [except] clauses read [e] when they are called, after the clause
    has unbound it; [SystemMessage] carries the text that [e] gave when the
    call was made. *)
Inductive ui_event : Type :=
| SpinnerShow
| SpinnerHide
| ResponseReceived (response : string)
| SpeechRecognized (message : string)
| SystemMessage (message : string)
| AudioReady (audio_path : string)
| StartPlayback (audio_path : string)
| AudioError (error_msg : string)
| ReportAudioError.

Record Env : Type := {
  (** [QDateTime.currentDateTime()] *)
  clock : QDateTime;
  (** [GenerativeModel(model).generate_content(message)] *)
  generate_content : value -> string -> outcome response;
  (** [open(path, "w")] raises [OSError] *)
  cannot_open : string -> bool;
  (** the answer to [QMessageBox.question] is [Yes] *)
  answers_yes : bool;
  (** [chat_display.toPlainText()] *)
  toPlainText : list chat_item -> string;
  (** [langdetect.detect(text)] *)
  detect : string -> outcome string;
  (** the audio that [gTTS(text=text, lang=lang).save(path)] receives for
      [text], or the exception of its request *)
  tts : string -> string -> outcome string;
  (** [requests.get("https://www.google.com", timeout=3)] *)
  requests_get : outcome unit;
  (** [recognizer.recognize_google(recognizer.listen(source))] *)
  heard : outcome string
}.

(** [QMediaPlayer], as far as the program drives it. *)
Record QMediaPlayer : Type := { source : option string; playing : bool }.

Record World : Type := {
  (** attributes of [GeminiApp] *)
  api_key : option string;
  conversations : value;
  current_model : value;
  font_size : value;
  current_audio_path : option string;
  is_audio_playing : bool;
  (** how many times [audio_ready] is connected to [start_audio_playback] *)
  audio_ready_slots : nat;
  (** widgets *)
  chat_display : list chat_item;
  message_input : string;
  context_checkbox : bool;
  spinner_visible : bool;
  audio_controls_visible : bool;
  font_size_slider_visible : bool;
  player : QMediaPlayer;
  (** outside the object: files, started threads, what background threads
      queued for the thread that owns the widgets, and the requests that
      reached the text endpoint (model and prompt) *)
  fs : gmap string content;
  threads : list task;
  posted : list ui_event;
  requests : list (value * string)
}.

(** Field updates. *)
Definition with_api_key (x : option string) (w : World) : World :=
  {| api_key := x; conversations := conversations w;
     current_model := current_model w; font_size := font_size w;
     current_audio_path := current_audio_path w;
     is_audio_playing := is_audio_playing w;
     audio_ready_slots := audio_ready_slots w;
     chat_display := chat_display w; message_input := message_input w;
     context_checkbox := context_checkbox w;
     spinner_visible := spinner_visible w;
     audio_controls_visible := audio_controls_visible w;
     font_size_slider_visible := font_size_slider_visible w;
     player := player w; fs := fs w; threads := threads w;
     posted := posted w; requests := requests w |}.

Definition with_conversations (x : value) (w : World) : World :=
  {| api_key := api_key w; conversations := x;
     current_model := current_model w; font_size := font_size w;
     current_audio_path := current_audio_path w;
     is_audio_playing := is_audio_playing w;
     audio_ready_slots := audio_ready_slots w;
     chat_display := chat_display w; message_input := message_input w;
     context_checkbox := context_checkbox w;
     spinner_visible := spinner_visible w;
     audio_controls_visible := audio_controls_visible w;
     font_size_slider_visible := font_size_slider_visible w;
     player := player w; fs := fs w; threads := threads w;
     posted := posted w; requests := requests w |}.

Definition with_current_model (x : value) (w : World) : World :=
  {| api_key := api_key w; conversations := conversations w;
     current_model := x; font_size := font_size w;
     current_audio_path := current_audio_path w;
     is_audio_playing := is_audio_playing w;
     audio_ready_slots := audio_ready_slots w;
     chat_display := chat_display w; message_input := message_input w;
     context_checkbox := context_checkbox w;
     spinner_visible := spinner_visible w;
     audio_controls_visible := audio_controls_visible w;
     font_size_slider_visible := font_size_slider_visible w;
     player := player w; fs := fs w; threads := threads w;
     posted := posted w; requests := requests w |}.

Definition with_font_size (x : value) (w : World) : World :=
  {| api_key := api_key w; conversations := conversations w;
     current_model := current_model w; font_size := x;
     current_audio_path := current_audio_path w;
     is_audio_playing := is_audio_playing w;
     audio_ready_slots := audio_ready_slots w;
     chat_display := chat_display w; message_input := message_input w;
     context_checkbox := context_checkbox w;
     spinner_visible := spinner_visible w;
     audio_controls_visible := audio_controls_visible w;
     font_size_slider_visible := font_size_slider_visible w;
     player := player w; fs := fs w; threads := threads w;
     posted := posted w; requests := requests w |}.

Definition with_current_audio_path (x : option string) (w : World) : World :=
  {| api_key := api_key w; conversations := conversations w;
     current_model := current_model w; font_size := font_size w;
     current_audio_path := x; is_audio_playing := is_audio_playing w;
     audio_ready_slots := audio_ready_slots w;
     chat_display := chat_display w; message_input := message_input w;
     context_checkbox := context_checkbox w;
     spinner_visible := spinner_visible w;
     audio_controls_visible := audio_controls_visible w;
     font_size_slider_visible := font_size_slider_visible w;
     player := player w; fs := fs w; threads := threads w;
     posted := posted w; requests := requests w |}.

Definition with_is_audio_playing (x : bool) (w : World) : World :=
  {| api_key := api_key w; conversations := conversations w;
     current_model := current_model w; font_size := font_size w;
     current_audio_path := current_audio_path w; is_audio_playing := x;
     audio_ready_slots := audio_ready_slots w;
     chat_display := chat_display w; message_input := message_input w;
     context_checkbox := context_checkbox w;
     spinner_visible := spinner_visible w;
     audio_controls_visible := audio_controls_visible w;
     font_size_slider_visible := font_size_slider_visible w;
     player := player w; fs := fs w; threads := threads w;
     posted := posted w; requests := requests w |}.

Definition with_audio_ready_slots (x : nat) (w : World) : World :=
  {| api_key := api_key w; conversations := conversations w;
     current_model := current_model w; font_size := font_size w;
     current_audio_path := current_audio_path w;
     is_audio_playing := is_audio_playing w; audio_ready_slots := x;
     chat_display := chat_display w; message_input := message_input w;
     context_checkbox := context_checkbox w;
     spinner_visible := spinner_visible w;
     audio_controls_visible := audio_controls_visible w;
     font_size_slider_visible := font_size_slider_visible w;
     player := player w; fs := fs w; threads := threads w;
     posted := posted w; requests := requests w |}.

Definition with_chat_display (x : list chat_item) (w : World) : World :=
  {| api_key := api_key w; conversations := conversations w;
     current_model := current_model w; font_size := font_size w;
     current_audio_path := current_audio_path w;
     is_audio_playing := is_audio_playing w;
     audio_ready_slots := audio_ready_slots w; chat_display := x;
     message_input := message_input w;
     context_checkbox := context_checkbox w;
     spinner_visible := spinner_visible w;
     audio_controls_visible := audio_controls_visible w;
     font_size_slider_visible := font_size_slider_visible w;
     player := player w; fs := fs w; threads := threads w;
     posted := posted w; requests := requests w |}.

Definition with_message_input (x : string) (w : World) : World :=
  {| api_key := api_key w; conversations := conversations w;
     current_model := current_model w; font_size := font_size w;
     current_audio_path := current_audio_path w;
     is_audio_playing := is_audio_playing w;
     audio_ready_slots := audio_ready_slots w;
     chat_display := chat_display w; message_input := x;
     context_checkbox := context_checkbox w;
     spinner_visible := spinner_visible w;
     audio_controls_visible := audio_controls_visible w;
     font_size_slider_visible := font_size_slider_visible w;
     player := player w; fs := fs w; threads := threads w;
     posted := posted w; requests := requests w |}.

Definition with_context_checkbox (x : bool) (w : World) : World :=
  {| api_key := api_key w; conversations := conversations w;
     current_model := current_model w; font_size := font_size w;
     current_audio_path := current_audio_path w;
     is_audio_playing := is_audio_playing w;
     audio_ready_slots := audio_ready_slots w;
     chat_display := chat_display w; message_input := message_input w;
     context_checkbox := x;
     spinner_visible := spinner_visible w;
     audio_controls_visible := audio_controls_visible w;
     font_size_slider_visible := font_size_slider_visible w;
     player := player w; fs := fs w; threads := threads w;
     posted := posted w; requests := requests w |}.

Definition with_spinner_visible (x : bool) (w : World) : World :=
  {| api_key := api_key w; conversations := conversations w;
     current_model := current_model w; font_size := font_size w;
     current_audio_path := current_audio_path w;
     is_audio_playing := is_audio_playing w;
     audio_ready_slots := audio_ready_slots w;
     chat_display := chat_display w; message_input := message_input w;
     context_checkbox := context_checkbox w; spinner_visible := x;
     audio_controls_visible := audio_controls_visible w;
     font_size_slider_visible := font_size_slider_visible w;
     player := player w; fs := fs w; threads := threads w;
     posted := posted w; requests := requests w |}.

Definition with_audio_controls_visible (x : bool) (w : World) : World :=
  {| api_key := api_key w; conversations := conversations w;
     current_model := current_model w; font_size := font_size w;
     current_audio_path := current_audio_path w;
     is_audio_playing := is_audio_playing w;
     audio_ready_slots := audio_ready_slots w;
     chat_display := chat_display w; message_input := message_input w;
     context_checkbox := context_checkbox w;
     spinner_visible := spinner_visible w; audio_controls_visible := x;
     font_size_slider_visible := font_size_slider_visible w;
     player := player w; fs := fs w; threads := threads w;
     posted := posted w; requests := requests w |}.

Definition with_font_size_slider_visible (x : bool) (w : World) : World :=
  {| api_key := api_key w; conversations := conversations w;
     current_model := current_model w; font_size := font_size w;
     current_audio_path := current_audio_path w;
     is_audio_playing := is_audio_playing w;
     audio_ready_slots := audio_ready_slots w;
     chat_display := chat_display w; message_input := message_input w;
     context_checkbox := context_checkbox w;
     spinner_visible := spinner_visible w;
     audio_controls_visible := audio_controls_visible w;
     font_size_slider_visible := x; player := player w; fs := fs w;
     threads := threads w; posted := posted w; requests := requests w |}.

Definition with_player (x : QMediaPlayer) (w : World) : World :=
  {| api_key := api_key w; conversations := conversations w;
     current_model := current_model w; font_size := font_size w;
     current_audio_path := current_audio_path w;
     is_audio_playing := is_audio_playing w;
     audio_ready_slots := audio_ready_slots w;
     chat_display := chat_display w; message_input := message_input w;
     context_checkbox := context_checkbox w;
     spinner_visible := spinner_visible w;
     audio_controls_visible := audio_controls_visible w;
     font_size_slider_visible := font_size_slider_visible w; player := x;
     fs := fs w; threads := threads w; posted := posted w;
     requests := requests w |}.

Definition with_fs (x : gmap string content) (w : World) : World :=
  {| api_key := api_key w; conversations := conversations w;
     current_model := current_model w; font_size := font_size w;
     current_audio_path := current_audio_path w;
     is_audio_playing := is_audio_playing w;
     audio_ready_slots := audio_ready_slots w;
     chat_display := chat_display w; message_input := message_input w;
     context_checkbox := context_checkbox w;
     spinner_visible := spinner_visible w;
     audio_controls_visible := audio_controls_visible w;
     font_size_slider_visible := font_size_slider_visible w;
     player := player w; fs := x; threads := threads w; posted := posted w;
     requests := requests w |}.

Definition with_threads (x : list task) (w : World) : World :=
  {| api_key := api_key w; conversations := conversations w;
     current_model := current_model w; font_size := font_size w;
     current_audio_path := current_audio_path w;
     is_audio_playing := is_audio_playing w;
     audio_ready_slots := audio_ready_slots w;
     chat_display := chat_display w; message_input := message_input w;
     context_checkbox := context_checkbox w;
     spinner_visible := spinner_visible w;
     audio_controls_visible := audio_controls_visible w;
     font_size_slider_visible := font_size_slider_visible w;
     player := player w; fs := fs w; threads := x; posted := posted w;
     requests := requests w |}.

Definition with_posted (x : list ui_event) (w : World) : World :=
  {| api_key := api_key w; conversations := conversations w;
     current_model := current_model w; font_size := font_size w;
     current_audio_path := current_audio_path w;
     is_audio_playing := is_audio_playing w;
     audio_ready_slots := audio_ready_slots w;
     chat_display := chat_display w; message_input := message_input w;
     context_checkbox := context_checkbox w;
     spinner_visible := spinner_visible w;
     audio_controls_visible := audio_controls_visible w;
     font_size_slider_visible := font_size_slider_visible w;
     player := player w; fs := fs w; threads := threads w; posted := x;
     requests := requests w |}.

Definition with_requests (x : list (value * string)) (w : World) : World :=
  {| api_key := api_key w; conversations := conversations w;
     current_model := current_model w; font_size := font_size w;
     current_audio_path := current_audio_path w;
     is_audio_playing := is_audio_playing w;
     audio_ready_slots := audio_ready_slots w;
     chat_display := chat_display w; message_input := message_input w;
     context_checkbox := context_checkbox w;
     spinner_visible := spinner_visible w;
     audio_controls_visible := audio_controls_visible w;
     font_size_slider_visible := font_size_slider_visible w;
     player := player w; fs := fs w; threads := threads w;
     posted := posted w; requests := x |}.

(** ** A monad for Python code

    A computation reads the environment, changes the world and either
    returns or raises.  What was changed before an exception is raised stays
    changed, as in Python. *)

Definition Py (A : Type) : Type := Env -> World -> outcome A * World.

Module Py.

Definition ret {A} (a : A) : Py A := fun _ w => (Returned a, w).

Definition bind {A B} (m : Py A) (k : A -> Py B) : Py B :=
  fun env w =>
    match m env w with
    | (Returned a, w') => k a env w'
    | (Raised e, w') => (Raised e, w')
    end.

Definition raise {A} (e : exn) : Py A := fun _ w => (Raised e, w).

(** [try: m  except Exception as e: handler e] *)
Definition try_except {A} (m : Py A) (handler : exn -> Py A) : Py A :=
  fun env w =>
    match m env w with
    | (Returned a, w') => (Returned a, w')
    | (Raised e, w') => handler e env w'
    end.

Definition ask {A} (f : Env -> A) : Py A := fun env w => (Returned (f env), w).
Definition gets {A} (f : World -> A) : Py A := fun _ w => (Returned (f w), w).
Definition modify (f : World -> World) : Py unit := fun _ w => (Returned tt, f w).

Definition of_outcome {A} (o : outcome A) : Py A := fun _ w => (o, w).

(** [for x in l: body x] *)
Fixpoint for_each {A} (l : list A) (body : A -> Py unit) : Py unit :=
  match l with
  | [] => ret tt
  | x :: l' => bind (body x) (fun _ => for_each l' body)
  end.

End Py.

Declare Scope py_scope.
Delimit Scope py_scope with py.
Bind Scope py_scope with Py.
Notation "'let*' x := m 'in' k" := (Py.bind m (fun x => k))
  (at level 10, x name, m at level 100, k at level 200) : py_scope.
Notation "m >> k" := (Py.bind m (fun _ => k))
  (at level 100, k at level 200, right associativity) : py_scope.
Open Scope py_scope.

(** ** Files *)

(** [os.path.exists(path)] *)
Definition exists_ (path : string) : Py bool :=
  Py.gets (fun w => bool_decide (is_Some (fs w !! path))).

(** [with open(path, "w") as f:] followed by one write of [c].  Opening
    fails for the empty path, for a directory and where the environment
    says so; otherwise the file is replaced by the new content. *)
Definition write_file (path : string) (c : content) : Py unit :=
  let* blocked := Py.ask (fun env => cannot_open env path) in
  let* target := Py.gets (fun w => fs w !! path) in
  match path, target with
  | EmptyString, _ => Py.raise (Exn OSError "[Errno 2] No such file or directory: ''")
  | _, Some Dir => Py.raise (Exn OSError "[Errno 21] Is a directory")
  | _, _ =>
      if blocked then Py.raise (Exn OSError "[Errno 13] Permission denied")
      else Py.modify (fun w => with_fs (<[path := c]> (fs w)) w)
  end.

(** [with open(path, "w") as f: json.dump(v, f)] *)
Definition json_dump (v : value) (path : string) : Py unit :=
  write_file path (Json v).

(** [with open(path, "r") as f: json.load(f)] *)
Definition json_load (path : string) : Py value :=
  let* target := Py.gets (fun w => fs w !! path) in
  match target with
  | Some (Json v) => Py.ret v
  | Some (Text _) => Py.raise (Exn JSONDecodeError "Expecting value")
  | Some Dir => Py.raise (Exn OSError "[Errno 21] Is a directory")
  | None => Py.raise (Exn OSError "[Errno 2] No such file or directory")
  end.

(** [with open(path, "r") as f: f.read()] of a text file *)
Definition read_text (path : string) : Py string :=
  let* target := Py.gets (fun w => fs w !! path) in
  match target with
  | Some (Text s) => Py.ret s
  | Some (Json _) => Py.raise (Exn ValueError "not a text file")
  | Some Dir => Py.raise (Exn OSError "[Errno 21] Is a directory")
  | None => Py.raise (Exn OSError "[Errno 2] No such file or directory")
  end.

(** ** Operations on Python values *)

Definition newline : string := String "010"%char EmptyString.

(** [v.strip()] *)
Definition str_strip (v : value) : Py string :=
  match v with
  | VStr s => Py.ret (PyStr.strip s)
  | _ => Py.raise (Exn AttributeError "object has no attribute 'strip'")
  end.

(** [v.get(key, default)] *)
Definition get_method (v : value) (key : string) (default : value) : Py value :=
  match v with
  | VDict d => Py.ret (match dict_get key d with Some x => x | None => default end)
  | _ => Py.raise (Exn AttributeError "object has no attribute 'get'")
  end.

(** [v[key]] for a string key *)
Definition subscript (v : value) (key : string) : Py value :=
  match v with
  | VDict d =>
      match dict_get key d with
      | Some x => Py.ret x
      | None => Py.raise (Exn KeyError key)
      end
  | VList _ => Py.raise (Exn TypeError "list indices must be integers or slices, not str")
  | VStr _ => Py.raise (Exn TypeError "string indices must be integers")
  | _ => Py.raise (Exn TypeError "object is not subscriptable")
  end.

Fixpoint last_char (s : string) : string :=
  match s with
  | EmptyString => EmptyString
  | String c EmptyString => s
  | String _ s' => last_char s'
  end.

(** [v[-1]] *)
Definition subscript_last (v : value) : Py value :=
  match v with
  | VList l =>
      match last l with
      | Some x => Py.ret x
      | None => Py.raise (Exn IndexError "list index out of range")
      end
  | VStr s =>
      match s with
      | EmptyString => Py.raise (Exn IndexError "string index out of range")
      | _ => Py.ret (VStr (last_char s))
      end
  | VDict _ => Py.raise (Exn KeyError "-1")
  | _ => Py.raise (Exn TypeError "object is not subscriptable")
  end.

Fixpoint chars (s : string) : list value :=
  match s with
  | EmptyString => []
  | String c s' => VStr (String c EmptyString) :: chars s'
  end.

(** The items [for x in v] goes through. *)
Definition iterate (v : value) : Py (list value) :=
  match v with
  | VList l => Py.ret l
  | VDict d => Py.ret (map (fun kv => VStr (fst kv)) d)
  | VStr s => Py.ret (chars s)
  | _ => Py.raise (Exn TypeError "object is not iterable")
  end.

(** [bool(self.api_key)]: the key is [None] or a [str]. *)
Definition key_set (k : option string) : bool :=
  match k with
  | Some s => PyStr.truthy s
  | None => false
  end.

(** ** GeminiApp *)

Definition available_models : list string :=
  ["gemini-1.5-flash"; "gemini-1.5-flash-8b"; "gemini-1.5-pro"].

Definition default_model : string := "gemini-1.5-flash".

(** A background thread queues [ev] for the thread that owns the widgets. *)
Definition post (ev : ui_event) : Py unit :=
  Py.modify (fun w => with_posted (posted w ++ [ev]) w).

(** [threading.Thread(target=..., daemon=True).start()] *)
Definition start_thread (t : task) : Py unit :=
  Py.modify (fun w => with_threads (threads w ++ [t]) w).

(** [display_message(sender, message, timestamp=None)].  The body is inside
    [try ... except Exception], and rendering a [message] that is not a
    [str] raises in [is_code_block]; the handler then appends a plain line.
    Which HTML the message is wrapped in is left to the display. *)
Definition display_message (sender : string) (message timestamp : value) : Py unit :=
  let* now := Py.ask clock in
  let stamp := if truthy timestamp then timestamp else VStr (Fmt.display_stamp now) in
  match message with
  | VStr m =>
      Py.modify (fun w => with_chat_display (chat_display w ++ [Message sender m stamp]) w)
  | _ =>
      Py.modify (fun w => with_chat_display
        (chat_display w ++ [DisplayError "expected string or bytes-like object"]) w)
  end.

(** [model = GenerativeModel(self.current_model)] and
    [model.generate_content(message)]: the request leaves the program. *)
Definition call_endpoint (message : string) : Py response :=
  let* model := Py.gets current_model in
  Py.modify (fun w => with_requests (requests w ++ [(model, message)]) w) >>
  let* reply := Py.ask (fun env => generate_content env model message) in
  Py.of_outcome reply.

(** [hasattr(response, 'text')]: only [AttributeError] means no. *)
Definition hasattr_text (r : response) : Py bool :=
  match r with
  | RObject (Attribute _) => Py.ret true
  | RObject (AttributeRaises e) =>
      match exn_is e with
      | AttributeError => Py.ret false
      | _ => Py.raise e
      end
  | RObject NoAttribute | RList _ => Py.ret false
  end.

(** [response.text] *)
Definition text_of (r : response) : Py value :=
  match r with
  | RObject (Attribute v) => Py.ret v
  | RObject (AttributeRaises e) => Py.raise e
  | RObject NoAttribute | RList _ =>
      Py.raise (Exn AttributeError "object has no attribute 'text'")
  end.

Definition get_gemini_response (message : string) : Py string :=
  let* key := Py.gets api_key in
  if negb (key_set key) then
    Py.ret "API key is missing. Please set it first."
  else
    Py.try_except
      (let* response := call_endpoint message in
       let* has_text := hasattr_text response in
       if has_text then
         let* t := text_of response in str_strip t
       else
         match response with
         | RList (first :: _) => let* t := text_of first in str_strip t
         | _ => Py.ret "No valid response received from Gemini. Please try again."
         end)
      (fun e => Py.ret ("Error while fetching response: " +:+ exn_msg e)).

Definition handle_response (response : string) : Py unit :=
  display_message "Gemini" (VStr response) VNone.

(** The dictionary [save_conversation] appends. *)
Definition exchange (timestamp user_input response : string) : value :=
  VDict [("timestamp", VStr timestamp); ("input", VStr user_input);
         ("output", VStr response)].

Definition save_conversation (user_input response : string) : Py unit :=
  let* now := Py.ask clock in
  let timestamp := Fmt.display_stamp now in
  let* convs := Py.gets conversations in
  match convs with
  | VList l =>
      Py.modify (with_conversations (VList (l ++ [exchange timestamp user_input response])))
  | _ => Py.raise (Exn AttributeError "object has no attribute 'append'")
  end >>
  let* convs := Py.gets conversations in
  json_dump convs "conversations.json".

(** The body of the loop [for conv in self.conversations] of
    [load_conversations]. *)
Definition replay (conv : value) : Py unit :=
  let* timestamp := get_method conv "timestamp" (VStr EmptyString) in
  let* input := subscript conv "input" in
  display_message "Me" input timestamp >>
  let* output := subscript conv "output" in
  display_message "Gemini" output timestamp.

Definition load_conversations : Py unit :=
  let* there := exists_ "conversations.json" in
  if there then
    let* loaded := json_load "conversations.json" in
    Py.modify (with_conversations loaded) >>
    let* items := iterate loaded in
    Py.for_each items replay
  else Py.ret tt.

Definition get_last_gemini_response : Py value :=
  let* convs := Py.gets conversations in
  if truthy convs then
    let* newest := subscript_last convs in
    subscript newest "output"
  else Py.ret VNone.

(** The prompt [send_message] hands to the background thread: [message] is
    the stripped input and [plain_text] is [chat_display.toPlainText()]. *)
Definition context_message (checked : bool) (plain_text message : string) : string :=
  if checked then
    let previous_messages := PyStr.strip plain_text in
    "Context for my prompt: " +:+ previous_messages +:+ newline +:+ newline +:+ message
  else message.

Definition send_message : Py unit :=
  let* text := Py.gets message_input in
  let message := PyStr.strip text in
  if negb (PyStr.truthy message) then
    display_message "System" (VStr "Cannot send an empty message.") VNone
  else
    let* checked := Py.gets context_checkbox in
    let* shown := Py.gets chat_display in
    let* plain_text := Py.ask (fun env => toPlainText env shown) in
    let prompt := context_message checked plain_text message in
    display_message "Me" (VStr message) VNone >>
    Py.modify (with_message_input EmptyString) >>
    start_thread (ProcessMessage prompt).

(** Runs in a background thread.  The spinner and the error message are
    [QTimer.singleShot] calls, the reply goes through the
    [response_received] signal; [save_conversation] is called in place. *)
Definition process_message (message : string) : Py unit :=
  Py.try_except
    (post SpinnerShow >>
     let* response := get_gemini_response message in
     post (ResponseReceived response) >>
     save_conversation message response >>
     post SpinnerHide)
    (fun e => post (SystemMessage ("Error: " +:+ exn_msg e))).

(** [handle_recognized_speech(message)], the slot of [speech_recognized]. *)
Definition handle_recognized_speech (message : string) : Py unit :=
  if PyStr.truthy message then
    display_message "Me" (VStr message) VNone >>
    let* response := get_gemini_response message in
    display_message "Gemini" (VStr response) VNone >>
    save_conversation message response
  else Py.ret tt.

(** *** Audio *)

Definition on_audio_finished : Py unit :=
  Py.modify (with_is_audio_playing false) >>
  Py.modify (with_audio_controls_visible false) >>
  Py.modify (with_font_size_slider_visible true).

(** [self.player.stop()]: a player that was playing reports [StoppedState],
    and [on_playback_state_changed] emits [audio_finished]. *)
Definition player_stop : Py unit :=
  let* p := Py.gets player in
  Py.modify (with_player {| source := source p; playing := false |}) >>
  if playing p then on_audio_finished else Py.ret tt.

(** [AudioController.stop_audio] *)
Definition stop_audio : Py unit :=
  player_stop >> on_audio_finished.

(** [AudioController.play_audio(audio_path)] *)
Definition play_audio (audio_path : string) : Py unit :=
  Py.modify (with_player {| source := Some audio_path; playing := true |}).

Definition start_audio_playback (audio_path : string) : Py unit :=
  Py.modify (with_font_size_slider_visible false) >>
  Py.modify (with_audio_controls_visible true) >>
  play_audio audio_path >>
  Py.modify (with_spinner_visible false) >>
  Py.modify (with_is_audio_playing true).

Definition handle_audio_error (error_msg : string) : Py unit :=
  display_message "System" (VStr ("Audio error: " +:+ error_msg)) VNone >>
  Py.modify (with_is_audio_playing false) >>
  Py.modify (with_spinner_visible false) >>
  Py.modify (with_audio_controls_visible false).

(** [os.path.join("audio", f"AI-response_{timestamp}.mp3")] with
    [timestamp = QDateTime.currentDateTime().toString("yyyyMMdd_hhmmss")] *)
Definition audio_path_at (now : QDateTime) : string :=
  "audio/" +:+ "AI-response_" +:+ Fmt.file_stamp now +:+ ".mp3".

(** [os.path.exists(path) and os.path.getsize(path) > 0] *)
Definition exists_nonempty (path : string) : Py bool :=
  let* target := Py.gets (fun w => fs w !! path) in
  Py.ret match target with
         | Some (Text s) => PyStr.truthy s
         | Some (Json _) | Some Dir => true
         | None => false
         end.

(** [tts.save(savefile)]: opens [savefile] for writing, then requests the
    audio and writes it.  A request that fails leaves the file empty. *)
Definition save (speech : outcome string) (savefile : string) : Py unit :=
  match speech with
  | Returned audio => write_file savefile (Text audio)
  | Raised e => write_file savefile (Text EmptyString) >> Py.raise e
  end.

(** The closure [generate_audio] of [read_last_response], run in a
    background thread; [last_response] is captured from the enclosing
    call. *)
Definition generate_audio (last_response : value) : Py unit :=
  Py.try_except
    (let* there := exists_ "audio" in
     (if there then Py.ret tt
      else Py.modify (fun w => with_fs (<["audio" := Dir]> (fs w)) w)) >>
     let* text :=
       match last_response with
       | VStr s => Py.ret s
       | _ => Py.raise (Exn TypeError "expected string or bytes-like object")
       end in
     let* language := Py.ask (fun env => detect env text) in
     let* detected_language := Py.of_outcome language in
     let* now := Py.ask clock in
     let audio_path := audio_path_at now in
     let* speech := Py.ask (fun env => tts env text detected_language) in
     save speech audio_path >>
     post (AudioReady audio_path) >>
     let* saved := exists_nonempty audio_path in
     if saved then
       Py.modify (with_current_audio_path (Some audio_path)) >>
       post (StartPlayback audio_path)
     else
       handle_audio_error "File save error: Audio file could not be found or is empty.")
    (fun e => post ReportAudioError).

Definition read_last_response : Py unit :=
  let* busy := Py.gets is_audio_playing in
  if busy then stop_audio
  else
    let* last_response := get_last_gemini_response in
    if negb (truthy last_response) then
      display_message "System" (VStr "No response to read.") VNone
    else
      Py.modify (with_spinner_visible true) >>
      Py.modify (fun w => with_audio_ready_slots (S (audio_ready_slots w)) w) >>
      start_thread (GenerateAudio last_response).

(** *** Clearing the conversations *)

Definition archive_filename_at (now : QDateTime) : string :=
  "archived_conversation_" +:+ Fmt.file_stamp now +:+ ".txt".

Definition delete_all_conversations : Py unit :=
  let* yes := Py.ask answers_yes in
  if yes then
    let* now := Py.ask clock in
    let archive_filename := archive_filename_at now in
    let* shown := Py.gets chat_display in
    let* plain_text := Py.ask (fun env => toPlainText env shown) in
    write_file archive_filename (Text plain_text) >>
    Py.modify (with_conversations (VList [])) >>
    json_dump (VList []) "conversations.json" >>
    Py.modify (with_chat_display []) >>
    display_message "System" (VStr "All conversations deleted and archived.") VNone
  else Py.ret tt.

(** *** Speech input *)

Definition send_speech : Py unit :=
  display_message "System" (VStr "Listening...") VNone >>
  start_thread RecognizeSpeech.

(** Runs in a background thread; the two recognizer errors become ordinary
    messages, anything else leaves the thread. *)
Definition recognize_speech_background : Py unit :=
  let* result := Py.ask heard in
  match result with
  | Returned message => post (SpeechRecognized message)
  | Raised e =>
      match exn_is e with
      | UnknownValueError => post (SpeechRecognized "Could not understand audio.")
      | RequestError =>
          post (SpeechRecognized "Could not request results; check your network.")
      | _ => Py.raise e
      end
  end.

(** *** Configuration and credential *)

Definition save_font_size (v : value) : Py unit :=
  let config := VDict [("font_size", v)] in
  json_dump config EmptyString.

Definition load_font_size : Py value :=
  let* there := exists_ "config.json" in
  if there then
    let* config := json_load "config.json" in
    get_method config "font_size" (VInt 14)
  else Py.ret (VInt 14).

Definition save_model_selection : Py unit :=
  let* model := Py.gets current_model in
  json_dump (VDict [("selected_model", model)]) "config.json".

(** [current_text] is [self.model_dropdown.currentText()]. *)
Definition update_selected_model (current_text : string) : Py unit :=
  Py.modify (with_current_model (VStr current_text)) >>
  save_model_selection.

Definition load_model_selection : Py value :=
  let* there := exists_ "config.json" in
  if there then
    let* config := json_load "config.json" in
    get_method config "selected_model" (VStr default_model)
  else Py.ret (VStr default_model).

Definition load_api_key : Py unit :=
  let* there := exists_ "api_key.txt" in
  if there then
    let* text := read_text "api_key.txt" in
    Py.modify (with_api_key (Some (PyStr.strip text))) >>
    if PyStr.truthy (PyStr.strip text) then
      display_message "System" (VStr "API key loaded successfully.") VNone
    else Py.ret tt
  else Py.ret tt.

(** [entered] is [self.api_key_input.text()]. *)
Definition set_api_key (entered : string) : Py unit :=
  Py.modify (with_api_key (Some (PyStr.strip entered))) >>
  if PyStr.truthy (PyStr.strip entered) then
    write_file "api_key.txt" (Text (PyStr.strip entered)) >>
    display_message "System" (VStr "API key set and saved.") VNone
  else Py.ret tt.

Definition ensure_config_files : Py unit :=
  let* have_config := exists_ "config.json" in
  (if have_config then Py.ret tt
   else
     let default_config :=
       VDict [("font_size", VInt 14); ("selected_model", VStr "gemini-1.5-flash")] in
     json_dump default_config "config.json") >>
  let* have_key := exists_ "api_key.txt" in
  if have_key then Py.ret tt
  else write_file "api_key.txt" (Text EmptyString).

(** *** Start-up *)

(** [self.available_models.index(self.current_model)] *)
Fixpoint index_of (x : value) (l : list string) : option nat :=
  match l with
  | [] => None
  | m :: l' =>
      match x with
      | VStr s => if String.eqb s m then Some 0 else option_map S (index_of x l')
      | _ => option_map S (index_of x l')
      end
  end.

(** [QSlider.setValue] takes a C [int]. *)
Definition slider_setValue (v : value) : Py unit :=
  match v with
  | VInt n =>
      if ((-2147483648 <=? n) && (n <=? 2147483647))%Z then Py.ret tt
      else Py.raise (Exn OverflowError "Python int too large to convert to C long")
  | VBool _ => Py.ret tt
  | _ => Py.raise (Exn TypeError "setValue called with wrong argument types")
  end.

(** The part of [setup_ui] that reads or writes the state: the model
    drop-down, the greeting, the font slider, the context check box and the
    replay of the stored conversations. *)
Definition setup_ui : Py unit :=
  let* model := Py.gets current_model in
  match index_of model available_models with
  | Some _ => Py.ret tt
  | None => Py.raise (Exn ValueError "is not in list")
  end >>
  Py.modify (fun w => with_chat_display (chat_display w ++ [Welcome]) w) >>
  let* size := Py.gets font_size in
  slider_setValue size >>
  Py.modify (with_context_checkbox true) >>
  load_conversations.

(** [check_internet]: only [requests.ConnectionError] is caught. *)
Definition check_internet : Py bool :=
  Py.try_except
    (let* response := Py.ask requests_get in
     Py.of_outcome response >>
     Py.ret true)
    (fun e =>
       match exn_is e with
       | ConnectionError => Py.ret false
       | _ => Py.raise e
       end).

(** [GeminiApp.__init__] *)
Definition __init__ : Py unit :=
  Py.modify (with_api_key None) >>
  Py.modify (with_conversations (VList [])) >>
  let* model := load_model_selection in
  Py.modify (with_current_model model) >>
  Py.modify (with_current_audio_path None) >>
  Py.modify (with_is_audio_playing false) >>
  let* size := load_font_size in
  Py.modify (with_font_size (if truthy size then size else VInt 14)) >>
  setup_ui >>
  let* size := Py.gets font_size in
  slider_setValue size >>
  load_api_key >>
  let* connected := check_internet in
  if connected then Py.ret tt
  else display_message "System"
         (VStr "No internet connection. Please check your network.") VNone.

(** The state before [__init__] has run: nothing but the files. *)
Definition blank (files : gmap string content) : World :=
  {| api_key := None; conversations := VList []; current_model := VNone;
     font_size := VNone; current_audio_path := None; is_audio_playing := false;
     audio_ready_slots := 0; chat_display := []; message_input := EmptyString;
     context_checkbox := false; spinner_visible := false;
     audio_controls_visible := false; font_size_slider_visible := true;
     player := {| source := None; playing := false |}; fs := files;
     threads := []; posted := []; requests := [] |}.

(** *** The event loop *)

Fixpoint repeat_call (n : nat) (m : Py unit) : Py unit :=
  match n with
  | 0 => Py.ret tt
  | S n' => m >> repeat_call n' m
  end.

(** What the owner of the widgets runs for [ev].  A signal is delivered to
    its slots.  A [QTimer.singleShot] call made in a [threading.Thread]
    starts a timer of that thread, which runs no event loop: its callback
    is never called. *)
Definition deliver (ev : ui_event) : Py unit :=
  match ev with
  | ResponseReceived response => handle_response response
  | SpeechRecognized message => handle_recognized_speech message
  | AudioReady audio_path =>
      let* n := Py.gets audio_ready_slots in
      repeat_call n (start_audio_playback audio_path)
  | AudioError error_msg => handle_audio_error error_msg
  | SpinnerShow | SpinnerHide | SystemMessage _ | StartPlayback _
  | ReportAudioError => Py.ret tt
  end.

(** The event loop handles everything that was queued, in order. *)
Definition drain : Py unit :=
  let* events := Py.gets posted in
  Py.modify (with_posted []) >>
  Py.for_each events deliver.

(** The body of a started thread. *)
Definition run (t : task) : Py unit :=
  match t with
  | ProcessMessage message => process_message message
  | RecognizeSpeech => recognize_speech_background
  | GenerateAudio last_response => generate_audio last_response
  end.

(** ** Auxiliary definitions for the statements *)

(** [s] ends with [suffix]. *)
Fixpoint ends_with (suffix s : string) : bool :=
  if String.eqb s suffix then true
  else match s with
       | EmptyString => false
       | String _ s' => ends_with suffix s'
       end.

(** A timestamp cut to the second, which is all the file formats keep. *)
Definition to_second (t : QDateTime) : N * N * N * N * N * N :=
  (year t, month t, day t, hour t, minute t, second t).

(** [open(path, "w")] succeeds. *)
Definition can_write (env : Env) (w : World) (path : string) : bool :=
  PyStr.truthy path
  && negb (cannot_open env path)
  && match fs w !! path with Some Dir => false | _ => true end.

(** The effect of a series of [save_conversation] calls, each with the
    environment it ran in. *)
Fixpoint save_all (calls : list (Env * string * string)) (w : World) : World :=
  match calls with
  | [] => w
  | (env, user_input, response) :: rest =>
      save_all rest (snd (save_conversation user_input response env w))
  end.

(** Every call of the series returned. *)
Fixpoint all_saved (calls : list (Env * string * string)) (w : World) : Prop :=
  match calls with
  | [] => True
  | (env, user_input, response) :: rest =>
      fst (save_conversation user_input response env w) = Returned tt /\
      all_saved rest (snd (save_conversation user_input response env w))
  end.

(** The exchanges such a series appends. *)
Definition exchanges_of (calls : list (Env * string * string)) : list value :=
  map (fun c => exchange (Fmt.display_stamp (clock (fst (fst c)))) (snd (fst c)) (snd c))
      calls.

(** The store holds no exchange: nothing in memory, and the durable file is
    missing or holds the empty list. *)
Definition empty_store (w : World) : Prop :=
  conversations w = VList [] /\
  (fs w !! "conversations.json" = None \/
   fs w !! "conversations.json" = Some (Json (VList []))).

(** *** Sample inputs *)

Module Sample.

Definition morning : QDateTime :=
  {| year := 2024; month := 11; day := 5;
     hour := 9; minute := 30; second := 15; msec := 120 |}.

(** Later within the same second. *)
Definition same_second : QDateTime :=
  {| year := 2024; month := 11; day := 5;
     hour := 9; minute := 30; second := 15; msec := 870 |}.

Definition next_second : QDateTime :=
  {| year := 2024; month := 11; day := 5;
     hour := 9; minute := 30; second := 16; msec := 5 |}.

(** One line per entry of the chat display. *)
Fixpoint plain (items : list chat_item) : string :=
  match items with
  | [] => EmptyString
  | Welcome :: rest => "Welcome to Spark AI Chat!" +:+ newline +:+ plain rest
  | Message sender message _ :: rest =>
      sender +:+ ": " +:+ message +:+ newline +:+ plain rest
  | DisplayError message :: rest =>
      "Error displaying message: " +:+ message +:+ newline +:+ plain rest
  end.

(** An endpoint that answers, files that can be written, a user who
    confirms. *)
Definition env_at (now : QDateTime) : Env :=
  {| clock := now;
     generate_content := fun _ _ => Returned (RObject (Attribute (VStr "Hi there")));
     cannot_open := fun _ => false;
     answers_yes := true;
     toPlainText := plain;
     detect := fun _ => Returned "en";
     tts := fun text _ => Returned ("mp3:" +:+ text);
     requests_get := Returned tt;
     heard := Returned "Hello" |}.

Definition env : Env := env_at morning.

(** The same, but the endpoint is unreachable. *)
Definition offline_env : Env :=
  {| clock := morning;
     generate_content := fun _ _ => Raised (Exn ServiceError "503 Service Unavailable");
     cannot_open := fun _ => false;
     answers_yes := true;
     toPlainText := plain;
     detect := fun _ => Returned "en";
     tts := fun text _ => Returned ("mp3:" +:+ text);
     requests_get := Raised (Exn ConnectionError "Max retries exceeded");
     heard := Returned "Hello" |}.


(** A running session without credential. *)
Definition no_key : World :=
  with_chat_display [Welcome] (with_current_model (VStr default_model) (blank ∅)).

(** A running session with a credential. *)
Definition with_key : World := with_api_key (Some "secret") no_key.

(** A session with one stored exchange. *)
Definition one_exchange : value :=
  exchange "2024-11-05 09:00:00" "Hello" "Hi there".

Definition chatted : World :=
  with_chat_display
    [Welcome; Message "Me" "Hello" (VStr "2024-11-05 09:00:00");
     Message "Gemini" "Hi there" (VStr "2024-11-05 09:00:00")]
    (with_conversations (VList [one_exchange])
       (with_fs {["conversations.json" := Json (VList [one_exchange])]} with_key)).

(** Two appends, a second apart. *)
Definition two_calls : list (Env * string * string) :=
  [(env, "Hello", "Hi there"); (env_at next_second, "How are you?", "Fine.")].

(** A configuration file with both fields, and one naming a model that
    is not offered. *)
Definition config_files : gmap string content :=
  {["config.json" :=
      Json (VDict [("font_size", VInt 20); ("selected_model", VStr "gemini-1.5-flash")])]}.

Definition stale_config_files : gmap string content :=
  {["config.json" :=
      Json (VDict [("font_size", VInt 14); ("selected_model", VStr "gemini-pro")])]}.

End Sample.

(** ** The rest of the session *)

(** The body of the [try] of [send_file]. *)
Definition read_and_send (file_path : string) : Py unit :=
  let* text := read_text file_path in
  let content := PyStr.strip text in
  if PyStr.truthy content then
    display_message "Me" (VStr content) VNone >>
    let* response := get_gemini_response content in
    display_message "Gemini" (VStr response) VNone >>
    save_conversation content response
  else Py.ret tt.

(** [send_file]; [file_path] is what [QFileDialog.getOpenFileName] gave,
    the empty string when the dialog was cancelled.  The file is read as
    text. *)
Definition send_file (file_path : string) : Py unit :=
  if PyStr.truthy file_path then
    Py.try_except
      (read_and_send file_path)
      (fun e =>
         display_message "System" (VStr ("Error reading file: " +:+ exn_msg e)) VNone)
  else Py.ret tt.

(** *** The slots of AudioController

    [audio_finished] is connected to [on_audio_finished] and [audio_error]
    to [handle_audio_error]; the player lives in the thread of the widgets,
    so the slots run in place. *)

Inductive PlaybackState : Type := StoppedState | PlayingState | PausedState.

Inductive MediaStatus : Type :=
| NoMedia | LoadingMedia | LoadedMedia | StalledMedia | BufferingMedia
| BufferedMedia | EndOfMedia | InvalidMedia.

Definition on_playback_state_changed (state : PlaybackState) : Py unit :=
  match state with
  | StoppedState => on_audio_finished
  | _ => Py.ret tt
  end.

Definition on_media_status_changed (status : MediaStatus) : Py unit :=
  match status with
  | EndOfMedia => on_audio_finished
  | InvalidMedia => handle_audio_error "Invalid media."
  | _ => Py.ret tt
  end.

(** [error_msg] is [self.player.errorString()]. *)
Definition on_error (error_msg : string) : Py unit :=
  handle_audio_error error_msg.

(** *** What can happen to a session *)

Inductive action : Type :=
| TypeText (text : string)
| SetContext (checked : bool)
| PressSend
| PressSpeech
| PressRead
| PressStop
| PressDelete
| ChooseFile (file_path : string)
| EnterKey (entered : string)
| ChooseModel (current_text : string)
| Run (t : task)
| Deliver (ev : ui_event)
| Drain
| PlaybackStateChanged (state : PlaybackState)
| MediaStatusChanged (status : MediaStatus)
| PlayerError (error_msg : string).

(** The handler the program has for each of them. *)
Definition perform (a : action) : Py unit :=
  match a with
  | TypeText text => Py.modify (with_message_input text)
  | SetContext checked => Py.modify (with_context_checkbox checked)
  | PressSend => send_message
  | PressSpeech => send_speech
  | PressRead => read_last_response
  | PressStop => stop_audio
  | PressDelete => delete_all_conversations
  | ChooseFile file_path => send_file file_path
  | EnterKey entered => set_api_key entered
  | ChooseModel current_text => update_selected_model current_text
  | Run t => run t
  | Deliver ev => deliver ev
  | Drain => drain
  | PlaybackStateChanged state => on_playback_state_changed state
  | MediaStatusChanged status => on_media_status_changed status
  | PlayerError error_msg => on_error error_msg
  end.

(** A history: each step with the environment it met.  An exception ends
    the handler, not the session. *)
Fixpoint perform_all (steps : list (Env * action)) (w : World) : World :=
  match steps with
  | [] => w
  | (env, a) :: rest => perform_all rest (snd (perform a env w))
  end.

(** The playback controls and the font slider share their place, and the
    flag [is_audio_playing] goes with the controls and a playing player. *)
Definition ui_consistent (w : World) : Prop :=
  (audio_controls_visible w = true -> font_size_slider_visible w = false) /\
  (is_audio_playing w = true ->
   audio_controls_visible w = true /\ font_size_slider_visible w = false /\
   playing (player w) = true).

(** [m] keeps [ui_consistent], whatever it returns or raises. *)
Definition keeps {A} (m : Py A) : Prop :=
  forall env w, ui_consistent w -> ui_consistent (snd (m env w)).

(** Every character of [s] is white space. *)
Fixpoint all_space (s : string) : bool :=
  match s with
  | EmptyString => true
  | String c s' => PyStr.isspace c && all_space s'
  end.

(** What [load_conversations] shows for stored exchanges, given as
    (timestamp, input, output): the stored timestamp, or the time of the
    replay where it is empty. *)
Definition replayed (now : QDateTime) (stored : list (string * string * string))
  : list chat_item :=
  flat_map
    (fun e =>
       let stamp := if PyStr.truthy (fst (fst e)) then VStr (fst (fst e))
                    else VStr (Fmt.display_stamp now) in
       [Message "Me" (snd (fst e)) stamp; Message "Gemini" (snd e) stamp])
    stored.

Definition stored_exchanges (stored : list (string * string * string)) : list value :=
  map (fun e => exchange (fst (fst e)) (snd (fst e)) (snd e)) stored.

(** *** Searching the chat *)

Module Search.
Section Navigation.

(** A [QTextCursor] on a match, and the matches [document().find] yields
    for a search term, in order. *)
Variable cursor : Type.
Variable find_all_matches : string -> list cursor.

(** What [chat_display.setTextCursor] was last given. *)
Inductive view : Type :=
| Unmoved
| AtMatch (c : cursor)
| WholeDocument.

(** [self.matches] and [self.current_match_index] are first assigned by
    [search_text]; [None] is an attribute that does not exist yet. *)
Record state : Type := {
  matches : option (list cursor);
  current_match_index : option Z;
  text_cursor : view
}.

(** [l[i]] *)
Definition item (l : list cursor) (i : Z) : option cursor :=
  let n := Z.of_nat (length l) in
  if ((0 <=? i) && (i <? n))%Z then l !! Z.to_nat i
  else if ((- n <=? i) && (i <? 0))%Z then l !! Z.to_nat (n + i)
  else None.

Definition missing_attribute (name : string) : exn :=
  Exn AttributeError ("'GeminiApp' object has no attribute '" +:+ name +:+ "'").

Definition highlight_next_match (s : state) : outcome unit * state :=
  match matches s with
  | None => (Raised (missing_attribute "matches"), s)
  | Some [] => (Returned tt, s)
  | Some l =>
      match current_match_index s with
      | None => (Raised (missing_attribute "current_match_index"), s)
      | Some i =>
          let i' := ((i + 1) mod Z.of_nat (length l))%Z in
          match item l i' with
          | Some c =>
              (Returned tt,
               {| matches := Some l; current_match_index := Some i';
                  text_cursor := AtMatch c |})
          | None =>
              (Raised (Exn IndexError "list index out of range"),
               {| matches := Some l; current_match_index := Some i';
                  text_cursor := text_cursor s |})
          end
      end
  end.

Definition highlight_previous_match (s : state) : outcome unit * state :=
  match matches s with
  | None => (Raised (missing_attribute "matches"), s)
  | Some [] => (Returned tt, s)
  | Some l =>
      match current_match_index s with
      | None => (Raised (missing_attribute "current_match_index"), s)
      | Some i =>
          let i' := ((i - 1) mod Z.of_nat (length l))%Z in
          match item l i' with
          | Some c =>
              (Returned tt,
               {| matches := Some l; current_match_index := Some i';
                  text_cursor := AtMatch c |})
          | None =>
              (Raised (Exn IndexError "list index out of range"),
               {| matches := Some l; current_match_index := Some i';
                  text_cursor := text_cursor s |})
          end
      end
  end.

(** [text] is [self.search_input.text()]. *)
Definition search_text (text : string) (s : state) : outcome unit * state :=
  let search_term := PyStr.strip text in
  if negb (PyStr.truthy search_term) then
    (Returned tt,
     {| matches := matches s; current_match_index := current_match_index s;
        text_cursor := WholeDocument |})
  else
    highlight_next_match
      {| matches := Some (find_all_matches search_term);
         current_match_index := Some (-1)%Z;
         text_cursor := text_cursor s |}.

(** [n] presses of the next button. *)
Fixpoint press_next (n : nat) (s : state) : state :=
  match n with
  | 0 => s
  | S n' => press_next n' (snd (highlight_next_match s))
  end.

End Navigation.

Arguments Unmoved {cursor}.
Arguments AtMatch {cursor} c.
Arguments WholeDocument {cursor}.
Arguments Build_state {cursor} matches current_match_index text_cursor.
Arguments matches {cursor} s.
Arguments current_match_index {cursor} s.
Arguments text_cursor {cursor} s.
Arguments item {cursor} l i.
Arguments highlight_next_match {cursor} s.
Arguments highlight_previous_match {cursor} s.
Arguments search_text {cursor} find_all_matches text s.
Arguments press_next {cursor} n s.

End Search.

(** *** Escaping for the chat display *)

Module Html.

(** [s.replace(old, new)] for a pattern [old] of one character. *)
Fixpoint replace_char (old : ascii) (new : string) (s : string) : string :=
  match s with
  | EmptyString => EmptyString
  | String c s' =>
      (if Ascii.eqb c old then new else String c EmptyString)
      +:+ replace_char old new s'
  end.

Definition escape_html (text : string) : string :=
  replace_char ">" "&gt;" (replace_char "<" "&lt;" (replace_char "&" "&amp;" text)).

(** What [display_message] makes of a message that is not a code block. *)
Definition formatted_message (message : string) : string :=
  replace_char "010" "<br>"
    (replace_char ">" "&gt;"
       (replace_char "<" "&lt;" (replace_char "&" "&amp;" message))).

(** [c] occurs in [s]. *)
Fixpoint occurs (c : ascii) (s : string) : bool :=
  match s with
  | EmptyString => false
  | String c' s' => Ascii.eqb c' c || occurs c s'
  end.

(** Reads the three entities and the line break tag back. *)
Fixpoint unescape (s : string) : string :=
  match s with
  | String "&" (String "a" (String "m" (String "p" (String ";" rest)))) =>
      String "&" (unescape rest)
  | String "&" (String "l" (String "t" (String ";" rest))) =>
      String "<" (unescape rest)
  | String "&" (String "g" (String "t" (String ";" rest))) =>
      String ">" (unescape rest)
  | String "<" (String "b" (String "r" (String ">" rest))) =>
      String "010" (unescape rest)
  | String c rest => String c (unescape rest)
  | EmptyString => EmptyString
  end.

End Html.

(** *** More sample inputs *)

Module Scenario.

(** The recognizer cannot make out the recording. *)
Definition deaf_env : Env :=
  {| clock := Sample.morning;
     generate_content := fun _ _ => Returned (RObject (Attribute (VStr "Hi there")));
     cannot_open := fun _ => false;
     answers_yes := true;
     toPlainText := Sample.plain;
     detect := fun _ => Returned "en";
     tts := fun text _ => Returned ("mp3:" +:+ text);
     requests_get := Returned tt;
     heard := Raised (Exn UnknownValueError EmptyString) |}.

(** The request for the audio fails. *)
Definition mute_env : Env :=
  {| clock := Sample.morning;
     generate_content := fun _ _ => Returned (RObject (Attribute (VStr "Hi there")));
     cannot_open := fun _ => false;
     answers_yes := true;
     toPlainText := Sample.plain;
     detect := fun _ => Returned "en";
     tts := fun _ _ => Raised (Exn gTTSError "Failed to connect");
     requests_get := Returned tt;
     heard := Returned "Hello" |}.




(** The connectivity probe times out while reading. *)
Definition slow_env : Env :=
  {| clock := Sample.morning;
     generate_content := fun _ _ => Returned (RObject (Attribute (VStr "Hi there")));
     cannot_open := fun _ => false;
     answers_yes := true;
     toPlainText := Sample.plain;
     detect := fun _ => Returned "en";
     tts := fun text _ => Returned ("mp3:" +:+ text);
     requests_get := Raised (Exn ReadTimeout "Read timed out. (read timeout=3)");
     heard := Returned "Hello" |}.

End Scenario.


(** * Properties *)

(** ** The monad *)

Ltac run_py :=
  unfold Py.bind, Py.try_except, Py.ret, Py.raise, Py.gets, Py.ask,
    Py.modify, Py.of_outcome in *; simpl in *.

Lemma try_except_returns {A} (m : Py A) (handler : exn -> Py A) env w :
  (forall e w1, exists a w2, handler e env w1 = (Returned a, w2)) ->
  exists a w', Py.try_except m handler env w = (Returned a, w').
Proof.
  intros Hhandler. unfold Py.try_except.
  destruct (m env w) as [[a | e] w1]; eauto.
Qed.

(** ** Response generation *)

Lemma get_gemini_response_no_key env w message :
  key_set (api_key w) = false ->
  get_gemini_response message env w =
    (Returned "API key is missing. Please set it first.", w).
Proof.
  intros Hkey. unfold get_gemini_response. run_py. now rewrite Hkey.
Qed.

Lemma get_gemini_response_returns env w message :
  exists text w', get_gemini_response message env w = (Returned text, w').
Proof.
  destruct (key_set (api_key w)) eqn:Hkey.
  - unfold get_gemini_response, Py.bind at 1, Py.gets at 1.
    rewrite Hkey. simpl.
    apply try_except_returns. intros e w1. unfold Py.ret. eauto.
  - rewrite get_gemini_response_no_key by assumption. eauto.
Qed.

(** C10. [get_gemini_response] is total: for every message, every state of
    the credential and every behaviour of the endpoint it returns a string
    and raises nothing.  A missing credential, an exception raised by the
    endpoint and a response with no usable text each give their own
    descriptive text. *)
Theorem get_gemini_response_total env w message :
  (exists text w', get_gemini_response message env w = (Returned text, w')) /\
  (key_set (api_key w) = false ->
   fst (get_gemini_response message env w) =
     Returned "API key is missing. Please set it first.") /\
  (key_set (api_key w) = true ->
   forall e, generate_content env (current_model w) message = Raised e ->
   fst (get_gemini_response message env w) =
     Returned ("Error while fetching response: " +:+ exn_msg e)) /\
  (key_set (api_key w) = true ->
   forall r, generate_content env (current_model w) message = Returned r ->
   r = RObject NoAttribute \/ r = RList [] ->
   fst (get_gemini_response message env w) =
     Returned "No valid response received from Gemini. Please try again.").
Proof.
  split; [apply get_gemini_response_returns |].
  split; [intros Hkey; now rewrite get_gemini_response_no_key |].
  split.
  - intros Hkey e Hcall. unfold get_gemini_response, call_endpoint. run_py.
    rewrite Hkey. simpl. now rewrite Hcall.
  - intros Hkey r Hcall Hr. unfold get_gemini_response, call_endpoint. run_py.
    rewrite Hkey. simpl. rewrite Hcall.
    destruct Hr as [-> | ->]; reflexivity.
Qed.

(** The three cases of C10 on the sample session. *)
Lemma get_gemini_response_total_witness :
  fst (get_gemini_response "Hello" Sample.env Sample.no_key) =
    Returned "API key is missing. Please set it first." /\
  fst (get_gemini_response "Hello" Sample.offline_env Sample.with_key) =
    Returned "Error while fetching response: 503 Service Unavailable".
Proof.
  split.
  - apply (get_gemini_response_total Sample.env Sample.no_key "Hello").
    reflexivity.
  - destruct (get_gemini_response_total Sample.offline_env Sample.with_key "Hello")
      as (_ & _ & Hraised & _).
    apply (Hraised eq_refl (Exn ServiceError "503 Service Unavailable")).
    reflexivity.
Defined.

(** C4, as stated, fails: without a credential the call does not fail with
    an error, it returns an ordinary string. *)
Lemma missing_credential_is_not_an_error :
  key_set (api_key Sample.no_key) = false /\
  fst (get_gemini_response "Hello" Sample.env Sample.no_key) =
    Returned "API key is missing. Please set it first." /\
  ~ (exists e, fst (get_gemini_response "Hello" Sample.env Sample.no_key) = Raised e).
Proof.
  split; [reflexivity |]. split; [reflexivity |].
  intros [e He]. vm_compute in He. discriminate He.
Qed.

(** C4, amended.  For every prompt, model and endpoint, when the credential
    is absent or empty the call returns the fixed text about the missing
    key as an ordinary result; the check comes before any request, so no
    request reaches the endpoint and nothing else changes either. *)
Theorem missing_credential_returns_text env w message :
  api_key w = None \/ api_key w = Some EmptyString ->
  get_gemini_response message env w =
    (Returned "API key is missing. Please set it first.", w) /\
  requests (snd (get_gemini_response message env w)) = requests w.
Proof.
  intros Hkey.
  assert (key_set (api_key w) = false) as Hunset
    by (destruct Hkey as [-> | ->]; reflexivity).
  rewrite get_gemini_response_no_key by assumption. split; reflexivity.
Qed.

Lemma missing_credential_returns_text_witness :
  get_gemini_response "Hello" Sample.env Sample.no_key =
    (Returned "API key is missing. Please set it first.", Sample.no_key) /\
  requests (snd (get_gemini_response "Hello" Sample.env Sample.no_key)) =
    requests Sample.no_key.
Proof.
  apply (missing_credential_returns_text Sample.env Sample.no_key "Hello").
  left. reflexivity.
Defined.

(** ** Files *)

Lemma write_file_ok env w path c :
  can_write env w path = true ->
  write_file path c env w = (Returned tt, with_fs (<[path := c]> (fs w)) w).
Proof.
  unfold can_write, write_file. run_py. intros Hcan.
  destruct path as [| a path]; [discriminate Hcan |].
  destruct (cannot_open env (String a path)); [discriminate Hcan |].
  destruct (fs w !! String a path) as [[] |]; simpl in *;
    try discriminate Hcan; reflexivity.
Qed.

Lemma write_file_fails env w path c :
  can_write env w path = false ->
  exists e, write_file path c env w = (Raised e, w).
Proof.
  unfold can_write, write_file. run_py. intros Hcan.
  destruct path as [| a path]; [eauto |].
  destruct (cannot_open env (String a path));
    destruct (fs w !! String a path) as [[] |]; simpl in *;
    try discriminate Hcan; eauto.
Qed.

Lemma exists_spec env w path :
  exists_ path env w = (Returned (bool_decide (is_Some (fs w !! path))), w).
Proof. reflexivity. Qed.

Lemma json_load_stored env w path v :
  fs w !! path = Some (Json v) ->
  json_load path env w = (Returned v, w).
Proof.
  intros Hfile. unfold json_load, Py.bind, Py.gets. now rewrite Hfile.
Qed.

#[global] Opaque write_file exists_ json_load.

(** ** Submissions *)

(** Response generation changes nothing but the list of requests. *)
Lemma get_gemini_response_world env w message :
  exists text,
    get_gemini_response message env w =
      (Returned text,
       if key_set (api_key w)
       then with_requests (requests w ++ [(current_model w, message)]) w
       else w).
Proof.
  unfold get_gemini_response, call_endpoint, hasattr_text, text_of, str_strip.
  run_py. destruct (key_set (api_key w)); simpl; [| eauto].
  destruct (generate_content env (current_model w) message) as [r | e];
    simpl; [| eauto].
  destruct r as [[| v | e] | [| first rest]]; simpl; eauto.
  - destruct v; simpl; eauto.
  - destruct (exn_is e); simpl; eauto.
  - destruct first as [[| v | e] | items]; simpl; eauto.
    destruct v; simpl; eauto.
Qed.

(** What is queued for the widgets plays no part in it. *)
Lemma get_gemini_response_posted env w message events :
  fst (get_gemini_response message env (with_posted events w)) =
  fst (get_gemini_response message env w).
Proof.
  unfold get_gemini_response, call_endpoint, hasattr_text, text_of, str_strip.
  run_py. destruct (key_set (api_key w)); simpl; [| reflexivity].
  destruct (generate_content env (current_model w) message) as [r | e];
    simpl; [| reflexivity].
  destruct r as [[| v | e] | [| first rest]]; simpl; try reflexivity.
  - destruct v; reflexivity.
  - destruct (exn_is e); reflexivity.
  - destruct first as [[| v | e] | items]; simpl; try reflexivity.
    destruct v; reflexivity.
Qed.

Lemma save_conversation_ok env w user_input response l :
  conversations w = VList l ->
  can_write env w "conversations.json" = true ->
  save_conversation user_input response env w =
    (Returned tt,
     with_fs (<["conversations.json" :=
                 Json (VList (l ++ [exchange (Fmt.display_stamp (clock env))
                                      user_input response]))]> (fs w))
       (with_conversations
          (VList (l ++ [exchange (Fmt.display_stamp (clock env)) user_input response]))
          w)).
Proof.
  intros Hconv Hcan. unfold save_conversation, json_dump. run_py.
  rewrite Hconv. simpl. now rewrite write_file_ok.
Qed.

Lemma save_conversation_fails env w user_input response l :
  conversations w = VList l ->
  can_write env w "conversations.json" = false ->
  exists e,
    save_conversation user_input response env w =
      (Raised e,
       with_conversations
         (VList (l ++ [exchange (Fmt.display_stamp (clock env)) user_input response]))
         w).
Proof.
  intros Hconv Hcan. unfold save_conversation, json_dump. run_py.
  rewrite Hconv. simpl.
  match goal with
  | |- context [write_file ?p ?c env ?w1] =>
      destruct (write_file_fails env w1 p c Hcan) as [e ->]
  end.
  eauto.
Qed.

(** C1, as stated, fails: a submission whose generation fails (no
    credential in the first case, an unreachable endpoint in the second)
    appends an exchange whose output is the error text, and the event loop
    shows that text as a reply of Gemini, not as a message of the system. *)
Lemma failed_generation_is_appended :
  (conversations (snd (process_message "Hello" Sample.env Sample.no_key)) =
     VList [exchange "2024-11-05 09:30:15" "Hello"
              "API key is missing. Please set it first."] /\
   chat_display
     (snd (drain Sample.env (snd (process_message "Hello" Sample.env Sample.no_key)))) =
     [Welcome;
      Message "Gemini" "API key is missing. Please set it first."
        (VStr "2024-11-05 09:30:15")]) /\
  (conversations (snd (process_message "Hello" Sample.offline_env Sample.with_key)) =
     VList [exchange "2024-11-05 09:30:15" "Hello"
              "Error while fetching response: 503 Service Unavailable"] /\
   chat_display
     (snd (drain Sample.offline_env
             (snd (process_message "Hello" Sample.offline_env Sample.with_key)))) =
     [Welcome;
      Message "Gemini" "Error while fetching response: 503 Service Unavailable"
        (VStr "2024-11-05 09:30:15")]).
Proof. repeat split; vm_compute; reflexivity. Qed.

(** C1, amended.  For every submission, whether the generation succeeded or
    failed, [process_message] returns, the text that [get_gemini_response]
    returned (the reply, or the text describing the failure) is emitted as
    the reply, and one exchange with the prompt and that text is appended to
    the conversations.  When the durable file can be written it then holds
    the new list; when it cannot, a message for the system sender is queued
    instead of hiding the spinner, and the exchange stays in memory.  The
    event loop shows the emitted text as a message of Gemini. *)
Theorem process_message_always_appends env w message l :
  conversations w = VList l ->
  exists text,
    fst (get_gemini_response message env w) = Returned text /\
    fst (process_message message env w) = Returned tt /\
    conversations (snd (process_message message env w)) =
      VList (l ++ [exchange (Fmt.display_stamp (clock env)) message text]) /\
    (can_write env w "conversations.json" = true ->
     posted (snd (process_message message env w)) =
       posted w ++ [SpinnerShow; ResponseReceived text; SpinnerHide] /\
     fs (snd (process_message message env w)) !! "conversations.json" =
       Some (Json (conversations (snd (process_message message env w))))) /\
    (can_write env w "conversations.json" = false ->
     fs (snd (process_message message env w)) = fs w /\
     exists e,
       posted (snd (process_message message env w)) =
         posted w ++ [SpinnerShow; ResponseReceived text;
                      SystemMessage ("Error: " +:+ exn_msg e)]) /\
    (forall env' w',
       chat_display (snd (deliver (ResponseReceived text) env' w')) =
         chat_display w' ++
           [Message "Gemini" text (VStr (Fmt.display_stamp (clock env')))]).
Proof.
  intros Hconv.
  destruct (get_gemini_response_world env
              (with_posted (posted w ++ [SpinnerShow]) w) message)
    as [text Hrun].
  pose proof (get_gemini_response_posted env w message (posted w ++ [SpinnerShow]))
    as Hsame.
  rewrite Hrun in Hsame. simpl in Hsame.
  exists text. split; [now symmetry |].
  unfold process_message, post. run_py. rewrite Hrun. simpl.
  set (w1 := if key_set (api_key w) then _ else _).
  assert (conversations w1 = VList l /\ fs w1 = fs w /\
          posted w1 = posted w ++ [SpinnerShow]) as (Hc1 & Hf1 & Hp1)
    by (subst w1; destruct (key_set (api_key w)); simpl; auto).
  set (w2 := with_posted (posted w1 ++ [ResponseReceived text]) w1).
  assert (conversations w2 = VList l) as Hc2 by exact Hc1.
  assert (can_write env w2 "conversations.json" =
          can_write env w "conversations.json") as Hcw
    by (unfold can_write; simpl; now rewrite Hf1).
  destruct (can_write env w "conversations.json") eqn:Hcan.
  - rewrite (save_conversation_ok env w2 message text l Hc2 Hcw). simpl.
    split; [reflexivity |]. split; [reflexivity |]. split; [| split].
    + intros _. split.
      * rewrite Hp1, <- !app_assoc. reflexivity.
      * apply lookup_insert_eq.
    + discriminate.
    + reflexivity.
  - destruct (save_conversation_fails env w2 message text l Hc2 Hcw) as [e ->].
    simpl.
    split; [reflexivity |]. split; [reflexivity |]. split; [| split].
    + discriminate.
    + intros _. split; [exact Hf1 |].
      exists e. rewrite Hp1, <- !app_assoc. reflexivity.
    + reflexivity.
Qed.

Lemma process_message_always_appends_witness :
  exists text,
    fst (get_gemini_response "Hello" Sample.offline_env Sample.with_key) =
      Returned text /\
    conversations (snd (process_message "Hello" Sample.offline_env Sample.with_key)) =
      VList ([] ++ [exchange (Fmt.display_stamp Sample.morning) "Hello" text]).
Proof.
  destruct (process_message_always_appends Sample.offline_env Sample.with_key
              "Hello" [] eq_refl) as (text & Htext & _ & Hconv & _).
  exists text. split; assumption.
Defined.

(** ** The conversation store *)

Lemma save_all_spec calls : forall w l,
  conversations w = VList l ->
  all_saved calls w ->
  conversations (save_all calls w) = VList (l ++ exchanges_of calls) /\
  fs (save_all calls w) !! "conversations.json" =
    match calls with
    | [] => fs w !! "conversations.json"
    | _ => Some (Json (VList (l ++ exchanges_of calls)))
    end.
Proof.
  induction calls as [| [[env user_input] response] rest IH]; intros w l Hconv Hsaved.
  - simpl. rewrite app_nil_r. auto.
  - destruct Hsaved as [Hret Hrest].
    change (save_all ((env, user_input, response) :: rest) w)
      with (save_all rest (snd (save_conversation user_input response env w))).
    destruct (can_write env w "conversations.json") eqn:Hcan.
    + rewrite (save_conversation_ok env w user_input response l Hconv Hcan) in *.
      cbn [fst snd] in *.
      set (l1 := l ++ [exchange (Fmt.display_stamp (clock env)) user_input response]) in *.
      set (w1 := with_fs _ _) in *.
      assert (conversations w1 = VList l1) as Hconv1 by reflexivity.
      destruct (IH w1 l1 Hconv1 Hrest) as [Hmem Hfile].
      assert (l1 ++ exchanges_of rest =
              l ++ exchanges_of ((env, user_input, response) :: rest)) as Heq
        by (subst l1; rewrite <- app_assoc; reflexivity).
      rewrite <- Heq. split; [exact Hmem |].
      rewrite Hfile. destruct rest; [| reflexivity].
      simpl. subst w1. simpl. rewrite app_nil_r. apply lookup_insert_eq.
    + destruct (save_conversation_fails env w user_input response l Hconv Hcan)
        as [e Hfail].
      rewrite Hfail in Hret. discriminate Hret.
Qed.

(** Replaying stored exchanges raises nothing and leaves the store alone. *)
Lemma replay_exchanges env (calls : list (Env * string * string)) : forall w,
  exists w',
    Py.for_each (exchanges_of calls) replay env w = (Returned tt, w') /\
    conversations w' = conversations w.
Proof.
  induction calls as [| [[env0 user_input] response] rest IH]; intros w.
  - simpl. unfold Py.ret. eauto.
  - simpl. unfold replay at 1. unfold display_message. run_py.
    match goal with
    | |- context [Py.for_each _ _ env ?w1] => destruct (IH w1) as (w' & Hrun & Hconv)
    end.
    exists w'. split; [exact Hrun |]. rewrite Hconv. reflexivity.
Qed.

Lemma load_conversations_missing env w :
  fs w !! "conversations.json" = None ->
  load_conversations env w = (Returned tt, w).
Proof.
  intros Hfile. unfold load_conversations, Py.bind. rewrite exists_spec.
  rewrite Hfile. rewrite bool_decide_eq_false_2; [reflexivity |].
  intros [x Hx]. discriminate Hx.
Qed.

Lemma load_conversations_list env w items :
  fs w !! "conversations.json" = Some (Json (VList items)) ->
  load_conversations env w =
    Py.for_each items replay env (with_conversations (VList items) w).
Proof.
  intros Hfile. unfold load_conversations, Py.bind. rewrite exists_spec.
  rewrite bool_decide_eq_true_2 by (rewrite Hfile; eauto).
  rewrite (json_load_stored env w _ _ Hfile). reflexivity.
Qed.

Lemma load_conversations_stored env w calls :
  fs w !! "conversations.json" = Some (Json (VList (exchanges_of calls))) ->
  fst (load_conversations env w) = Returned tt /\
  conversations (snd (load_conversations env w)) = VList (exchanges_of calls).
Proof.
  intros Hfile. rewrite (load_conversations_list env w _ Hfile).
  destruct (replay_exchanges env calls
              (with_conversations (VList (exchanges_of calls)) w))
    as (w' & Hrun & Hconv).
  rewrite Hrun. simpl. split; [reflexivity | exact Hconv].
Qed.

(** C2.  Start from an empty store and let a series of [save_conversation]
    calls all return.  A session started afterwards on the same files
    ([__init__] has set [self.conversations = []]) loads exactly the
    exchanges that were appended, in the order of the calls and with their
    inputs and outputs unchanged; loading raises nothing. *)
Theorem load_returns_what_was_saved calls w env' w' :
  empty_store w ->
  all_saved calls w ->
  conversations w' = VList [] ->
  fs w' = fs (save_all calls w) ->
  fst (load_conversations env' w') = Returned tt /\
  conversations (snd (load_conversations env' w')) = VList (exchanges_of calls).
Proof.
  intros [Hmem Hdisk] Hsaved Hfresh Hfiles.
  destruct (save_all_spec calls w [] Hmem Hsaved) as [_ Hfile].
  rewrite <- Hfiles in Hfile.
  destruct calls as [| call rest].
  - destruct Hdisk as [Hnone | Hempty].
    + rewrite load_conversations_missing by (rewrite Hfile; exact Hnone). auto.
    + apply (load_conversations_stored env' w' []).
      rewrite Hfile. exact Hempty.
  - apply load_conversations_stored. exact Hfile.
Qed.

Lemma load_returns_what_was_saved_witness :
  fst (load_conversations Sample.env
         (blank (fs (save_all Sample.two_calls Sample.no_key)))) = Returned tt /\
  conversations
    (snd (load_conversations Sample.env
            (blank (fs (save_all Sample.two_calls Sample.no_key))))) =
    VList (exchanges_of Sample.two_calls).
Proof.
  apply (load_returns_what_was_saved Sample.two_calls Sample.no_key).
  - split; [reflexivity | left; reflexivity].
  - simpl. repeat split; vm_compute; reflexivity.
  - reflexivity.
  - reflexivity.
Defined.

(** ** Clearing *)

Lemma archive_is_not_the_log now :
  archive_filename_at now <> "conversations.json".
Proof.
  intros Heq.
  apply (f_equal (fun s => match s with
                           | String c _ => c
                           | EmptyString => "000"%char
                           end)) in Heq.
  vm_compute in Heq. discriminate Heq.
Qed.

Lemma can_write_other env w path other c :
  other <> path ->
  can_write env (with_fs (<[other := c]> (fs w)) w) path = can_write env w path.
Proof.
  intros Hne. unfold can_write. simpl. now rewrite lookup_insert_ne.
Qed.

(** The run of [delete_all_conversations] once the user has confirmed and
    the archive was written. *)
Lemma delete_all_conversations_confirmed env w :
  answers_yes env = true ->
  can_write env w (archive_filename_at (clock env)) = true ->
  delete_all_conversations env w =
    (json_dump (VList []) "conversations.json" >>
     Py.modify (with_chat_display []) >>
     display_message "System" (VStr "All conversations deleted and archived.") VNone)
      env
      (with_conversations (VList [])
         (with_fs (<[archive_filename_at (clock env) :=
                      Text (toPlainText env (chat_display w))]> (fs w)) w)).
Proof.
  intros Hyes Hcan. unfold delete_all_conversations. run_py.
  rewrite Hyes. now rewrite write_file_ok.
Qed.




(** ** Configuration *)

(** Where the loaded model is the default: no configuration file, or a
    configuration without the field. *)
Lemma load_model_selection_default env w :
  fs w !! "config.json" = None \/
  (exists d, fs w !! "config.json" = Some (Json (VDict d)) /\
             dict_get "selected_model" d = None) ->
  load_model_selection env w = (Returned (VStr default_model), w) /\
  In default_model available_models.
Proof.
  intros Hconfig. split; [| left; reflexivity].
  unfold load_model_selection, Py.bind. rewrite exists_spec.
  destruct Hconfig as [Hnone | (d & Hfile & Hfield)].
  - rewrite bool_decide_eq_false_2; [reflexivity |].
    rewrite Hnone. intros [x Hx]. discriminate Hx.
  - rewrite bool_decide_eq_true_2 by (rewrite Hfile; eauto).
    rewrite (json_load_stored env w _ _ Hfile).
    unfold get_method, Py.ret. now rewrite Hfield.
Qed.

(** C5, on an input where the code breaks it: the stored configuration
    names a model that is not offered.  [load_model_selection] returns that
    name as it is, the name is not among the available models, and
    [__init__] raises [ValueError] when [setup_ui] looks it up. *)
Theorem unrecognised_model_stops_startup :
  fst (load_model_selection Sample.env (blank Sample.stale_config_files)) =
    Returned (VStr "gemini-pro") /\
  index_of (VStr "gemini-pro") available_models = None /\
  fst (__init__ Sample.env (blank Sample.stale_config_files)) =
    Raised (Exn ValueError "is not in list").
Proof. repeat split; vm_compute; reflexivity. Qed.

(** C6, on inputs where the code breaks it.  With a configuration that
    holds both fields, choosing another model rewrites the file with the
    model alone: the font size is gone from the file, and the next
    [load_font_size] gives the default 14 instead of the stored 20.  And
    [save_font_size] opens the empty path, so it raises whatever the size
    and writes nothing. *)
Theorem saving_the_model_drops_the_font_size :
  fst (load_font_size Sample.env (blank Sample.config_files)) = Returned (VInt 20) /\
  fs (snd (update_selected_model "gemini-1.5-pro" Sample.env
             (blank Sample.config_files))) !! "config.json" =
    Some (Json (VDict [("selected_model", VStr "gemini-1.5-pro")])) /\
  fst (load_font_size Sample.env
         (snd (update_selected_model "gemini-1.5-pro" Sample.env
                 (blank Sample.config_files)))) = Returned (VInt 14) /\
  (forall v env w, exists e, save_font_size v env w = (Raised e, w)).
Proof.
  split; [vm_compute; reflexivity |].
  split; [vm_compute; reflexivity |].
  split; [vm_compute; reflexivity |].
  intros v env w. unfold save_font_size, json_dump.
  apply write_file_fails. reflexivity.
Qed.

(** ** Names of audio artifacts *)

Lemma digit_inj a b : (a < 10)%N -> (b < 10)%N -> Fmt.digit a = Fmt.digit b -> a = b.
Proof.
  intros Ha Hb Heq. unfold Fmt.digit in Heq.
  apply (f_equal N_of_ascii) in Heq.
  rewrite !N_ascii_embedding in Heq by lia. lia.
Qed.

(** The fifteen characters of a file stamp. *)
Lemma file_stamp_chars t rest :
  Fmt.file_stamp t +:+ rest =
  String (Fmt.digit (year t / 100 / 10)) (String (Fmt.digit ((year t / 100) mod 10))
  (String (Fmt.digit (year t mod 100 / 10)) (String (Fmt.digit ((year t mod 100) mod 10))
  (String (Fmt.digit (month t / 10)) (String (Fmt.digit (month t mod 10))
  (String (Fmt.digit (day t / 10)) (String (Fmt.digit (day t mod 10))
  (String "_"%char
  (String (Fmt.digit (hour t / 10)) (String (Fmt.digit (hour t mod 10))
  (String (Fmt.digit (minute t / 10)) (String (Fmt.digit (minute t mod 10))
  (String (Fmt.digit (second t / 10)) (String (Fmt.digit (second t mod 10))
    rest))))))))))))))%N.
Proof. reflexivity. Qed.

(** Quotient and remainder by a non-zero constant, as facts for [lia]. *)
Lemma div_mod_facts n d :
  (0 < d)%N -> (n = d * (n / d) + n mod d /\ n mod d < d)%N.
Proof.
  intros Hd. split.
  - apply N.div_mod. lia.
  - apply N.mod_lt. lia.
Qed.

(** Names the quotient and the remainder of [n] by [d] and keeps only the
    facts above about them. *)
Ltac split_by n d :=
  let H := fresh "Hdiv" in
  let q := fresh "q" in
  let r := fresh "r" in
  pose proof (div_mod_facts n d ltac:(reflexivity)) as H;
  set (q := (n / d)%N) in *; set (r := (n mod d)%N) in *;
  clearbody q r; destruct H.

Lemma two_digits_inj a b :
  (a < 100)%N -> (b < 100)%N ->
  Fmt.digit (a / 10) = Fmt.digit (b / 10) ->
  Fmt.digit (a mod 10) = Fmt.digit (b mod 10) ->
  a = b.
Proof.
  intros Ha Hb Hhigh Hlow.
  split_by a 10%N. split_by b 10%N.
  apply digit_inj in Hhigh; [| lia | lia].
  apply digit_inj in Hlow; [| lia | lia].
  lia.
Qed.

Lemma file_stamp_inj t1 t2 rest1 rest2 :
  valid_datetime t1 -> valid_datetime t2 ->
  Fmt.file_stamp t1 +:+ rest1 = Fmt.file_stamp t2 +:+ rest2 ->
  to_second t1 = to_second t2.
Proof.
  intros (Hy1 & Hmo1 & Hd1 & Hh1 & Hmi1 & Hs1 & _)
         (Hy2 & Hmo2 & Hd2 & Hh2 & Hmi2 & Hs2 & _) Heq.
  rewrite !file_stamp_chars in Heq.
  injection Heq as Y1 Y2 Y3 Y4 M1 M2 D1 D2 H1 H2 I1 I2 S1 S2 _.
  split_by (year t1) 100%N. split_by (year t2) 100%N.
  assert (q = q0) as Hcentury
    by (apply two_digits_inj; [lia | lia | assumption | assumption]).
  assert (r = r0) as Hyy
    by (apply two_digits_inj; [lia | lia | assumption | assumption]).
  assert (year t1 = year t2) as Hyear by lia.
  assert (month t1 = month t2) as Hmonth
    by (apply two_digits_inj; [lia | lia | assumption | assumption]).
  assert (day t1 = day t2) as Hday
    by (apply two_digits_inj; [lia | lia | assumption | assumption]).
  assert (hour t1 = hour t2) as Hhour
    by (apply two_digits_inj; [lia | lia | assumption | assumption]).
  assert (minute t1 = minute t2) as Hminute
    by (apply two_digits_inj; [lia | lia | assumption | assumption]).
  assert (second t1 = second t2) as Hsecond
    by (apply two_digits_inj; [lia | lia | assumption | assumption]).
  unfold to_second. congruence.
Qed.

Lemma append_inv_head prefix s1 s2 :
  prefix +:+ s1 = prefix +:+ s2 -> s1 = s2.
Proof.
  induction prefix as [| c prefix IH]; intros Heq.
  - exact Heq.
  - apply IH.
    change (String c (prefix +:+ s1) = String c (prefix +:+ s2)) in Heq.
    now injection Heq.
Qed.

Lemma audio_path_at_inj t1 t2 :
  valid_datetime t1 -> valid_datetime t2 ->
  audio_path_at t1 = audio_path_at t2 ->
  to_second t1 = to_second t2.
Proof.
  intros Hv1 Hv2 Heq. unfold audio_path_at in Heq.
  do 2 apply append_inv_head in Heq.
  exact (file_stamp_inj t1 t2 _ _ Hv1 Hv2 Heq).
Qed.

Lemma audio_path_at_by_second t1 t2 :
  to_second t1 = to_second t2 -> audio_path_at t1 = audio_path_at t2.
Proof.
  unfold to_second. intros Heq. injection Heq as Hy Hmo Hd Hh Hmi Hs.
  unfold audio_path_at, Fmt.file_stamp. congruence.
Qed.

Lemma audio_path_is_not_the_directory now : "audio" <> audio_path_at now.
Proof.
  intros Heq. apply (f_equal String.length) in Heq.
  vm_compute in Heq. discriminate Heq.
Qed.

(** A call of [generate_audio] whose detection, synthesis and write succeed
    puts the audio under the name made from its clock reading and touches
    no file but that one and the [audio] directory. *)
Lemma generate_audio_stores env w text lang audio :
  detect env text = Returned lang ->
  tts env text lang = Returned audio ->
  can_write env w (audio_path_at (clock env)) = true ->
  fst (generate_audio (VStr text) env w) = Returned tt /\
  fs (snd (generate_audio (VStr text) env w)) !! audio_path_at (clock env) =
    Some (Text audio) /\
  (forall path,
     path <> audio_path_at (clock env) -> path <> "audio" ->
     fs (snd (generate_audio (VStr text) env w)) !! path = fs w !! path).
Proof.
  intros Hdetect Htts Hcan.
  pose proof (audio_path_is_not_the_directory (clock env)) as Hdir.
  unfold generate_audio, exists_nonempty, handle_audio_error, display_message, post.
  run_py. rewrite exists_spec.
  destruct (bool_decide (is_Some (fs w !! "audio"))); simpl;
    rewrite Hdetect; simpl; rewrite Htts; simpl.
  - rewrite write_file_ok by exact Hcan. simpl. rewrite lookup_insert_eq.
    destruct (PyStr.truthy audio); simpl.
    + split; [reflexivity |]. split; [apply lookup_insert_eq |].
      intros path Hpath _. now rewrite lookup_insert_ne.
    + split; [reflexivity |]. split; [apply lookup_insert_eq |].
      intros path Hpath _. now rewrite lookup_insert_ne.
  - rewrite write_file_ok
      by (etransitivity; [apply (can_write_other env w); exact Hdir | exact Hcan]).
    simpl. rewrite lookup_insert_eq.
    destruct (PyStr.truthy audio); simpl.
    + split; [reflexivity |]. split; [apply lookup_insert_eq |].
      intros path Hpath Hother. now rewrite !lookup_insert_ne.
    + split; [reflexivity |]. split; [apply lookup_insert_eq |].
      intros path Hpath Hother. now rewrite !lookup_insert_ne.
Qed.

(** C8, as stated, fails: two successful calls within one second get the
    same name, and the second replaces the artifact of the first. *)
Lemma same_second_overwrites :
  valid_datetime Sample.morning /\ valid_datetime Sample.same_second /\
  Sample.morning <> Sample.same_second /\
  audio_path_at Sample.morning = audio_path_at Sample.same_second /\
  fs (snd (generate_audio (VStr "first reply") (Sample.env_at Sample.morning)
             Sample.chatted))
    !! audio_path_at Sample.morning = Some (Text "mp3:first reply") /\
  fs (snd (generate_audio (VStr "second reply") (Sample.env_at Sample.same_second)
             (snd (generate_audio (VStr "first reply") (Sample.env_at Sample.morning)
                     Sample.chatted))))
    !! audio_path_at Sample.morning = Some (Text "mp3:second reply") /\
  posted (snd (generate_audio (VStr "second reply") (Sample.env_at Sample.same_second)
                 (snd (generate_audio (VStr "first reply") (Sample.env_at Sample.morning)
                         Sample.chatted)))) =
    [AudioReady "audio/AI-response_20241105_093015.mp3";
     StartPlayback "audio/AI-response_20241105_093015.mp3";
     AudioReady "audio/AI-response_20241105_093015.mp3";
     StartPlayback "audio/AI-response_20241105_093015.mp3"].
Proof.
  split; [unfold valid_datetime; simpl; lia |].
  split; [unfold valid_datetime; simpl; lia |].
  split; [discriminate |].
  repeat split; vm_compute; reflexivity.
Qed.

(** C8, amended.  The name of an artifact is made from the clock reading
    cut to the second: the names of two calls differ exactly when their
    clock readings differ in the second.  A successful call stores its
    audio under its name, replacing what was there, and leaves in place the
    artifact of any call from another second. *)
Theorem audio_artifacts_named_by_second :
  (forall t1 t2,
     valid_datetime t1 -> valid_datetime t2 ->
     (audio_path_at t1 = audio_path_at t2 <-> to_second t1 = to_second t2)) /\
  (forall env w text lang audio,
     detect env text = Returned lang ->
     tts env text lang = Returned audio ->
     can_write env w (audio_path_at (clock env)) = true ->
     fs (snd (generate_audio (VStr text) env w)) !! audio_path_at (clock env) =
       Some (Text audio) /\
     forall earlier,
       valid_datetime earlier -> valid_datetime (clock env) ->
       to_second earlier <> to_second (clock env) ->
       fs (snd (generate_audio (VStr text) env w)) !! audio_path_at earlier =
         fs w !! audio_path_at earlier).
Proof.
  split.
  - intros t1 t2 Hv1 Hv2. split.
    + apply audio_path_at_inj; assumption.
    + apply audio_path_at_by_second.
  - intros env w text lang audio Hdetect Htts Hcan.
    destruct (generate_audio_stores env w text lang audio Hdetect Htts Hcan)
      as (_ & Hstored & Hothers).
    split; [exact Hstored |].
    intros earlier Hv1 Hv2 Hdiffer. apply Hothers.
    + intros Heq. apply Hdiffer. now apply audio_path_at_inj.
    + intros Heq. exact (audio_path_is_not_the_directory earlier (eq_sym Heq)).
Qed.

Lemma audio_artifacts_named_by_second_witness :
  audio_path_at Sample.morning <> audio_path_at Sample.next_second /\
  fs (snd (generate_audio (VStr "second reply") (Sample.env_at Sample.next_second)
             (snd (generate_audio (VStr "first reply") (Sample.env_at Sample.morning)
                     Sample.chatted))))
    !! audio_path_at Sample.morning = Some (Text "mp3:first reply").
Proof.
  assert (valid_datetime Sample.morning) as Hv1
    by (unfold valid_datetime; simpl; lia).
  assert (valid_datetime Sample.next_second) as Hv2
    by (unfold valid_datetime; simpl; lia).
  destruct audio_artifacts_named_by_second as [Hnames Hstores].
  split.
  - intros Heq. apply (Hnames _ _ Hv1 Hv2) in Heq. discriminate Heq.
  - destruct (Hstores (Sample.env_at Sample.next_second)
                (snd (generate_audio (VStr "first reply")
                        (Sample.env_at Sample.morning) Sample.chatted))
                "second reply" "en" "mp3:second reply" eq_refl eq_refl eq_refl)
      as [_ Hkept].
    rewrite (Hkept Sample.morning Hv1 Hv2 ltac:(discriminate)).
    vm_compute. reflexivity.
Defined.

(** ** Prompts *)

Lemma append_cons c s1 s2 : String c s1 +:+ s2 = String c (s1 +:+ s2).
Proof. reflexivity. Qed.

Lemma append_assoc s1 s2 s3 : (s1 +:+ s2) +:+ s3 = s1 +:+ (s2 +:+ s3).
Proof.
  induction s1 as [| c s1 IH]; [reflexivity |].
  rewrite !append_cons. now rewrite IH.
Qed.

Lemma ends_with_refl s : ends_with s s = true.
Proof. destruct s; simpl; [reflexivity |]. now rewrite Ascii.eqb_refl, String.eqb_refl. Qed.

Lemma ends_with_append prefix s : ends_with s (prefix +:+ s) = true.
Proof.
  induction prefix as [| c prefix IH]; [apply ends_with_refl |].
  rewrite append_cons.
  change (ends_with s (String c (prefix +:+ s)))
    with (if String.eqb (String c (prefix +:+ s)) s then true
          else ends_with s (prefix +:+ s)).
  rewrite IH. now destruct (String.eqb _ s).
Qed.

(** C9, as stated, fails on raw inputs with white space around them.  A
    raw input of one space is not empty, yet no prompt is built for it with
    either setting.  For the raw input " hi" the prompt without context is
    "hi", and the prompt with context ends in "hi" after the two line
    breaks: it is no prefix followed by the raw input. *)
Lemma raw_input_is_not_what_is_sent :
  (threads (snd (send_message Sample.env
                   (with_context_checkbox true
                      (with_message_input " " Sample.with_key)))) = [] /\
   threads (snd (send_message Sample.env
                   (with_context_checkbox false
                      (with_message_input " " Sample.with_key)))) = []) /\
  threads (snd (send_message Sample.env
                  (with_context_checkbox false
                     (with_message_input " hi" Sample.with_key)))) =
    [ProcessMessage "hi"] /\
  threads (snd (send_message Sample.env
                  (with_context_checkbox true
                     (with_message_input " hi" Sample.with_key)))) =
    [ProcessMessage ("Context for my prompt: Welcome to Spark AI Chat!"
                     +:+ newline +:+ newline +:+ "hi")] /\
  ~ (exists prefix,
       "Context for my prompt: Welcome to Spark AI Chat!"
       +:+ newline +:+ newline +:+ "hi" = prefix +:+ " hi").
Proof.
  split; [split; vm_compute; reflexivity |].
  split; [vm_compute; reflexivity |].
  split; [vm_compute; reflexivity |].
  intros [prefix Heq].
  apply (f_equal (ends_with " hi")) in Heq.
  rewrite ends_with_append in Heq. vm_compute in Heq. discriminate Heq.
Qed.

(** C9, amended.  For every raw input that is not empty once stripped and
    every chat display, the prompt sent with the context box checked is a
    non-empty prefix (the label, the stripped transcript and two line
    breaks) followed by the stripped input, and the stripped input is the
    prompt sent with the box unchecked. *)
Theorem context_prompt_extends_plain_prompt env w :
  PyStr.strip (message_input w) <> EmptyString ->
  exists prefix,
    prefix <> EmptyString /\
    prefix = "Context for my prompt: "
             +:+ PyStr.strip (toPlainText env (chat_display w))
             +:+ newline +:+ newline /\
    threads (snd (send_message env (with_context_checkbox true w))) =
      threads w ++ [ProcessMessage (prefix +:+ PyStr.strip (message_input w))] /\
    threads (snd (send_message env (with_context_checkbox false w))) =
      threads w ++ [ProcessMessage (PyStr.strip (message_input w))].
Proof.
  intros Hmessage.
  exists ("Context for my prompt: "
          +:+ PyStr.strip (toPlainText env (chat_display w)) +:+ newline +:+ newline).
  split; [discriminate |]. split; [reflexivity |].
  unfold send_message, display_message, start_thread, context_message.
  run_py.
  destruct (PyStr.strip (message_input w)) as [| c message] eqn:Hstrip;
    [now contradiction Hmessage |].
  simpl. split; [| reflexivity].
  rewrite !append_assoc. reflexivity.
Qed.

Lemma context_prompt_extends_plain_prompt_witness :
  exists prefix,
    prefix <> EmptyString /\
    threads (snd (send_message Sample.env
                    (with_context_checkbox true
                       (with_message_input " hi" Sample.with_key)))) =
      [ProcessMessage (prefix +:+ "hi")] /\
    threads (snd (send_message Sample.env
                    (with_context_checkbox false
                       (with_message_input " hi" Sample.with_key)))) =
      [ProcessMessage "hi"].
Proof.
  destruct (context_prompt_extends_plain_prompt Sample.env
              (with_message_input " hi" Sample.with_key))
    as (prefix & Hprefix & _ & Hwith & Hwithout).
  - vm_compute. discriminate.
  - exists prefix. split; [exact Hprefix |]. split; [exact Hwith | exact Hwithout].
Defined.


(** * Further properties of the program *)

(** ** Stripping *)

Lemma strip_empty_iff s : PyStr.strip s = EmptyString <-> all_space s = true.
Proof.
  unfold PyStr.strip. induction s as [| c s IH]; simpl; [tauto |].
  destruct (PyStr.isspace c) eqn:Hc; simpl; [exact IH |].
  split; [| discriminate].
  destruct (PyStr.rstrip s); rewrite ?Hc; discriminate.
Qed.

Lemma strip_truthy s : PyStr.truthy (PyStr.strip s) = negb (all_space s).
Proof.
  destruct (all_space s) eqn:Hs.
  - apply strip_empty_iff in Hs. now rewrite Hs.
  - destruct (PyStr.strip s) eqn:Hstrip; [| reflexivity].
    apply strip_empty_iff in Hstrip. congruence.
Qed.




(** ** Empty submissions *)

(** X1.  [send_message] turns away exactly the inputs that consist of white
    space only.  For such an input it shows the message of the system and
    changes nothing else: no thread is started, the input field keeps its
    text, the conversations and the files are as before.  For any other
    input it starts one thread with the prompt and clears the input
    field. *)
Theorem send_message_rejects_blank_input env w :
  (all_space (message_input w) = true ->
   send_message env w =
     (Returned tt,
      with_chat_display
        (chat_display w ++
           [Message "System" "Cannot send an empty message."
              (VStr (Fmt.display_stamp (clock env)))]) w)) /\
  (all_space (message_input w) = false ->
   fst (send_message env w) = Returned tt /\
   threads (snd (send_message env w)) =
     threads w ++
       [ProcessMessage
          (context_message (context_checkbox w) (toPlainText env (chat_display w))
             (PyStr.strip (message_input w)))] /\
   message_input (snd (send_message env w)) = EmptyString).
Proof.
  split; intros Hspace.
  - unfold send_message, display_message. run_py.
    rewrite strip_truthy, Hspace. reflexivity.
  - unfold send_message, display_message, start_thread. run_py.
    rewrite strip_truthy, Hspace. simpl. repeat split; reflexivity.
Qed.

Lemma send_message_rejects_blank_input_witness :
  threads (snd (send_message Sample.env
                  (with_message_input "   " Sample.with_key))) = [] /\
  threads (snd (send_message Sample.env
                  (with_message_input "Hello" Sample.with_key))) =
    [ProcessMessage "Hello"].
Proof.
  split.
  - destruct (send_message_rejects_blank_input Sample.env
                (with_message_input "   " Sample.with_key)) as [Hblank _].
    rewrite (Hblank eq_refl). reflexivity.
  - destruct (send_message_rejects_blank_input Sample.env
                (with_message_input "Hello" Sample.with_key)) as [_ Hsent].
    destruct (Hsent eq_refl) as (_ & Hthreads & _). exact Hthreads.
Defined.

(** ** The credential *)

Lemma read_text_stored env w path text :
  fs w !! path = Some (Text text) ->
  read_text path env w = (Returned text, w).
Proof.
  intros Hfile. unfold read_text, Py.bind, Py.gets. now rewrite Hfile.
Qed.




(** X3.  Pressing the button with a blank entry forgets the key of the
    running session and leaves the files alone: the key in memory becomes
    the empty string, nothing is written or displayed, and from then on
    every request is answered with the text about the missing key, without
    reaching the endpoint. *)
Theorem blank_entry_forgets_the_key env w entered :
  all_space entered = true ->
  set_api_key entered env w = (Returned tt, with_api_key (Some EmptyString) w) /\
  forall message env',
    get_gemini_response message env' (snd (set_api_key entered env w)) =
      (Returned "API key is missing. Please set it first.",
       snd (set_api_key entered env w)).
Proof.
  intros Hblank.
  assert (set_api_key entered env w =
          (Returned tt, with_api_key (Some EmptyString) w)) as Hset.
  { unfold set_api_key. run_py. apply strip_empty_iff in Hblank.
    rewrite Hblank. reflexivity. }
  split; [exact Hset |].
  intros message env'. rewrite Hset. apply get_gemini_response_no_key. reflexivity.
Qed.

Lemma blank_entry_forgets_the_key_witness :
  api_key (snd (set_api_key "  " Sample.env Sample.with_key)) = Some EmptyString /\
  fst (get_gemini_response "Hello" Sample.env
         (snd (set_api_key "  " Sample.env Sample.with_key))) =
    Returned "API key is missing. Please set it first.".
Proof.
  destruct (blank_entry_forgets_the_key Sample.env Sample.with_key "  " eq_refl)
    as [Hset Hanswer].
  split.
  - now rewrite Hset.
  - now rewrite Hanswer.
Defined.

(** ** Files sent to the endpoint *)

Lemma display_message_returns sender message timestamp env w :
  fst (display_message sender message timestamp env w) = Returned tt.
Proof. unfold display_message. run_py. now destruct message. Qed.

(** The reply depends on the key, the model and the endpoint only. *)
Lemma get_gemini_response_same_reply env w w' message :
  api_key w' = api_key w -> current_model w' = current_model w ->
  fst (get_gemini_response message env w') = fst (get_gemini_response message env w).
Proof.
  intros Hkey Hmodel.
  unfold get_gemini_response, call_endpoint, hasattr_text, text_of, str_strip.
  run_py. rewrite Hkey.
  destruct (key_set (api_key w)); simpl; [| reflexivity]. rewrite Hmodel.
  destruct (generate_content env (current_model w) message) as [r | e];
    simpl; [| reflexivity].
  destruct r as [[| v | e] | [| first rest]]; simpl; try reflexivity.
  - destruct v; reflexivity.
  - destruct (exn_is e); reflexivity.
  - destruct first as [[| v | e] | items]; simpl; try reflexivity.
    destruct v; reflexivity.
Qed.

(** Showing a message, asking for the reply and showing it, up to the
    point where the exchange is saved. *)
Lemma ask_and_show env w message l :
  conversations w = VList l ->
  exists response w2,
    fst (get_gemini_response message env w) = Returned response /\
    conversations w2 = VList l /\ fs w2 = fs w /\
    chat_display w2 =
      chat_display w ++
        [Message "Me" message (VStr (Fmt.display_stamp (clock env)));
         Message "Gemini" response (VStr (Fmt.display_stamp (clock env)))] /\
    requests w2 =
      (if key_set (api_key w) then requests w ++ [(current_model w, message)]
       else requests w) /\
    (display_message "Me" (VStr message) VNone >>
     let* response := get_gemini_response message in
     display_message "Gemini" (VStr response) VNone >>
     save_conversation message response) env w =
    save_conversation message response env w2.
Proof.
  intros Hconv.
  set (shown := chat_display w ++
         [Message "Me" message (VStr (Fmt.display_stamp (clock env)))]).
  destruct (get_gemini_response_world env (with_chat_display shown w) message)
    as [response Hrun].
  pose proof (get_gemini_response_same_reply env w (with_chat_display shown w)
                message eq_refl eq_refl) as Hsame.
  rewrite Hrun in Hsame. simpl in Hsame.
  eexists response, _. split; [now symmetry |].
  unfold display_message. run_py. fold shown. rewrite Hrun. simpl.
  split; [| split; [| split; [| split; [| reflexivity]]]].
  - destruct (key_set (api_key w)); exact Hconv.
  - now destruct (key_set (api_key w)).
  - destruct (key_set (api_key w)); simpl; subst shown;
      now rewrite <- app_assoc.
  - now destruct (key_set (api_key w)).
Qed.

Lemma save_conversation_appends env w user_input response l :
  conversations w = VList l ->
  conversations (snd (save_conversation user_input response env w)) =
    VList (l ++ [exchange (Fmt.display_stamp (clock env)) user_input response]) /\
  chat_display (snd (save_conversation user_input response env w)) = chat_display w /\
  requests (snd (save_conversation user_input response env w)) = requests w.
Proof.
  intros Hconv. destruct (can_write env w "conversations.json") eqn:Hcan.
  - rewrite (save_conversation_ok env w _ _ l Hconv Hcan). repeat split.
  - destruct (save_conversation_fails env w user_input response l Hconv Hcan)
      as [e ->]. repeat split.
Qed.

(** The body of the [try] of [send_file] on a text file that is not
    blank. *)
Lemma send_file_body env w file_path text l :
  fs w !! file_path = Some (Text text) ->
  all_space text = false ->
  conversations w = VList l ->
  exists response w2,
    fst (get_gemini_response (PyStr.strip text) env w) = Returned response /\
    conversations w2 = VList l /\ fs w2 = fs w /\
    chat_display w2 =
      chat_display w ++
        [Message "Me" (PyStr.strip text) (VStr (Fmt.display_stamp (clock env)));
         Message "Gemini" response (VStr (Fmt.display_stamp (clock env)))] /\
    read_and_send file_path env w =
      save_conversation (PyStr.strip text) response env w2.
Proof.
  intros Hfile Hspace Hconv.
  destruct (ask_and_show env w (PyStr.strip text) l Hconv)
    as (response & w2 & Hreply & Hconv2 & Hfs2 & Hshown2 & _ & Hbody).
  exists response, w2. repeat (split; [assumption |]).
  unfold read_and_send, Py.bind at 1. rewrite (read_text_stored env w _ _ Hfile).
  rewrite strip_truthy, Hspace. exact Hbody.
Qed.

(** X4.  [send_file] never raises: whatever goes wrong while the file is
    read, sent or saved ends as a message of the system.  A cancelled
    dialog changes nothing, a file that cannot be read changes nothing but
    the display, which gets one message of the system, and a blank file
    changes nothing at all. *)
Theorem send_file_never_raises file_path env w :
  fst (send_file file_path env w) = Returned tt /\
  (file_path = EmptyString -> send_file file_path env w = (Returned tt, w)) /\
  (file_path <> EmptyString -> fs w !! file_path = None ->
   exists e,
     send_file file_path env w =
       (Returned tt,
        with_chat_display
          (chat_display w ++
             [Message "System" ("Error reading file: " +:+ exn_msg e)
                (VStr (Fmt.display_stamp (clock env)))]) w)) /\
  (forall text,
     fs w !! file_path = Some (Text text) -> all_space text = true ->
     send_file file_path env w = (Returned tt, w)).
Proof.
  split; [| split; [| split]].
  - unfold send_file. destruct (PyStr.truthy file_path); [| reflexivity].
    unfold Py.try_except.
    destruct (read_and_send file_path env w) as [[[] | e] w1];
      [reflexivity | apply display_message_returns].
  - intros ->. reflexivity.
  - intros Hpath Hfile.
    exists (Exn OSError "[Errno 2] No such file or directory").
    unfold send_file.
    destruct file_path as [| c file_path]; [now contradiction Hpath |].
    unfold read_and_send, read_text, display_message. run_py. now rewrite Hfile.
  - intros text Hfile Hblank. unfold send_file.
    destruct (PyStr.truthy file_path); [| reflexivity].
    unfold Py.try_except, read_and_send, Py.bind at 1.
    rewrite (read_text_stored env w _ _ Hfile).
    rewrite strip_truthy, Hblank. reflexivity.
Qed.

Lemma send_file_never_raises_witness :
  send_file EmptyString Sample.env Sample.with_key = (Returned tt, Sample.with_key) /\
  exists e,
    chat_display (snd (send_file "notes.txt" Sample.env Sample.with_key)) =
      [Welcome;
       Message "System" ("Error reading file: " +:+ exn_msg e)
         (VStr "2024-11-05 09:30:15")].
Proof.
  destruct (send_file_never_raises EmptyString Sample.env Sample.with_key)
    as (_ & Hcancel & _).
  destruct (send_file_never_raises "notes.txt" Sample.env Sample.with_key)
    as (_ & _ & Hmissing & _).
  split.
  - apply Hcancel. reflexivity.
  - destruct Hmissing as [e Hmissing]; [discriminate | reflexivity |].
    exists e. rewrite Hmissing. reflexivity.
Defined.

(** X5.  A text file that is not blank is sent stripped and without
    context: its stripped content is shown as the message of the user,
    the reply of [get_gemini_response] to that content as the message of
    Gemini, and the two are appended as one exchange.  When the
    conversations cannot be written the exchange is still appended in
    memory, and the failure is shown as an error of reading the file. *)
Theorem send_file_sends_the_content env w file_path text l :
  file_path <> EmptyString ->
  fs w !! file_path = Some (Text text) ->
  all_space text = false ->
  conversations w = VList l ->
  exists response,
    fst (get_gemini_response (PyStr.strip text) env w) = Returned response /\
    conversations (snd (send_file file_path env w)) =
      VList (l ++ [exchange (Fmt.display_stamp (clock env)) (PyStr.strip text) response]) /\
    (can_write env w "conversations.json" = true ->
     chat_display (snd (send_file file_path env w)) =
       chat_display w ++
         [Message "Me" (PyStr.strip text) (VStr (Fmt.display_stamp (clock env)));
          Message "Gemini" response (VStr (Fmt.display_stamp (clock env)))]) /\
    (can_write env w "conversations.json" = false ->
     exists e,
       chat_display (snd (send_file file_path env w)) =
         chat_display w ++
           [Message "Me" (PyStr.strip text) (VStr (Fmt.display_stamp (clock env)));
            Message "Gemini" response (VStr (Fmt.display_stamp (clock env)));
            Message "System" ("Error reading file: " +:+ exn_msg e)
              (VStr (Fmt.display_stamp (clock env)))]).
Proof.
  intros Hpath Hfile Hspace Hconv.
  destruct (send_file_body env w file_path text l Hfile Hspace Hconv)
    as (response & w2 & Hreply & Hconv2 & Hfs2 & Hshown2 & Hbody).
  exists response. split; [exact Hreply |].
  unfold send_file.
  destruct file_path as [| c file_path]; [now contradiction Hpath |].
  unfold Py.try_except. cbn [PyStr.truthy]. rewrite Hbody.
  assert (can_write env w2 "conversations.json" =
          can_write env w "conversations.json") as Hcw
    by (unfold can_write; now rewrite Hfs2).
  destruct (can_write env w "conversations.json") eqn:Hcan.
  - rewrite (save_conversation_ok env w2 _ _ l Hconv2 Hcw). simpl.
    split; [reflexivity |]. split; [intros _; exact Hshown2 | discriminate].
  - destruct (save_conversation_fails env w2 (PyStr.strip text) response l Hconv2 Hcw)
      as [e ->].
    unfold display_message. run_py.
    split; [reflexivity |]. split; [discriminate |].
    intros _. exists e. rewrite Hshown2, <- app_assoc. reflexivity.
Qed.

Lemma send_file_sends_the_content_witness :
  exists response,
    conversations
      (snd (send_file "notes.txt" Sample.env
              (with_fs {["notes.txt" := Text " Hello "]} Sample.with_key))) =
      VList ([] ++ [exchange (Fmt.display_stamp Sample.morning) "Hello" response]).
Proof.
  destruct (send_file_sends_the_content Sample.env
              (with_fs {["notes.txt" := Text " Hello "]} Sample.with_key)
              "notes.txt" " Hello " [])
    as (response & _ & Hconv & _);
    [discriminate | reflexivity | reflexivity | reflexivity |].
  exists response. exact Hconv.
Defined.

(** ** Speech input *)

Lemma handle_recognized_speech_steps env w message l :
  message <> EmptyString ->
  conversations w = VList l ->
  exists response,
    fst (get_gemini_response message env w) = Returned response /\
    conversations (snd (handle_recognized_speech message env w)) =
      VList (l ++ [exchange (Fmt.display_stamp (clock env)) message response]) /\
    chat_display (snd (handle_recognized_speech message env w)) =
      chat_display w ++
        [Message "Me" message (VStr (Fmt.display_stamp (clock env)));
         Message "Gemini" response (VStr (Fmt.display_stamp (clock env)))] /\
    requests (snd (handle_recognized_speech message env w)) =
      (if key_set (api_key w) then requests w ++ [(current_model w, message)]
       else requests w).
Proof.
  intros Hmessage Hconv.
  destruct (ask_and_show env w message l Hconv)
    as (response & w2 & Hreply & Hconv2 & _ & Hshown2 & Hreq2 & Hbody).
  exists response. split; [exact Hreply |].
  unfold handle_recognized_speech.
  destruct message as [| c message]; [now contradiction Hmessage |].
  cbn [PyStr.truthy]. rewrite Hbody.
  destruct (save_conversation_appends env w2 (String c message) response l Hconv2)
    as (-> & -> & ->).
  auto.
Qed.

(** X6.  What the recognizer heard is sent as it is, without the context
    that [send_message] adds, whatever the state of the context box: the
    request that reaches the endpoint carries the recognized message as its
    prompt, the message and the reply are shown in that order, and one
    exchange with the message as input is appended.  An empty recognition
    does nothing. *)
Theorem recognized_speech_is_sent_without_context env w message l :
  conversations w = VList l ->
  (message = EmptyString ->
   handle_recognized_speech message env w = (Returned tt, w)) /\
  (message <> EmptyString ->
   exists response,
     fst (get_gemini_response message env w) = Returned response /\
     conversations (snd (handle_recognized_speech message env w)) =
       VList (l ++ [exchange (Fmt.display_stamp (clock env)) message response]) /\
     chat_display (snd (handle_recognized_speech message env w)) =
       chat_display w ++
         [Message "Me" message (VStr (Fmt.display_stamp (clock env)));
          Message "Gemini" response (VStr (Fmt.display_stamp (clock env)))] /\
     requests (snd (handle_recognized_speech message env w)) =
       (if key_set (api_key w) then requests w ++ [(current_model w, message)]
        else requests w)).
Proof.
  intros Hconv. split.
  - intros ->. reflexivity.
  - intros Hmessage. now apply handle_recognized_speech_steps.
Qed.

Lemma recognized_speech_is_sent_without_context_witness :
  requests (snd (handle_recognized_speech "Hello" Sample.env
                   (with_context_checkbox true Sample.with_key))) =
    [(VStr default_model, "Hello")].
Proof.
  destruct (recognized_speech_is_sent_without_context Sample.env
              (with_context_checkbox true Sample.with_key) "Hello" [] eq_refl)
    as [_ Hsent].
  destruct (Hsent ltac:(discriminate)) as (response & _ & _ & _ & Hrequests).
  exact Hrequests.
Defined.

(** X7.  A recording that the recognizer cannot make out, or cannot get
    recognized, is not reported as an error: the background thread hands
    over a fixed sentence in its place, and the event loop treats it like
    spoken input.  The sentence is shown as the message of the user, sent
    to [get_gemini_response], and appended as the input of an exchange.
    Any other exception of the recognizer leaves the thread with nothing
    handed over. *)
Theorem unrecognized_speech_is_submitted env w e l :
  heard env = Raised e ->
  posted w = [] ->
  conversations w = VList l ->
  (forall sentence,
     (exn_is e = UnknownValueError /\ sentence = "Could not understand audio.") \/
     (exn_is e = RequestError /\
      sentence = "Could not request results; check your network.") ->
     exists response,
       fst (get_gemini_response sentence env w) = Returned response /\
       conversations (snd (drain env (snd (run RecognizeSpeech env w)))) =
         VList (l ++ [exchange (Fmt.display_stamp (clock env)) sentence response]) /\
       chat_display (snd (drain env (snd (run RecognizeSpeech env w)))) =
         chat_display w ++
           [Message "Me" sentence (VStr (Fmt.display_stamp (clock env)));
            Message "Gemini" response (VStr (Fmt.display_stamp (clock env)))]) /\
  (exn_is e <> UnknownValueError -> exn_is e <> RequestError ->
   run RecognizeSpeech env w = (Raised e, w)).
Proof.
  intros Hheard Hposted Hconv. split.
  - intros sentence Hcase.
    assert (sentence <> EmptyString) as Hsentence
      by (destruct Hcase as [[_ ->] | [_ ->]]; discriminate).
    assert (drain env (snd (run RecognizeSpeech env w)) =
            (handle_recognized_speech sentence >> Py.ret tt) env
              (with_posted [] (with_posted [SpeechRecognized sentence] w))) as ->.
    { unfold run, recognize_speech_background, post, drain. run_py.
      rewrite Hheard.
      destruct Hcase as [[-> ->] | [-> ->]]; simpl; rewrite Hposted; reflexivity. }
    set (w1 := with_posted [] (with_posted [SpeechRecognized sentence] w)).
    destruct (handle_recognized_speech_steps env w1 sentence l Hsentence Hconv)
      as (response & Hreply & Hconv1 & Hshown1 & _).
    exists response.
    rewrite (get_gemini_response_same_reply env w w1 sentence eq_refl eq_refl)
      in Hreply.
    split; [exact Hreply |].
    unfold Py.bind.
    destruct (handle_recognized_speech sentence env w1) as [[[] | e1] w2];
      simpl in *; auto.
  - intros Hunknown Hrequest.
    unfold run, recognize_speech_background. run_py. rewrite Hheard.
    destruct (exn_is e); try reflexivity; congruence.
Qed.

Lemma unrecognized_speech_is_submitted_witness :
  exists response,
    conversations
      (snd (drain Scenario.deaf_env
              (snd (run RecognizeSpeech Scenario.deaf_env Sample.no_key)))) =
      VList ([] ++ [exchange (Fmt.display_stamp Sample.morning)
                      "Could not understand audio." response]).
Proof.
  destruct (unrecognized_speech_is_submitted Scenario.deaf_env Sample.no_key
              (Exn UnknownValueError EmptyString) [] eq_refl eq_refl eq_refl)
    as [Hsubmitted _].
  destruct (Hsubmitted "Could not understand audio." (or_introl (conj eq_refl eq_refl)))
    as (response & _ & Hconv & _).
  exists response. exact Hconv.
Defined.

(** ** The last reply *)

Lemma get_last_gemini_response_snoc env w l timestamp user_input response :
  conversations w = VList (l ++ [exchange timestamp user_input response]) ->
  get_last_gemini_response env w = (Returned (VStr response), w).
Proof.
  intros Hconv.
  assert (truthy (VList (l ++ [exchange timestamp user_input response])) = true)
    as Htruthy by (destruct l; reflexivity).
  unfold get_last_gemini_response, Py.bind, Py.gets.
  rewrite Hconv, Htruthy. unfold subscript_last. rewrite last_snoc. reflexivity.
Qed.

(** X8.  The reply that was saved last is the one that is read aloud:
    after [save_conversation], whether or not the file could be written,
    [get_last_gemini_response] returns the saved reply.  With no audio
    playing, [read_last_response] then shows the spinner and starts one
    thread for that reply, unless the reply is the empty string, in which
    case it shows that there is nothing to read and starts no thread. *)
Theorem saved_reply_is_the_one_read env w user_input response l env' :
  conversations w = VList l ->
  get_last_gemini_response env' (snd (save_conversation user_input response env w)) =
    (Returned (VStr response), snd (save_conversation user_input response env w)) /\
  (is_audio_playing w = false -> response <> EmptyString ->
   threads (snd (read_last_response env'
                   (snd (save_conversation user_input response env w)))) =
     threads w ++ [GenerateAudio (VStr response)] /\
   spinner_visible (snd (read_last_response env'
                           (snd (save_conversation user_input response env w)))) = true) /\
  (is_audio_playing w = false -> response = EmptyString ->
   threads (snd (read_last_response env'
                   (snd (save_conversation user_input response env w)))) = threads w /\
   chat_display (snd (read_last_response env'
                        (snd (save_conversation user_input response env w)))) =
     chat_display w ++
       [Message "System" "No response to read."
          (VStr (Fmt.display_stamp (clock env')))]).
Proof.
  intros Hconv.
  set (w1 := snd (save_conversation user_input response env w)).
  assert (conversations w1 =
            VList (l ++ [exchange (Fmt.display_stamp (clock env)) user_input response]) /\
          is_audio_playing w1 = is_audio_playing w /\
          threads w1 = threads w /\ chat_display w1 = chat_display w)
    as (Hconv1 & Hplaying1 & Hthreads1 & Hshown1).
  { subst w1. destruct (can_write env w "conversations.json") eqn:Hcan.
    - rewrite (save_conversation_ok env w _ _ l Hconv Hcan). repeat split.
    - destruct (save_conversation_fails env w user_input response l Hconv Hcan)
        as [e ->]. repeat split. }
  pose proof (get_last_gemini_response_snoc env' w1 l _ _ _ Hconv1) as Hlast.
  split; [exact Hlast |].
  assert (is_audio_playing w = false ->
          read_last_response env' w1 =
            (if negb (truthy (VStr response)) then
               display_message "System" (VStr "No response to read.") VNone
             else
               Py.modify (with_spinner_visible true) >>
               Py.modify (fun w => with_audio_ready_slots (S (audio_ready_slots w)) w) >>
               start_thread (GenerateAudio (VStr response))) env' w1) as Hread.
  { intros Hidle. unfold read_last_response, Py.bind at 1 2, Py.gets at 1.
    rewrite Hplaying1, Hidle, Hlast. reflexivity. }
  split; intros Hidle Hresponse; rewrite (Hread Hidle).
  - destruct response as [| c response]; [now contradiction Hresponse |].
    unfold start_thread. run_py. now rewrite Hthreads1.
  - subst response. unfold display_message. run_py.
    now rewrite Hthreads1, Hshown1.
Qed.

Lemma saved_reply_is_the_one_read_witness :
  threads (snd (read_last_response Sample.env
                  (snd (save_conversation "Hello" "Hi there" Sample.env
                          Sample.with_key)))) =
    [GenerateAudio (VStr "Hi there")].
Proof.
  destruct (saved_reply_is_the_one_read Sample.env Sample.with_key "Hello" "Hi there"
              [] Sample.env eq_refl) as (_ & Hread & _).
  destruct (Hread eq_refl ltac:(discriminate)) as [Hthreads _].
  exact Hthreads.
Defined.

(** ** The replay of the stored conversations *)

Lemma replay_stored env stored : forall w,
  Py.for_each (stored_exchanges stored) replay env w =
    (Returned tt, with_chat_display (chat_display w ++ replayed (clock env) stored) w).
Proof.
  induction stored as [| [[timestamp user_input] response] stored IH]; intros w.
  - simpl. unfold Py.ret, replayed. simpl. rewrite app_nil_r.
    now destruct w.
  - change (stored_exchanges ((timestamp, user_input, response) :: stored))
      with (exchange timestamp user_input response :: stored_exchanges stored).
    change (Py.for_each (exchange timestamp user_input response :: stored_exchanges stored)
              replay env w)
      with (Py.bind (replay (exchange timestamp user_input response))
              (fun _ => Py.for_each (stored_exchanges stored) replay) env w).
    unfold Py.bind.
    assert (replay (exchange timestamp user_input response) env w =
            (Returned tt,
             with_chat_display
               (chat_display w ++ replayed (clock env) [(timestamp, user_input, response)])
               w)) as ->.
    { unfold replay, display_message. run_py.
      destruct (PyStr.truthy timestamp); simpl; now rewrite <- app_assoc. }
    rewrite IH. simpl. unfold replayed. simpl. now rewrite <- app_assoc.
Qed.

Lemma load_conversations_replays env w stored :
  fs w !! "conversations.json" = Some (Json (VList (stored_exchanges stored))) ->
  load_conversations env w =
    (Returned tt,
     with_chat_display (chat_display w ++ replayed (clock env) stored)
       (with_conversations (VList (stored_exchanges stored)) w)).
Proof.
  intros Hfile. rewrite (load_conversations_list env w _ Hfile).
  now rewrite replay_stored.
Qed.

(** X9.  [load_conversations] shows what it loads: for stored exchanges it
    replaces the conversations in memory by the stored list and appends to
    the display, for each exchange in order, the input as the message of
    the user and then the output as the message of Gemini, both under the
    stored timestamp, or under the time of loading where the stored
    timestamp is empty.  Without a stored file it changes nothing. *)
Theorem load_conversations_replays_in_order env w stored :
  (fs w !! "conversations.json" = Some (Json (VList (stored_exchanges stored))) ->
   fst (load_conversations env w) = Returned tt /\
   conversations (snd (load_conversations env w)) = VList (stored_exchanges stored) /\
   chat_display (snd (load_conversations env w)) =
     chat_display w ++ replayed (clock env) stored) /\
  (fs w !! "conversations.json" = None ->
   load_conversations env w = (Returned tt, w)).
Proof.
  split.
  - intros Hfile. rewrite (load_conversations_replays env w stored Hfile).
    repeat split.
  - apply load_conversations_missing.
Qed.

Lemma load_conversations_replays_in_order_witness :
  chat_display (snd (load_conversations Sample.env
                       (with_chat_display [Welcome] (blank (fs Sample.chatted))))) =
    [Welcome; Message "Me" "Hello" (VStr "2024-11-05 09:00:00");
     Message "Gemini" "Hi there" (VStr "2024-11-05 09:00:00")].
Proof.
  destruct (load_conversations_replays_in_order Sample.env
              (with_chat_display [Welcome] (blank (fs Sample.chatted)))
              [("2024-11-05 09:00:00", "Hello", "Hi there")]) as [Hstored _].
  destruct (Hstored eq_refl) as (_ & _ & Hshown).
  exact Hshown.
Defined.

(** ** Configuration and start-up *)

Lemma load_model_selection_stored env w d :
  fs w !! "config.json" = Some (Json (VDict d)) ->
  load_model_selection env w =
    (Returned (match dict_get "selected_model" d with
               | Some v => v
               | None => VStr default_model
               end), w).
Proof.
  intros Hfile. unfold load_model_selection, Py.bind. rewrite exists_spec.
  rewrite bool_decide_eq_true_2 by (rewrite Hfile; eauto).
  now rewrite (json_load_stored env w _ _ Hfile).
Qed.

Lemma load_font_size_stored env w d :
  fs w !! "config.json" = Some (Json (VDict d)) ->
  load_font_size env w =
    (Returned (match dict_get "font_size" d with
               | Some v => v
               | None => VInt 14
               end), w).
Proof.
  intros Hfile. unfold load_font_size, Py.bind. rewrite exists_spec.
  rewrite bool_decide_eq_true_2 by (rewrite Hfile; eauto).
  now rewrite (json_load_stored env w _ _ Hfile).
Qed.

Lemma load_api_key_stored env w text :
  fs w !! "api_key.txt" = Some (Text text) ->
  load_api_key env w =
    (if PyStr.truthy (PyStr.strip text)
     then display_message "System" (VStr "API key loaded successfully.") VNone
     else Py.ret tt) env (with_api_key (Some (PyStr.strip text)) w).
Proof.
  intros Hfile. unfold load_api_key, Py.bind. rewrite exists_spec.
  rewrite bool_decide_eq_true_2 by (rewrite Hfile; eauto).
  now rewrite (read_text_stored env w _ _ Hfile).
Qed.

(** X10.  The model chosen in the drop-down is the model the next session
    loads: when [config.json] can be written, [update_selected_model] makes
    the chosen name the current model and [load_model_selection] on the
    files it leaves returns that name.  When the file cannot be written the
    call raises with the model already changed in memory and the files as
    they were. *)
Theorem chosen_model_is_loaded_again env w current_text :
  (can_write env w "config.json" = true ->
   fst (update_selected_model current_text env w) = Returned tt /\
   current_model (snd (update_selected_model current_text env w)) = VStr current_text /\
   forall env' w',
     fs w' = fs (snd (update_selected_model current_text env w)) ->
     load_model_selection env' w' = (Returned (VStr current_text), w')) /\
  (can_write env w "config.json" = false ->
   exists e,
     update_selected_model current_text env w =
       (Raised e, with_current_model (VStr current_text) w)).
Proof.
  split; intros Hcan.
  - assert (update_selected_model current_text env w =
            (Returned tt,
             with_fs (<["config.json" :=
                         Json (VDict [("selected_model", VStr current_text)])]> (fs w))
               (with_current_model (VStr current_text) w))) as ->.
    { unfold update_selected_model, save_model_selection, json_dump. run_py.
      now rewrite write_file_ok. }
    split; [reflexivity |]. split; [reflexivity |].
    intros env' w' Hfiles.
    rewrite (load_model_selection_stored env' w' [("selected_model", VStr current_text)]);
      [reflexivity |].
    rewrite Hfiles. apply lookup_insert_eq.
  - unfold update_selected_model, save_model_selection, json_dump. run_py.
    match goal with
    | |- context [write_file ?p ?c env ?w1] =>
        destruct (write_file_fails env w1 p c Hcan) as [e ->]
    end.
    eauto.
Qed.

Lemma chosen_model_is_loaded_again_witness :
  load_model_selection Sample.env
    (blank (fs (snd (update_selected_model "gemini-1.5-pro" Sample.env
                       (blank Sample.config_files))))) =
    (Returned (VStr "gemini-1.5-pro"),
     blank (fs (snd (update_selected_model "gemini-1.5-pro" Sample.env
                       (blank Sample.config_files))))).
Proof.
  destruct (chosen_model_is_loaded_again Sample.env (blank Sample.config_files)
              "gemini-1.5-pro") as [Hsaved _].
  destruct (Hsaved eq_refl) as (_ & _ & Hloaded).
  apply Hloaded. reflexivity.
Defined.

Lemma index_of_available m :
  In m available_models -> exists i, index_of (VStr m) available_models = Some i.
Proof.
  intros [<- | [<- | [<- | []]]]; eexists; reflexivity.
Qed.

Lemma check_internet_spec env w :
  check_internet env w =
    match requests_get env with
    | Returned _ => (Returned true, w)
    | Raised e =>
        match exn_is e with
        | ConnectionError => (Returned false, w)
        | _ => (Raised e, w)
        end
    end.
Proof.
  unfold check_internet, Py.try_except, Py.bind, Py.ask, Py.of_outcome, Py.ret, Py.raise.
  destruct (requests_get env) as [[] | e]; [reflexivity |].
  destruct (exn_is e); reflexivity.
Qed.

Lemma slider_setValue_int n env w :
  (-2147483648 <= n <= 2147483647)%Z ->
  slider_setValue (VInt n) env w = (Returned tt, w).
Proof.
  intros Hrange. unfold slider_setValue.
  replace ((-2147483648 <=? n) && (n <=? 2147483647))%Z with true; [reflexivity |].
  symmetry. apply andb_true_intro. split; apply Z.leb_le; lia.
Qed.

(** What [__init__] makes of the connectivity probe: its outcome, and what
    it shows. *)
Lemma after_the_probe env w :
  (let* connected := check_internet in
   if connected then Py.ret tt
   else display_message "System"
          (VStr "No internet connection. Please check your network.") VNone) env w =
    match requests_get env with
    | Returned _ => (Returned tt, w)
    | Raised e =>
        match exn_is e with
        | ConnectionError =>
            (Returned tt,
             with_chat_display
               (chat_display w ++
                  [Message "System" "No internet connection. Please check your network."
                     (VStr (Fmt.display_stamp (clock env)))]) w)
        | _ => (Raised e, w)
        end
    end.
Proof.
  unfold Py.bind. rewrite check_internet_spec.
  destruct (requests_get env) as [[] | e]; [reflexivity |].
  destruct (exn_is e); reflexivity.
Qed.

Opaque slider_setValue.

(** [__init__] on files that hold a usable configuration, stored exchanges
    and a key file: what is loaded before the connectivity probe. *)
Lemma init_on_good_files env files d m n stored text :
  files !! "config.json" = Some (Json (VDict d)) ->
  match dict_get "selected_model" d with
  | Some v => v
  | None => VStr default_model
  end = VStr m ->
  In m available_models ->
  match dict_get "font_size" d with
  | Some v => v
  | None => VInt 14
  end = VInt n ->
  (-2147483648 <= n <= 2147483647)%Z ->
  files !! "conversations.json" = Some (Json (VList (stored_exchanges stored))) \/
  (files !! "conversations.json" = None /\ stored = []) ->
  files !! "api_key.txt" = Some (Text text) ->
  exists w1,
    __init__ env (blank files) =
      (let* connected := check_internet in
       if connected then Py.ret tt
       else display_message "System"
              (VStr "No internet connection. Please check your network.") VNone)
        env w1 /\
    current_model w1 = VStr m /\
    font_size w1 = (if Z.eqb n 0 then VInt 14 else VInt n) /\
    conversations w1 = VList (stored_exchanges stored) /\
    api_key w1 = Some (PyStr.strip text) /\ fs w1 = files /\
    chat_display w1 =
      Welcome :: replayed (clock env) stored ++
      (if PyStr.truthy (PyStr.strip text)
       then [Message "System" "API key loaded successfully."
               (VStr (Fmt.display_stamp (clock env)))]
       else []).
Proof.
  intros Hconfig Hmodel Havailable Hsize Hrange Hstored Hkey.
  destruct (index_of_available m Havailable) as [i Hindex].
  unfold __init__, setup_ui. run_py.
  erewrite load_model_selection_stored by exact Hconfig. rewrite Hmodel.
  erewrite load_font_size_stored by exact Hconfig. rewrite Hsize.
  simpl. rewrite Hindex.
  destruct (Z.eqb n 0) eqn:Hzero; simpl;
    rewrite slider_setValue_int by lia;
    (destruct Hstored as [Hlist | [Hnone ->]];
     [ erewrite load_conversations_replays by exact Hlist
     | erewrite load_conversations_missing by exact Hnone ];
     simpl; rewrite slider_setValue_int by lia;
     erewrite load_api_key_stored by exact Hkey;
     unfold display_message; run_py;
     destruct (PyStr.truthy (PyStr.strip text)); simpl;
     eexists; (split; [reflexivity |]); simpl; rewrite ?app_nil_r;
     repeat split; reflexivity).
Qed.

Transparent slider_setValue.

Lemma exists_true env w path c :
  fs w !! path = Some c -> exists_ path env w = (Returned true, w).
Proof.
  intros Hfile. rewrite exists_spec.
  now rewrite bool_decide_eq_true_2 by (rewrite Hfile; eauto).
Qed.

Lemma exists_false env w path :
  fs w !! path = None -> exists_ path env w = (Returned false, w).
Proof.
  intros Hfile. rewrite exists_spec.
  rewrite bool_decide_eq_false_2; [reflexivity |].
  rewrite Hfile. intros [x Hx]. discriminate Hx.
Qed.

(** What [ensure_config_files] leaves where both files can be written. *)
Lemma ensure_config_files_writes env w :
  can_write env w "config.json" = true ->
  can_write env w "api_key.txt" = true ->
  ensure_config_files env w =
    (Returned tt,
     match fs w !! "config.json", fs w !! "api_key.txt" with
     | Some _, Some _ => w
     | Some _, None => with_fs (<["api_key.txt" := Text EmptyString]> (fs w)) w
     | None, Some _ =>
         with_fs (<["config.json" :=
                     Json (VDict [("font_size", VInt 14);
                                  ("selected_model", VStr "gemini-1.5-flash")])]> (fs w)) w
     | None, None =>
         with_fs (<["api_key.txt" := Text EmptyString]>
                    (<["config.json" :=
                        Json (VDict [("font_size", VInt 14);
                                     ("selected_model", VStr "gemini-1.5-flash")])]> (fs w)))
           w
     end).
Proof.
  intros Hconfig Hkey. unfold ensure_config_files, json_dump, Py.bind.
  destruct (fs w !! "config.json") as [c |] eqn:Hc.
  - rewrite (exists_true env w _ c Hc). unfold Py.ret.
    destruct (fs w !! "api_key.txt") as [k |] eqn:Hk.
    + now rewrite (exists_true env w _ k Hk).
    + rewrite (exists_false env w _ Hk). now rewrite write_file_ok.
  - rewrite (exists_false env w _ Hc). rewrite write_file_ok by exact Hconfig.
    set (w1 := with_fs _ w).
    assert (fs w1 !! "api_key.txt" = fs w !! "api_key.txt") as Hsame
      by (subst w1; simpl; now rewrite lookup_insert_ne).
    assert (can_write env w1 "api_key.txt" = true) as Hkey1
      by (unfold can_write in *; now rewrite Hsame).
    destruct (fs w !! "api_key.txt") as [k |] eqn:Hk.
    + now rewrite (exists_true env w1 _ k Hsame).
    + rewrite (exists_false env w1 _ Hsame). now rewrite write_file_ok.
Qed.

(** X11.  [ensure_config_files] never replaces a file: whatever a path
    held before, it holds afterwards, also when a write fails.  Where both
    files can be written it returns, and afterwards both exist: a missing
    configuration holds the default font size and model, a missing key file
    is empty. *)
Theorem ensure_config_files_keeps_what_exists env w :
  (forall path c,
     fs w !! path = Some c ->
     fs (snd (ensure_config_files env w)) !! path = Some c) /\
  (can_write env w "config.json" = true ->
   can_write env w "api_key.txt" = true ->
   fst (ensure_config_files env w) = Returned tt /\
   (fs w !! "config.json" = None ->
    fs (snd (ensure_config_files env w)) !! "config.json" =
      Some (Json (VDict [("font_size", VInt 14);
                         ("selected_model", VStr "gemini-1.5-flash")]))) /\
   (fs w !! "api_key.txt" = None ->
    fs (snd (ensure_config_files env w)) !! "api_key.txt" = Some (Text EmptyString))).
Proof.
  split.
  - intros path c Hpath. unfold ensure_config_files, json_dump, Py.bind.
    destruct (fs w !! "config.json") as [c0 |] eqn:Hc.
    + rewrite (exists_true env w _ c0 Hc). unfold Py.ret.
      destruct (fs w !! "api_key.txt") as [k |] eqn:Hk.
      * now rewrite (exists_true env w _ k Hk).
      * rewrite (exists_false env w _ Hk).
        destruct (can_write env w "api_key.txt") eqn:Hcan.
        -- rewrite write_file_ok by exact Hcan. simpl.
           rewrite lookup_insert_ne; [exact Hpath | congruence].
        -- destruct (write_file_fails env w "api_key.txt" (Text EmptyString) Hcan)
             as [e ->]. exact Hpath.
    + rewrite (exists_false env w _ Hc).
      destruct (can_write env w "config.json") eqn:Hcan.
      * rewrite write_file_ok by exact Hcan.
        set (w1 := with_fs _ w).
        assert (fs w1 !! path = Some c) as Hpath1
          by (subst w1; simpl; rewrite lookup_insert_ne; [exact Hpath | congruence]).
        assert (fs w1 !! "api_key.txt" = fs w !! "api_key.txt") as Hsame
          by (subst w1; simpl; now rewrite lookup_insert_ne).
        destruct (fs w !! "api_key.txt") as [k |] eqn:Hk.
        -- now rewrite (exists_true env w1 _ k Hsame).
        -- rewrite (exists_false env w1 _ Hsame).
           destruct (can_write env w1 "api_key.txt") eqn:Hcan1.
           ++ rewrite write_file_ok by exact Hcan1. simpl.
              rewrite lookup_insert_ne; [exact Hpath1 | congruence].
           ++ destruct (write_file_fails env w1 "api_key.txt" (Text EmptyString) Hcan1)
                as [e ->]. exact Hpath1.
      * match goal with
        | |- context [write_file ?p ?x env w] =>
            destruct (write_file_fails env w p x Hcan) as [e ->]
        end.
        exact Hpath.
  - intros Hconfig Hkey. rewrite (ensure_config_files_writes env w Hconfig Hkey).
    split; [reflexivity |]. split.
    + intros Hnone. rewrite Hnone.
      destruct (fs w !! "api_key.txt"); simpl.
      * apply lookup_insert_eq.
      * rewrite lookup_insert_ne by discriminate. apply lookup_insert_eq.
    + intros Hnone. rewrite Hnone.
      destruct (fs w !! "config.json"); simpl; apply lookup_insert_eq.
Qed.

Lemma ensure_config_files_keeps_what_exists_witness :
  fs (snd (ensure_config_files Sample.env (blank Sample.config_files))) !! "config.json" =
    Some (Json (VDict [("font_size", VInt 20);
                       ("selected_model", VStr "gemini-1.5-flash")])) /\
  fs (snd (ensure_config_files Sample.env (blank Sample.config_files))) !! "api_key.txt" =
    Some (Text EmptyString).
Proof.
  destruct (ensure_config_files_keeps_what_exists Sample.env (blank Sample.config_files))
    as [Hkept Hmade].
  split.
  - apply Hkept. reflexivity.
  - destruct (Hmade eq_refl eq_refl) as (_ & _ & Hkey). apply Hkey. reflexivity.
Defined.

(** X12.  The first run.  With none of the three files present and the two
    configuration files writable, [ensure_config_files] returns, and
    [__init__] on the files it leaves loads the default model, which is an
    available one, font size 14, an empty key, so that requests are
    answered with the text about the missing key, and no conversations.
    Whether the window opens is then decided by the connectivity probe:
    when the request returns, [__init__] returns with the greeting alone;
    when it raises [ConnectionError], [__init__] returns with the greeting
    and the notice about the network; any other exception of the request
    leaves [__init__]. *)
Theorem first_run_starts env files :
  files !! "config.json" = None ->
  files !! "api_key.txt" = None ->
  files !! "conversations.json" = None ->
  can_write env (blank files) "config.json" = true ->
  can_write env (blank files) "api_key.txt" = true ->
  exists w0,
    ensure_config_files env (blank files) = (Returned tt, w0) /\
    current_model (snd (__init__ env (blank (fs w0)))) = VStr default_model /\
    In default_model available_models /\
    font_size (snd (__init__ env (blank (fs w0)))) = VInt 14 /\
    api_key (snd (__init__ env (blank (fs w0)))) = Some EmptyString /\
    key_set (api_key (snd (__init__ env (blank (fs w0))))) = false /\
    conversations (snd (__init__ env (blank (fs w0)))) = VList [] /\
    (requests_get env = Returned tt ->
     fst (__init__ env (blank (fs w0))) = Returned tt /\
     chat_display (snd (__init__ env (blank (fs w0)))) = [Welcome]) /\
    (forall e,
       requests_get env = Raised e -> exn_is e = ConnectionError ->
       fst (__init__ env (blank (fs w0))) = Returned tt /\
       chat_display (snd (__init__ env (blank (fs w0)))) =
         [Welcome;
          Message "System" "No internet connection. Please check your network."
            (VStr (Fmt.display_stamp (clock env)))]) /\
    (forall e,
       requests_get env = Raised e -> exn_is e <> ConnectionError ->
       fst (__init__ env (blank (fs w0))) = Raised e /\
       chat_display (snd (__init__ env (blank (fs w0)))) = [Welcome]).
Proof.
  intros Hconfig Hkey Hlog Hcan1 Hcan2.
  eexists. split.
  { rewrite (ensure_config_files_writes env (blank files) Hcan1 Hcan2).
    simpl. rewrite Hconfig, Hkey. reflexivity. }
  simpl.
  destruct (init_on_good_files env
              (<["api_key.txt" := Text EmptyString]>
                 (<["config.json" :=
                     Json (VDict [("font_size", VInt 14);
                                  ("selected_model", VStr "gemini-1.5-flash")])]> files))
              [("font_size", VInt 14); ("selected_model", VStr "gemini-1.5-flash")]
              default_model 14 [] EmptyString)
    as (w1 & -> & Hmodel & Hsize & Hconv & Hapi & _ & Hshown).
  - rewrite lookup_insert_ne by discriminate. apply lookup_insert_eq.
  - reflexivity.
  - left. reflexivity.
  - reflexivity.
  - lia.
  - right. split; [| reflexivity].
    rewrite !lookup_insert_ne by discriminate. exact Hlog.
  - apply lookup_insert_eq.
  - rewrite after_the_probe.
    destruct w1; cbn in Hmodel, Hsize, Hconv, Hapi, Hshown; subst.
    destruct (requests_get env) as [[] | e] eqn:Hprobe.
    + cbn.
      split; [reflexivity |]. split; [left; reflexivity |].
      split; [reflexivity |]. split; [reflexivity |].
      split; [reflexivity |]. split; [reflexivity |].
      split; [intros _; split; reflexivity |].
      split; intros e He; discriminate He.
    + destruct (exn_is e) eqn:Hkind; cbn;
        (split; [reflexivity |]); (split; [left; reflexivity |]);
        (split; [reflexivity |]); (split; [reflexivity |]);
        (split; [reflexivity |]); (split; [reflexivity |]);
        (split; [intros Hnot; discriminate Hnot |]);
        (split; intros e' [= <-] Hkind'; try congruence);
        split; reflexivity.
Qed.

Lemma first_run_starts_witness :
  (exists w0,
     ensure_config_files Sample.env (blank ∅) = (Returned tt, w0) /\
     fst (__init__ Sample.env (blank (fs w0))) = Returned tt /\
     current_model (snd (__init__ Sample.env (blank (fs w0)))) = VStr default_model /\
     chat_display (snd (__init__ Sample.env (blank (fs w0)))) = [Welcome]) /\
  (exists w0,
     ensure_config_files Scenario.slow_env (blank ∅) = (Returned tt, w0) /\
     fst (__init__ Scenario.slow_env (blank (fs w0))) =
       Raised (Exn ReadTimeout "Read timed out. (read timeout=3)")).
Proof.
  split.
  - destruct (first_run_starts Sample.env ∅)
      as (w0 & Hensure & Hmodel & _ & _ & _ & _ & _ & Hanswered & _);
      [apply lookup_empty | apply lookup_empty | apply lookup_empty
      | reflexivity | reflexivity |].
    destruct (Hanswered eq_refl) as [Hret Hshown].
    exists w0. repeat split; assumption.
  - destruct (first_run_starts Scenario.slow_env ∅)
      as (w0 & Hensure & _ & _ & _ & _ & _ & _ & _ & _ & Hother);
      [apply lookup_empty | apply lookup_empty | apply lookup_empty
      | reflexivity | reflexivity |].
    destruct (Hother (Exn ReadTimeout "Read timed out. (read timeout=3)") eq_refl)
      as [Hraised _]; [discriminate |].
    exists w0. split; assumption.
Defined.





(** ** Speech output *)

Lemma start_audio_playback_runs audio_path env w :
  start_audio_playback audio_path env w =
    (Returned tt,
     with_is_audio_playing true
       (with_spinner_visible false
          (with_player {| source := Some audio_path; playing := true |}
             (with_audio_controls_visible true
                (with_font_size_slider_visible false w))))).
Proof. reflexivity. Qed.

Lemma start_audio_playback_again audio_path env env' w :
  start_audio_playback audio_path env' (snd (start_audio_playback audio_path env w)) =
  start_audio_playback audio_path env w.
Proof. reflexivity. Qed.

(** Starting the playback of a clip that already plays changes nothing. *)
Lemma repeat_call_started n audio_path env : forall w,
  is_audio_playing w = true ->
  spinner_visible w = false ->
  player w = {| source := Some audio_path; playing := true |} ->
  audio_controls_visible w = true ->
  font_size_slider_visible w = false ->
  repeat_call n (start_audio_playback audio_path) env w = (Returned tt, w).
Proof.
  induction n as [| n IH]; intros w Hflag Hspinner Hplayer Hcontrols Hslider;
    [reflexivity |].
  change (repeat_call (S n) (start_audio_playback audio_path) env w)
    with (repeat_call n (start_audio_playback audio_path) env
            (snd (start_audio_playback audio_path env w))).
  assert (snd (start_audio_playback audio_path env w) = w) as ->
    by (destruct w; simpl in *; subst; reflexivity).
  now apply IH.
Qed.

(** The run of [generate_audio] where detection, synthesis and the write
    succeed and the audio is not empty. *)
Lemma generate_audio_succeeds env w text lang audio :
  detect env text = Returned lang ->
  tts env text lang = Returned audio ->
  audio <> EmptyString ->
  can_write env w (audio_path_at (clock env)) = true ->
  exists files,
    files !! audio_path_at (clock env) = Some (Text audio) /\
    generate_audio (VStr text) env w =
      (Returned tt,
       with_posted
         (posted w ++ [AudioReady (audio_path_at (clock env));
                       StartPlayback (audio_path_at (clock env))])
         (with_current_audio_path (Some (audio_path_at (clock env)))
            (with_fs files w))).
Proof.
  intros Hdetect Htts Haudio Hcan.
  pose proof (audio_path_is_not_the_directory (clock env)) as Hdir.
  destruct audio as [| c audio]; [now contradiction Haudio |].
  unfold generate_audio, exists_nonempty, post. run_py. rewrite exists_spec.
  destruct (bool_decide (is_Some (fs w !! "audio"))); simpl;
    rewrite Hdetect; simpl; rewrite Htts; simpl.
  - rewrite write_file_ok by exact Hcan. simpl. rewrite lookup_insert_eq. simpl.
    eexists. split; [apply lookup_insert_eq |].
    now rewrite <- app_assoc.
  - rewrite write_file_ok
      by (etransitivity; [apply (can_write_other env w); exact Hdir | exact Hcan]).
    simpl. rewrite lookup_insert_eq. simpl.
    eexists. split; [apply lookup_insert_eq |].
    now rewrite <- app_assoc.
Qed.

(** The runs of [generate_audio] that fail before the clip is ready. *)
Lemma generate_audio_detection_fails env w text e :
  detect env text = Raised e ->
  generate_audio (VStr text) env w =
    (Returned tt,
     with_posted (posted w ++ [ReportAudioError])
       (if bool_decide (is_Some (fs w !! "audio")) then w
        else with_fs (<["audio" := Dir]> (fs w)) w)).
Proof.
  intros Hdetect. unfold generate_audio, post. run_py. rewrite exists_spec.
  destruct (bool_decide (is_Some (fs w !! "audio"))); simpl;
    rewrite Hdetect; reflexivity.
Qed.

Lemma generate_audio_request_fails env w text lang e :
  detect env text = Returned lang ->
  tts env text lang = Raised e ->
  can_write env w (audio_path_at (clock env)) = true ->
  generate_audio (VStr text) env w =
    (Returned tt,
     with_posted (posted w ++ [ReportAudioError])
       (with_fs
          (<[audio_path_at (clock env) := Text EmptyString]>
             (if bool_decide (is_Some (fs w !! "audio")) then fs w
              else <["audio" := Dir]> (fs w)))
          w)).
Proof.
  intros Hdetect Htts Hcan.
  pose proof (audio_path_is_not_the_directory (clock env)) as Hdir.
  unfold generate_audio, save, post. run_py. rewrite exists_spec.
  destruct (bool_decide (is_Some (fs w !! "audio"))); simpl;
    rewrite Hdetect; simpl; rewrite Htts; simpl.
  - rewrite write_file_ok by exact Hcan. reflexivity.
  - rewrite write_file_ok
      by (etransitivity; [apply (can_write_other env w); exact Hdir | exact Hcan]).
    reflexivity.
Qed.

(** X14.  [generate_audio] never raises, and its failures are not
    reported.  When the language of the reply cannot be detected the thread
    writes nothing but the directory; when the request of [save] fails on
    a path that can be opened, it leaves an empty file under the name of
    the clip.  In both cases it emits no [audio_ready], sets no audio path
    and ends with one [QTimer.singleShot] call, which is never called
    back: after the event loop has handled what was queued, the display,
    the flag, the spinner and the player are as the thread found them. *)
Theorem generate_audio_failures_stay_silent env w text e env' :
  (forall last_response, fst (generate_audio last_response env w) = Returned tt) /\
  (posted w = [] ->
   detect env text = Raised e \/
   (exists lang,
      detect env text = Returned lang /\ tts env text lang = Raised e /\
      can_write env w (audio_path_at (clock env)) = true) ->
   posted (snd (generate_audio (VStr text) env w)) = [ReportAudioError] /\
   current_audio_path (snd (generate_audio (VStr text) env w)) = current_audio_path w /\
   (forall path,
      path <> "audio" -> path <> audio_path_at (clock env) ->
      fs (snd (generate_audio (VStr text) env w)) !! path = fs w !! path) /\
   (detect env text = Raised e ->
    fs (snd (generate_audio (VStr text) env w)) !! audio_path_at (clock env) =
      fs w !! audio_path_at (clock env)) /\
   (forall lang,
      detect env text = Returned lang ->
      fs (snd (generate_audio (VStr text) env w)) !! audio_path_at (clock env) =
        Some (Text EmptyString)) /\
   fst (drain env' (snd (generate_audio (VStr text) env w))) = Returned tt /\
   chat_display (snd (drain env' (snd (generate_audio (VStr text) env w)))) =
     chat_display w /\
   spinner_visible (snd (drain env' (snd (generate_audio (VStr text) env w)))) =
     spinner_visible w /\
   is_audio_playing (snd (drain env' (snd (generate_audio (VStr text) env w)))) =
     is_audio_playing w /\
   player (snd (drain env' (snd (generate_audio (VStr text) env w)))) = player w).
Proof.
  split.
  - intros last_response. unfold generate_audio.
    match goal with
    | |- fst (Py.try_except ?m ?h env w) = _ =>
        destruct (try_except_returns m h env w) as ([] & w' & ->)
    end; [| reflexivity].
    intros e0 w1. unfold post, Py.modify. eauto.
  - intros Hposted Hcase.
    pose proof (audio_path_is_not_the_directory (clock env)) as Hdir.
    destruct Hcase as [Hdetect | (lang & Hdetect & Htts & Hcan)].
    + rewrite (generate_audio_detection_fails env w text e Hdetect), Hposted.
      cbn [snd app].
      split; [reflexivity |].
      split; [destruct (bool_decide (is_Some (fs w !! "audio"))); reflexivity |].
      split.
      { intros path Hpath _.
        destruct (bool_decide (is_Some (fs w !! "audio"))); simpl;
          [reflexivity | now rewrite lookup_insert_ne]. }
      split.
      { intros _.
        destruct (bool_decide (is_Some (fs w !! "audio"))); simpl;
          [reflexivity | now rewrite lookup_insert_ne]. }
      split.
      { intros lang Hlang. rewrite Hdetect in Hlang. discriminate Hlang. }
      destruct (bool_decide (is_Some (fs w !! "audio"))); repeat split.
    + rewrite (generate_audio_request_fails env w text lang e Hdetect Htts Hcan),
        Hposted.
      cbn [snd app].
      split; [reflexivity |].
      split; [reflexivity |].
      split.
      { intros path Hpath Hclip. simpl.
        rewrite lookup_insert_ne by congruence.
        destruct (bool_decide (is_Some (fs w !! "audio")));
          [reflexivity | now rewrite lookup_insert_ne]. }
      split.
      { intros Hfailed. rewrite Hdetect in Hfailed. discriminate Hfailed. }
      split.
      { intros lang' _. simpl. apply lookup_insert_eq. }
      repeat split.
Qed.

Lemma generate_audio_failures_stay_silent_witness :
  threads (snd (read_last_response Scenario.mute_env Sample.chatted)) =
    [GenerateAudio (VStr "Hi there")] /\
  fs (snd (generate_audio (VStr "Hi there") Scenario.mute_env
             (snd (read_last_response Scenario.mute_env Sample.chatted))))
    !! "audio/AI-response_20241105_093015.mp3" = Some (Text EmptyString) /\
  chat_display
    (snd (drain Scenario.mute_env
            (snd (generate_audio (VStr "Hi there") Scenario.mute_env
                    (snd (read_last_response Scenario.mute_env Sample.chatted)))))) =
    chat_display Sample.chatted /\
  spinner_visible
    (snd (drain Scenario.mute_env
            (snd (generate_audio (VStr "Hi there") Scenario.mute_env
                    (snd (read_last_response Scenario.mute_env Sample.chatted)))))) =
    true.
Proof.
  destruct (generate_audio_failures_stay_silent Scenario.mute_env
              (snd (read_last_response Scenario.mute_env Sample.chatted))
              "Hi there" (Exn gTTSError "Failed to connect") Scenario.mute_env)
    as [_ Hfailed].
  destruct Hfailed as (_ & _ & _ & _ & Hclip & _ & Hshown & Hspinner & _).
  - reflexivity.
  - right. exists "en". repeat split; reflexivity.
  - split; [reflexivity |].
    split; [exact (Hclip "en" eq_refl) |].
    split; [exact Hshown | exact Hspinner].
Defined.

(** X15.  Reading the last reply aloud, from the button to the playing
    clip.  With no audio playing, nothing queued, a last reply that is not
    empty, and detection, synthesis and the write succeeding with audio
    that is not empty: [read_last_response] starts the thread for that
    reply; the thread writes the audio under the name made from its clock;
    and once the event loop has handled what the thread queued, the player
    plays that file, the flag is set, the controls are shown and the font
    slider and the spinner are hidden, however often [audio_ready] was
    connected.  A second press of the button then stops the player, clears
    the flag and shows the slider again, and starts nothing. *)
Theorem reading_aloud_ends_in_playback env w text lang audio env' :
  is_audio_playing w = false ->
  posted w = [] ->
  get_last_gemini_response env w = (Returned (VStr text), w) ->
  text <> EmptyString ->
  detect env text = Returned lang ->
  tts env text lang = Returned audio ->
  audio <> EmptyString ->
  can_write env w (audio_path_at (clock env)) = true ->
  threads (snd (read_last_response env w)) = threads w ++ [GenerateAudio (VStr text)] /\
  fst (drain env (snd (run (GenerateAudio (VStr text)) env
                         (snd (read_last_response env w))))) = Returned tt /\
  player (snd (drain env (snd (run (GenerateAudio (VStr text)) env
                                 (snd (read_last_response env w)))))) =
    {| source := Some (audio_path_at (clock env)); playing := true |} /\
  fs (snd (drain env (snd (run (GenerateAudio (VStr text)) env
                             (snd (read_last_response env w))))))
    !! audio_path_at (clock env) = Some (Text audio) /\
  current_audio_path
    (snd (drain env (snd (run (GenerateAudio (VStr text)) env
                            (snd (read_last_response env w)))))) =
    Some (audio_path_at (clock env)) /\
  is_audio_playing
    (snd (drain env (snd (run (GenerateAudio (VStr text)) env
                            (snd (read_last_response env w)))))) = true /\
  audio_controls_visible
    (snd (drain env (snd (run (GenerateAudio (VStr text)) env
                            (snd (read_last_response env w)))))) = true /\
  font_size_slider_visible
    (snd (drain env (snd (run (GenerateAudio (VStr text)) env
                            (snd (read_last_response env w)))))) = false /\
  spinner_visible
    (snd (drain env (snd (run (GenerateAudio (VStr text)) env
                            (snd (read_last_response env w)))))) = false /\
  playing
    (player
       (snd (read_last_response env'
               (snd (drain env (snd (run (GenerateAudio (VStr text)) env
                                       (snd (read_last_response env w))))))))) = false /\
  is_audio_playing
    (snd (read_last_response env'
            (snd (drain env (snd (run (GenerateAudio (VStr text)) env
                                    (snd (read_last_response env w)))))))) = false /\
  font_size_slider_visible
    (snd (read_last_response env'
            (snd (drain env (snd (run (GenerateAudio (VStr text)) env
                                    (snd (read_last_response env w)))))))) = true /\
  threads
    (snd (read_last_response env'
            (snd (drain env (snd (run (GenerateAudio (VStr text)) env
                                    (snd (read_last_response env w)))))))) =
    threads w ++ [GenerateAudio (VStr text)].
Proof.
  intros Hidle Hposted Hlast Htext Hdetect Htts Haudio Hcan.
  assert (read_last_response env w =
          (Returned tt,
           with_threads (threads w ++ [GenerateAudio (VStr text)])
             (with_audio_ready_slots (S (audio_ready_slots w))
                (with_spinner_visible true w)))) as ->.
  { unfold read_last_response, Py.bind at 1 2, Py.gets at 1.
    rewrite Hidle, Hlast.
    destruct text as [| c text]; [now contradiction Htext |]. reflexivity. }
  cbn [snd].
  set (w1 := with_threads _ _).
  destruct (generate_audio_succeeds env w1 text lang audio Hdetect Htts Haudio Hcan)
    as (files & Hfile & Hrun).
  unfold run. rewrite Hrun. cbn [snd].
  assert (drain env
            (with_posted
               (posted w1 ++ [AudioReady (audio_path_at (clock env));
                              StartPlayback (audio_path_at (clock env))])
               (with_current_audio_path (Some (audio_path_at (clock env)))
                  (with_fs files w1))) =
          start_audio_playback (audio_path_at (clock env)) env
            (with_posted []
               (with_current_audio_path (Some (audio_path_at (clock env)))
                  (with_fs files w1)))) as ->.
  { unfold drain. run_py.
    change (posted w1) with (posted w). rewrite Hposted. subst w1. simpl.
    unfold Py.bind, Py.gets. simpl.
    unfold Py.bind. rewrite start_audio_playback_runs.
    rewrite repeat_call_started by reflexivity. vm_compute. reflexivity. }
  rewrite start_audio_playback_runs. cbn [fst snd].
  split; [reflexivity |]. split; [reflexivity |]. split; [reflexivity |].
  split; [exact Hfile |].
  unfold read_last_response, stop_audio, player_stop, on_audio_finished. run_py.
  repeat split; reflexivity.
Qed.

Lemma reading_aloud_ends_in_playback_witness :
  player (snd (drain Sample.env
                 (snd (run (GenerateAudio (VStr "Hi there")) Sample.env
                         (snd (read_last_response Sample.env Sample.chatted)))))) =
    {| source := Some "audio/AI-response_20241105_093015.mp3"; playing := true |}.
Proof.
  destruct (reading_aloud_ends_in_playback Sample.env Sample.chatted "Hi there" "en"
              "mp3:Hi there" Sample.env)
    as (_ & _ & Hplayer & _);
    [ reflexivity | reflexivity | vm_compute; reflexivity | discriminate
    | reflexivity | reflexivity | discriminate | reflexivity | ].
  exact Hplayer.
Defined.

(** ** The playback controls and the font slider *)

Lemma keeps_ret {A} (a : A) : keeps (Py.ret a).
Proof. intros env w Hw. exact Hw. Qed.

Lemma keeps_raise {A} e : keeps (@Py.raise A e).
Proof. intros env w Hw. exact Hw. Qed.

Lemma keeps_gets {A} (f : World -> A) : keeps (Py.gets f).
Proof. intros env w Hw. exact Hw. Qed.

Lemma keeps_ask {A} (f : Env -> A) : keeps (Py.ask f).
Proof. intros env w Hw. exact Hw. Qed.

Lemma keeps_of_outcome {A} (o : outcome A) : keeps (Py.of_outcome o).
Proof. intros env w Hw. exact Hw. Qed.

Lemma keeps_modify (f : World -> World) :
  (forall w, ui_consistent w -> ui_consistent (f w)) -> keeps (Py.modify f).
Proof. intros Hf env w Hw. now apply Hf. Qed.

Lemma keeps_bind {A B} (m : Py A) (k : A -> Py B) :
  keeps m -> (forall a, keeps (k a)) -> keeps (Py.bind m k).
Proof.
  intros Hm Hk env w Hw. unfold Py.bind.
  specialize (Hm env w Hw). destruct (m env w) as [[a | e] w1]; simpl in Hm.
  - now apply Hk.
  - exact Hm.
Qed.

Lemma keeps_try_except {A} (m : Py A) (handler : exn -> Py A) :
  keeps m -> (forall e, keeps (handler e)) -> keeps (Py.try_except m handler).
Proof.
  intros Hm Hh env w Hw. unfold Py.try_except.
  specialize (Hm env w Hw). destruct (m env w) as [[a | e] w1]; simpl in Hm.
  - exact Hm.
  - now apply Hh.
Qed.

Lemma keeps_for_each {A} (l : list A) (body : A -> Py unit) :
  (forall x, keeps (body x)) -> keeps (Py.for_each l body).
Proof.
  intros Hbody. induction l as [| x l IH]; simpl.
  - apply keeps_ret.
  - apply keeps_bind; [apply Hbody | intros _; exact IH].
Qed.

Lemma keeps_repeat_call n (m : Py unit) : keeps m -> keeps (repeat_call n m).
Proof.
  intros Hm. induction n as [| n IH]; simpl.
  - apply keeps_ret.
  - apply keeps_bind; [exact Hm | intros _; exact IH].
Qed.

Lemma keeps_write_file path c : keeps (write_file path c).
Proof.
  intros env w Hw. destruct (can_write env w path) eqn:Hcan.
  - rewrite write_file_ok by exact Hcan. exact Hw.
  - destruct (write_file_fails env w path c Hcan) as [e ->]. exact Hw.
Qed.

Lemma keeps_exists path : keeps (exists_ path).
Proof. intros env w Hw. rewrite exists_spec. exact Hw. Qed.

Transparent json_load.

Lemma keeps_json_load path : keeps (json_load path).
Proof.
  intros env w Hw. unfold json_load, Py.bind, Py.gets.
  destruct (fs w !! path) as [[] |]; exact Hw.
Qed.

Opaque json_load.

Lemma keeps_on_audio_finished : keeps on_audio_finished.
Proof.
  intros env w Hw. unfold on_audio_finished. run_py.
  split; simpl; intros Hfalse; discriminate Hfalse.
Qed.

Lemma keeps_start_audio_playback audio_path : keeps (start_audio_playback audio_path).
Proof.
  intros env w Hw. rewrite start_audio_playback_runs.
  split; simpl; auto.
Qed.

Lemma keeps_player_stop : keeps player_stop.
Proof.
  intros env w [Hshared Hflag]. unfold player_stop, on_audio_finished. run_py.
  destruct (playing (player w)) eqn:Hplaying; simpl.
  - split; simpl; intros Hfalse; discriminate Hfalse.
  - split; simpl; [exact Hshared |].
    intros Hset. destruct (Hflag Hset) as (_ & _ & Hyes). discriminate Hyes.
Qed.

Lemma keeps_handle_audio_error error_msg : keeps (handle_audio_error error_msg).
Proof.
  intros env w Hw. unfold handle_audio_error, display_message. run_py.
  split; simpl; intros Hfalse; discriminate Hfalse.
Qed.

Lemma keeps_clearing_the_flag : keeps (Py.modify (with_is_audio_playing false)).
Proof.
  intros env w [Hshared _]. split; simpl; [exact Hshared |].
  intros Hfalse. discriminate Hfalse.
Qed.

Ltac head_of t :=
  lazymatch t with
  | ?f _ => head_of f
  | _ => t
  end.

(** One step of the proof that a handler keeps [ui_consistent]: the four
    operations on the playback state are taken whole, everything else is
    taken apart along its syntax. *)
Ltac keeps_step :=
  lazymatch goal with
  | |- keeps ((fun _ => _) _) => cbv beta
  | |- keeps (let _ := _ in _) => cbv zeta
  | |- keeps (match ?x with _ => _ end) => destruct x
  | |- keeps (Py.ret _) => apply keeps_ret
  | |- keeps (Py.raise _) => apply keeps_raise
  | |- keeps (Py.gets _) => apply keeps_gets
  | |- keeps (Py.ask _) => apply keeps_ask
  | |- keeps (Py.of_outcome _) => apply keeps_of_outcome
  | |- keeps (write_file _ _) => apply keeps_write_file
  | |- keeps (exists_ _) => apply keeps_exists
  | |- keeps (json_load _) => apply keeps_json_load
  | |- keeps on_audio_finished => apply keeps_on_audio_finished
  | |- keeps (handle_audio_error _) => apply keeps_handle_audio_error
  | |- keeps (start_audio_playback _) => apply keeps_start_audio_playback
  | |- keeps player_stop => apply keeps_player_stop
  | |- keeps (Py.modify (with_is_audio_playing false)) =>
      apply keeps_clearing_the_flag
  | |- keeps (Py.modify _) =>
      let w := fresh "w" in
      let Hw := fresh "Hw" in
      apply keeps_modify; intros w Hw; exact Hw
  | |- keeps (Py.bind _ _) => apply keeps_bind; [| intros ?]
  | |- keeps (Py.try_except _ _) => apply keeps_try_except; [| intros ?]
  | |- keeps (Py.for_each _ _) => apply keeps_for_each; intros ?
  | |- keeps (repeat_call _ _) => apply keeps_repeat_call
  | |- keeps ?m => let h := head_of m in unfold h
  end.

Lemma keeps_perform a : keeps (perform a).
Proof. destruct a; repeat keeps_step. Qed.

Lemma keeps_init : keeps __init__.
Proof. repeat keeps_step. Qed.

Lemma ui_consistent_blank files : ui_consistent (blank files).
Proof. split; simpl; intros Hfalse; discriminate Hfalse. Qed.

Lemma perform_all_keeps steps : forall w,
  ui_consistent w -> ui_consistent (perform_all steps w).
Proof.
  induction steps as [| [env a] steps IH]; intros w Hw; [exact Hw |].
  simpl. apply IH. now apply keeps_perform.
Qed.

(** X16.  Whatever happens in a session after start-up, in whatever order
    and whether the handlers return or raise (the buttons, the input
    field, the threads, the events they queue, and what the player
    reports), the playback controls and the font slider are never both
    visible, and while [is_audio_playing] is set the controls are visible,
    the slider is hidden and the player was told to play.  Showing and
    hiding act when the handler runs, as in [start_audio_playback]
    above. *)
Theorem controls_and_slider_never_both env files steps :
  ui_consistent (perform_all steps (snd (__init__ env (blank files)))) /\
  audio_controls_visible (perform_all steps (snd (__init__ env (blank files))))
  && font_size_slider_visible (perform_all steps (snd (__init__ env (blank files))))
    = false.
Proof.
  assert (ui_consistent (perform_all steps (snd (__init__ env (blank files)))))
    as Hok
    by (apply perform_all_keeps, keeps_init, ui_consistent_blank).
  split; [exact Hok |].
  destruct Hok as [Hshared _].
  destruct (audio_controls_visible _); [| reflexivity].
  now rewrite Hshared.
Qed.

(** ** Reading the last response aloud *)





(** ** Going through the matches of a search *)

Section SearchProperties.

Context {cursor : Type}.
Implicit Types (s : Search.state cursor) (l : list cursor).

Lemma item_in_range l j :
  (0 <= j < Z.of_nat (length l))%Z ->
  exists c, l !! Z.to_nat j = Some c /\ Search.item l j = Some c.
Proof.
  intros Hj.
  destruct (lookup_lt_is_Some_2 l (Z.to_nat j)) as [c Hc]; [lia |].
  exists c. split; [exact Hc |].
  unfold Search.item.
  replace (0 <=? j)%Z with true by (symmetry; apply Z.leb_le; lia).
  replace (j <? Z.of_nat (length l))%Z with true by (symmetry; apply Z.ltb_lt; lia).
  exact Hc.
Qed.

Lemma length_positive l : l <> [] -> (0 < Z.of_nat (length l))%Z.
Proof. destruct l; [congruence | simpl; lia]. Qed.

Lemma highlight_next_match_moves s l i :
  Search.matches s = Some l -> l <> [] -> Search.current_match_index s = Some i ->
  exists c,
    (0 <= (i + 1) mod Z.of_nat (length l) < Z.of_nat (length l))%Z /\
    l !! Z.to_nat ((i + 1) mod Z.of_nat (length l)) = Some c /\
    Search.highlight_next_match s =
      (Returned tt,
       {| Search.matches := Some l;
          Search.current_match_index := Some ((i + 1) mod Z.of_nat (length l))%Z;
          Search.text_cursor := Search.AtMatch c |}).
Proof.
  intros Hmatches Hl Hindex.
  pose proof (Z.mod_pos_bound (i + 1) _ (length_positive l Hl)) as Hrange.
  destruct (item_in_range l _ Hrange) as (c & Hc & Hitem).
  exists c. split; [exact Hrange |]. split; [exact Hc |].
  unfold Search.highlight_next_match. rewrite Hmatches, Hindex.
  destruct l as [| c0 l0]; [congruence |].
  now rewrite Hitem.
Qed.

Lemma highlight_previous_match_moves s l i :
  Search.matches s = Some l -> l <> [] -> Search.current_match_index s = Some i ->
  exists c,
    (0 <= (i - 1) mod Z.of_nat (length l) < Z.of_nat (length l))%Z /\
    l !! Z.to_nat ((i - 1) mod Z.of_nat (length l)) = Some c /\
    Search.highlight_previous_match s =
      (Returned tt,
       {| Search.matches := Some l;
          Search.current_match_index := Some ((i - 1) mod Z.of_nat (length l))%Z;
          Search.text_cursor := Search.AtMatch c |}).
Proof.
  intros Hmatches Hl Hindex.
  pose proof (Z.mod_pos_bound (i - 1) _ (length_positive l Hl)) as Hrange.
  destruct (item_in_range l _ Hrange) as (c & Hc & Hitem).
  exists c. split; [exact Hrange |]. split; [exact Hc |].
  unfold Search.highlight_previous_match. rewrite Hmatches, Hindex.
  destruct l as [| c0 l0]; [congruence |].
  now rewrite Hitem.
Qed.

(** X17.  With at least one match, the two arrow buttons never leave the
    list and never raise: whatever integer the index was, after either
    button it is the old index plus or minus one modulo the number of
    matches, it lies between 0 and that number, and the cursor is on the
    match at that index. *)
Theorem arrows_stay_within_the_matches s l i :
  Search.matches s = Some l -> l <> [] -> Search.current_match_index s = Some i ->
  (exists j c,
     j = ((i + 1) mod Z.of_nat (length l))%Z /\
     (0 <= j < Z.of_nat (length l))%Z /\
     l !! Z.to_nat j = Some c /\
     Search.highlight_next_match s =
       (Returned tt,
        {| Search.matches := Some l; Search.current_match_index := Some j;
           Search.text_cursor := Search.AtMatch c |})) /\
  (exists j c,
     j = ((i - 1) mod Z.of_nat (length l))%Z /\
     (0 <= j < Z.of_nat (length l))%Z /\
     l !! Z.to_nat j = Some c /\
     Search.highlight_previous_match s =
       (Returned tt,
        {| Search.matches := Some l; Search.current_match_index := Some j;
           Search.text_cursor := Search.AtMatch c |})).
Proof.
  intros Hmatches Hl Hindex. split.
  - destruct (highlight_next_match_moves s l i Hmatches Hl Hindex)
      as (c & Hrange & Hc & Hrun).
    eexists _, c. split; [reflexivity |]. auto.
  - destruct (highlight_previous_match_moves s l i Hmatches Hl Hindex)
      as (c & Hrange & Hc & Hrun).
    eexists _, c. split; [reflexivity |]. auto.
Qed.

Lemma press_next_index l k : forall s i,
  Search.matches s = Some l -> l <> [] ->
  Search.current_match_index s = Some i ->
  (0 <= i < Z.of_nat (length l))%Z ->
  Search.matches (Search.press_next k s) = Some l /\
  Search.current_match_index (Search.press_next k s) =
    Some ((i + Z.of_nat k) mod Z.of_nat (length l))%Z.
Proof.
  induction k as [| k IH]; intros s i Hmatches Hl Hindex Hrange.
  - simpl. rewrite Z.add_0_r, Z.mod_small by exact Hrange. auto.
  - destruct (highlight_next_match_moves s l i Hmatches Hl Hindex)
      as (c & Hrange' & _ & Hrun).
    change (Search.press_next (S k) s)
      with (Search.press_next k (snd (Search.highlight_next_match s))).
    rewrite Hrun. cbn [snd].
    destruct (IH {| Search.matches := Some l;
                    Search.current_match_index :=
                      Some ((i + 1) mod Z.of_nat (length l))%Z;
                    Search.text_cursor := Search.AtMatch c |}
                ((i + 1) mod Z.of_nat (length l))%Z eq_refl Hl eq_refl Hrange')
      as [Hm Hi].
    split; [exact Hm |]. rewrite Hi. f_equal.
    rewrite Zplus_mod_idemp_l. f_equal. lia.
Qed.

(** X18.  The arrow buttons undo each other and go round: from an index
    within the matches, next and then previous, or previous and then next,
    ends on the index it started from, and so does pressing next once for
    every match. *)
Theorem arrows_undo_each_other s l i :
  Search.matches s = Some l ->
  Search.current_match_index s = Some i ->
  (0 <= i < Z.of_nat (length l))%Z ->
  Search.current_match_index
    (snd (Search.highlight_previous_match (snd (Search.highlight_next_match s)))) =
    Some i /\
  Search.current_match_index
    (snd (Search.highlight_next_match (snd (Search.highlight_previous_match s)))) =
    Some i /\
  Search.current_match_index (Search.press_next (length l) s) = Some i.
Proof.
  intros Hmatches Hindex Hrange.
  assert (l <> []) as Hl by (intros ->; simpl in Hrange; lia).
  split; [| split].
  - destruct (highlight_next_match_moves s l i Hmatches Hl Hindex)
      as (c & _ & _ & ->).
    destruct (highlight_previous_match_moves
                {| Search.matches := Some l;
                   Search.current_match_index :=
                     Some ((i + 1) mod Z.of_nat (length l))%Z;
                   Search.text_cursor := Search.AtMatch c |}
                l _ eq_refl Hl eq_refl) as (c' & _ & _ & Hback).
    cbn [snd]. rewrite Hback. cbn [snd Search.current_match_index]. f_equal.
    rewrite Zminus_mod_idemp_l.
    replace (i + 1 - 1)%Z with i by lia. now apply Z.mod_small.
  - destruct (highlight_previous_match_moves s l i Hmatches Hl Hindex)
      as (c & _ & _ & ->).
    destruct (highlight_next_match_moves
                {| Search.matches := Some l;
                   Search.current_match_index :=
                     Some ((i - 1) mod Z.of_nat (length l))%Z;
                   Search.text_cursor := Search.AtMatch c |}
                l _ eq_refl Hl eq_refl) as (c' & _ & _ & Hback).
    cbn [snd]. rewrite Hback. cbn [snd Search.current_match_index]. f_equal.
    rewrite Zplus_mod_idemp_l.
    replace (i - 1 + 1)%Z with i by lia. now apply Z.mod_small.
  - destruct (press_next_index l (length l) s i Hmatches Hl Hindex Hrange)
      as [_ ->].
    f_equal.
    replace (i + Z.of_nat (length l))%Z with (i + 1 * Z.of_nat (length l))%Z by lia.
    rewrite Z_mod_plus_full. now apply Z.mod_small.
Qed.

(** X19.  A search goes to the first match.  For a term that is not blank
    and has matches, [search_text] keeps the matches, sets the index to 0
    and puts the cursor on the first one.  For a term without matches it
    leaves the index at -1 and the cursor where it was, and the arrow
    buttons then do nothing.  A blank term selects the whole document and
    leaves the matches and the index as they were.  Before the first
    search the arrow buttons raise [AttributeError], since [matches] is
    assigned by [search_text] only. *)
Theorem search_goes_to_the_first_match (find_all_matches : string -> list cursor)
    text s :
  (all_space text = true ->
   Search.search_text find_all_matches text s =
     (Returned tt,
      {| Search.matches := Search.matches s;
         Search.current_match_index := Search.current_match_index s;
         Search.text_cursor := Search.WholeDocument |})) /\
  (all_space text = false ->
   forall c rest,
     find_all_matches (PyStr.strip text) = c :: rest ->
     Search.search_text find_all_matches text s =
       (Returned tt,
        {| Search.matches := Some (c :: rest);
           Search.current_match_index := Some 0%Z;
           Search.text_cursor := Search.AtMatch c |})) /\
  (all_space text = false ->
   find_all_matches (PyStr.strip text) = [] ->
   Search.search_text find_all_matches text s =
     (Returned tt,
      {| Search.matches := Some [];
         Search.current_match_index := Some (-1)%Z;
         Search.text_cursor := Search.text_cursor s |}) /\
   Search.highlight_next_match (snd (Search.search_text find_all_matches text s)) =
     (Returned tt, snd (Search.search_text find_all_matches text s)) /\
   Search.highlight_previous_match (snd (Search.search_text find_all_matches text s)) =
     (Returned tt, snd (Search.search_text find_all_matches text s))) /\
  (Search.matches s = None ->
   fst (Search.highlight_next_match s) = Raised (Search.missing_attribute "matches") /\
   fst (Search.highlight_previous_match s) =
     Raised (Search.missing_attribute "matches")).
Proof.
  split; [| split; [| split]].
  - intros Hblank. unfold Search.search_text.
    now rewrite strip_truthy, Hblank.
  - intros Hterm c rest Hfound. unfold Search.search_text.
    rewrite strip_truthy, Hterm, Hfound. cbn [negb].
    destruct (highlight_next_match_moves
                {| Search.matches := Some (c :: rest);
                   Search.current_match_index := Some (-1)%Z;
                   Search.text_cursor := Search.text_cursor s |}
                (c :: rest) (-1)%Z eq_refl ltac:(discriminate) eq_refl)
      as (c' & _ & Hc' & ->).
    change (-1 + 1)%Z with 0%Z in *. rewrite Z.mod_0_l in * by (simpl; lia).
    simpl in Hc'. now inversion Hc'.
  - intros Hterm Hfound. unfold Search.search_text.
    rewrite strip_truthy, Hterm, Hfound. repeat split.
  - intros Hnone. unfold Search.highlight_next_match, Search.highlight_previous_match.
    rewrite Hnone. split; reflexivity.
Qed.

End SearchProperties.

Lemma arrows_stay_within_the_matches_witness :
  Search.highlight_next_match
    {| Search.matches := Some [10; 20; 30];
       Search.current_match_index := Some 2%Z;
       Search.text_cursor := Search.Unmoved |} =
    (Returned tt,
     {| Search.matches := Some [10; 20; 30];
        Search.current_match_index := Some 0%Z;
        Search.text_cursor := Search.AtMatch 10 |}).
Proof.
  destruct (arrows_stay_within_the_matches
              {| Search.matches := Some [10; 20; 30];
                 Search.current_match_index := Some 2%Z;
                 Search.text_cursor := Search.Unmoved |}
              [10; 20; 30] 2%Z eq_refl ltac:(discriminate) eq_refl)
    as [(j & c & Hj & _ & Hc & Hrun) _].
  rewrite Hrun. vm_compute in Hj. subst j. simpl in Hc.
  inversion Hc. reflexivity.
Defined.

Lemma arrows_undo_each_other_witness :
  Search.current_match_index
    (Search.press_next 3
       {| Search.matches := Some [10; 20; 30];
          Search.current_match_index := Some 1%Z;
          Search.text_cursor := Search.Unmoved |}) = Some 1%Z.
Proof.
  destruct (arrows_undo_each_other
              {| Search.matches := Some [10; 20; 30];
                 Search.current_match_index := Some 1%Z;
                 Search.text_cursor := Search.Unmoved |}
              [10; 20; 30] 1%Z eq_refl eq_refl ltac:(simpl; lia))
    as (_ & _ & Hround).
  exact Hround.
Defined.

Lemma search_goes_to_the_first_match_witness :
  Search.search_text (fun _ => [10; 20; 30]) " hi "
    {| Search.matches := None; Search.current_match_index := None;
       Search.text_cursor := Search.Unmoved |} =
    (Returned tt,
     {| Search.matches := Some [10; 20; 30];
        Search.current_match_index := Some 0%Z;
        Search.text_cursor := Search.AtMatch 10 |}).
Proof.
  destruct (search_goes_to_the_first_match (fun _ => [10; 20; 30]) " hi "
              {| Search.matches := None; Search.current_match_index := None;
                 Search.text_cursor := Search.Unmoved |})
    as (_ & Hfound & _).
  apply Hfound; reflexivity.
Defined.

(** ** Escaping *)

Lemma append_nil_r s : s +:+ EmptyString = s.
Proof.
  induction s as [| c s IH]; [reflexivity |].
  rewrite append_cons. now rewrite IH.
Qed.

Lemma replace_char_append old new s1 s2 :
  Html.replace_char old new (s1 +:+ s2) =
  Html.replace_char old new s1 +:+ Html.replace_char old new s2.
Proof.
  induction s1 as [| c s1 IH]; [reflexivity |].
  rewrite append_cons. simpl. rewrite IH. now rewrite append_assoc.
Qed.

Lemma occurs_append c s1 s2 :
  Html.occurs c (s1 +:+ s2) = Html.occurs c s1 || Html.occurs c s2.
Proof.
  induction s1 as [| a s1 IH]; [reflexivity |].
  rewrite append_cons. simpl. rewrite IH. now rewrite orb_assoc.
Qed.

Lemma escape_html_cons c s :
  Html.escape_html (String c s) =
  Html.escape_html (String c EmptyString) +:+ Html.escape_html s.
Proof.
  unfold Html.escape_html.
  change (Html.replace_char "&" "&amp;" (String c s))
    with ((if Ascii.eqb c "&" then "&amp;" else String c EmptyString)
          +:+ Html.replace_char "&" "&amp;" s).
  change (Html.replace_char "&" "&amp;" (String c EmptyString))
    with ((if Ascii.eqb c "&" then "&amp;" else String c EmptyString)
          +:+ EmptyString).
  rewrite append_nil_r. now rewrite !replace_char_append.
Qed.

Lemma formatted_message_cons c s :
  Html.formatted_message (String c s) =
  Html.formatted_message (String c EmptyString) +:+ Html.formatted_message s.
Proof.
  change (Html.formatted_message (String c s))
    with (Html.replace_char "010" "<br>" (Html.escape_html (String c s))).
  rewrite escape_html_cons. now rewrite replace_char_append.
Qed.

Ltac each_character c :=
  destruct c as [[] [] [] [] [] [] [] []]; vm_compute; reflexivity.

Lemma escape_html_keeps_no_bracket c :
  Html.occurs "<" (Html.escape_html (String c EmptyString)) = false /\
  Html.occurs ">" (Html.escape_html (String c EmptyString)) = false.
Proof. split; each_character c. Qed.

Lemma unescape_escaped_character c rest :
  Html.unescape (Html.escape_html (String c EmptyString) +:+ rest) =
  String c (Html.unescape rest).
Proof. each_character c. Qed.

Lemma formatted_message_keeps_no_newline c :
  Html.occurs "010" (Html.formatted_message (String c EmptyString)) = false.
Proof. each_character c. Qed.

Lemma unescape_formatted_character c rest :
  Html.unescape (Html.formatted_message (String c EmptyString) +:+ rest) =
  String c (Html.unescape rest).
Proof. each_character c. Qed.

(** X20.  [escape_html] leaves no angle bracket in its result and loses
    nothing: reading the three entities back gives the text that was
    escaped, so two texts that differ are escaped differently. *)
Theorem escape_html_is_faithful text :
  Html.occurs "<" (Html.escape_html text) = false /\
  Html.occurs ">" (Html.escape_html text) = false /\
  Html.unescape (Html.escape_html text) = text /\
  (forall other, Html.escape_html other = Html.escape_html text -> other = text).
Proof.
  assert (forall s, Html.unescape (Html.escape_html s) = s) as Hback.
  { induction s as [| c s IH]; [reflexivity |].
    rewrite escape_html_cons, unescape_escaped_character. now rewrite IH. }
  split; [| split; [| split; [apply Hback |]]].
  - induction text as [| c text IH]; [reflexivity |].
    rewrite escape_html_cons, occurs_append, IH.
    now rewrite (proj1 (escape_html_keeps_no_bracket c)).
  - induction text as [| c text IH]; [reflexivity |].
    rewrite escape_html_cons, occurs_append, IH.
    now rewrite (proj2 (escape_html_keeps_no_bracket c)).
  - intros other Hsame. rewrite <- (Hback other), Hsame. apply Hback.
Qed.

Lemma escape_html_is_faithful_witness :
  Html.occurs "<" (Html.escape_html "a < b && c > d") = false /\
  Html.unescape (Html.escape_html "a < b && c > d") = "a < b && c > d".
Proof.
  destruct (escape_html_is_faithful "a < b && c > d") as (Hleft & _ & Hback & _).
  split; [exact Hleft | exact Hback].
Defined.

(** X21.  The text that [display_message] puts into the display for a
    message that is not a code block has no line break left in it, every
    line break having become a tag, and it determines the message: reading
    the entities and the tags back gives the message, so two messages that
    differ are displayed differently. *)
Theorem formatted_message_is_faithful message :
  Html.occurs "010" (Html.formatted_message message) = false /\
  Html.unescape (Html.formatted_message message) = message /\
  (forall other,
     Html.formatted_message other = Html.formatted_message message -> other = message).
Proof.
  assert (forall s, Html.unescape (Html.formatted_message s) = s) as Hback.
  { induction s as [| c s IH]; [reflexivity |].
    rewrite formatted_message_cons, unescape_formatted_character. now rewrite IH. }
  split; [| split; [apply Hback |]].
  - induction message as [| c message IH]; [reflexivity |].
    rewrite formatted_message_cons, occurs_append, IH.
    now rewrite formatted_message_keeps_no_newline.
  - intros other Hsame. rewrite <- (Hback other), Hsame. apply Hback.
Qed.

Lemma formatted_message_is_faithful_witness :
  Html.unescape (Html.formatted_message ("x < y" +:+ newline +:+ "<br>")) =
    "x < y" +:+ newline +:+ "<br>".
Proof.
  destruct (formatted_message_is_faithful ("x < y" +:+ newline +:+ "<br>"))
    as (_ & Hback & _).
  exact Hback.
Defined.

(** ** A submission from the input field to the display *)

Lemma get_gemini_response_text env w message reply :
  key_set (api_key w) = true ->
  generate_content env (current_model w) message =
    Returned (RObject (Attribute (VStr reply))) ->
  get_gemini_response message env w =
    (Returned (PyStr.strip reply),
     with_requests (requests w ++ [(current_model w, message)]) w).
Proof.
  intros Hkey Hreply. unfold get_gemini_response, call_endpoint. run_py.
  rewrite Hkey. simpl. now rewrite Hreply.
Qed.

(** X22.  A submission, from the button to the display.  With a key, an
    input that is not blank, nothing queued, an endpoint that answers the
    prompt with a text and a writable store: [send_message] shows the
    stripped input and starts the thread; the thread sends the prompt and
    saves; and once the event loop has handled what the thread queued, the
    display ends with the input and then the stripped reply, exactly one
    exchange was appended and is on disk, one request reached the
    endpoint and the input field is empty.  The spinner is as it was: the
    two [QTimer.singleShot] calls of the thread are never called back.
    The exchange stores the prompt that was sent, which with the context
    box checked is the labelled transcript followed by the input, not the
    input alone. *)
Theorem submission_ends_in_the_display env w l reply :
  all_space (message_input w) = false ->
  key_set (api_key w) = true ->
  conversations w = VList l ->
  posted w = [] ->
  generate_content env (current_model w)
    (context_message (context_checkbox w) (toPlainText env (chat_display w))
       (PyStr.strip (message_input w))) =
    Returned (RObject (Attribute (VStr reply))) ->
  can_write env w "conversations.json" = true ->
  threads (snd (send_message env w)) =
    threads w ++
      [ProcessMessage
         (context_message (context_checkbox w) (toPlainText env (chat_display w))
            (PyStr.strip (message_input w)))] /\
  chat_display
    (snd (drain env
            (snd (run (ProcessMessage
                         (context_message (context_checkbox w)
                            (toPlainText env (chat_display w))
                            (PyStr.strip (message_input w))))
                    env (snd (send_message env w)))))) =
    chat_display w ++
      [Message "Me" (PyStr.strip (message_input w))
         (VStr (Fmt.display_stamp (clock env)));
       Message "Gemini" (PyStr.strip reply) (VStr (Fmt.display_stamp (clock env)))] /\
  conversations
    (snd (drain env
            (snd (run (ProcessMessage
                         (context_message (context_checkbox w)
                            (toPlainText env (chat_display w))
                            (PyStr.strip (message_input w))))
                    env (snd (send_message env w)))))) =
    VList (l ++
           [exchange (Fmt.display_stamp (clock env))
              (context_message (context_checkbox w) (toPlainText env (chat_display w))
                 (PyStr.strip (message_input w)))
              (PyStr.strip reply)]) /\
  fs (snd (drain env
             (snd (run (ProcessMessage
                          (context_message (context_checkbox w)
                             (toPlainText env (chat_display w))
                             (PyStr.strip (message_input w))))
                     env (snd (send_message env w))))))
    !! "conversations.json" =
    Some (Json (VList (l ++
           [exchange (Fmt.display_stamp (clock env))
              (context_message (context_checkbox w) (toPlainText env (chat_display w))
                 (PyStr.strip (message_input w)))
              (PyStr.strip reply)]))) /\
  requests
    (snd (drain env
            (snd (run (ProcessMessage
                         (context_message (context_checkbox w)
                            (toPlainText env (chat_display w))
                            (PyStr.strip (message_input w))))
                    env (snd (send_message env w)))))) =
    requests w ++
      [(current_model w,
        context_message (context_checkbox w) (toPlainText env (chat_display w))
          (PyStr.strip (message_input w)))] /\
  message_input
    (snd (drain env
            (snd (run (ProcessMessage
                         (context_message (context_checkbox w)
                            (toPlainText env (chat_display w))
                            (PyStr.strip (message_input w))))
                    env (snd (send_message env w)))))) = EmptyString /\
  spinner_visible
    (snd (drain env
            (snd (run (ProcessMessage
                         (context_message (context_checkbox w)
                            (toPlainText env (chat_display w))
                            (PyStr.strip (message_input w))))
                    env (snd (send_message env w)))))) = spinner_visible w.
Proof.
  intros Hinput Hkey Hconv Hposted Hreply Hcan.
  set (prompt := context_message (context_checkbox w) (toPlainText env (chat_display w))
                   (PyStr.strip (message_input w))) in *.
  set (stamp := VStr (Fmt.display_stamp (clock env))).
  set (w1 := with_threads (threads w ++ [ProcessMessage prompt])
               (with_message_input EmptyString
                  (with_chat_display
                     (chat_display w ++
                        [Message "Me" (PyStr.strip (message_input w)) stamp]) w))).
  assert (send_message env w = (Returned tt, w1)) as ->.
  { unfold send_message, display_message, start_thread. run_py.
    rewrite strip_truthy, Hinput. reflexivity. }
  cbn [snd]. split; [reflexivity |].
  set (w2 := with_posted [SpinnerShow; ResponseReceived (PyStr.strip reply); SpinnerHide]
               (with_fs
                  (<["conversations.json" :=
                      Json (VList (l ++ [exchange (Fmt.display_stamp (clock env)) prompt
                                           (PyStr.strip reply)]))]> (fs w))
                  (with_conversations
                     (VList (l ++ [exchange (Fmt.display_stamp (clock env)) prompt
                                     (PyStr.strip reply)]))
                     (with_requests (requests w ++ [(current_model w, prompt)]) w1)))).
  assert (run (ProcessMessage prompt) env w1 = (Returned tt, w2)) as ->.
  { unfold run, process_message, post. run_py.
    erewrite get_gemini_response_text by (first [exact Hkey | exact Hreply]).
    simpl.
    erewrite save_conversation_ok by (first [exact Hconv | exact Hcan]).
    simpl. subst w2 w1. simpl. rewrite Hposted. reflexivity. }
  cbn [snd].
  unfold drain, deliver, handle_response, display_message. run_py.
  repeat split; try reflexivity.
  - now rewrite <- app_assoc.
  - apply lookup_insert_eq.
Qed.

Lemma submission_ends_in_the_display_witness :
  chat_display
    (snd (drain Sample.env
            (snd (run (ProcessMessage "Hello") Sample.env
                    (snd (send_message Sample.env
                            (with_message_input " Hello " Sample.with_key)))))))
  = [Welcome; Message "Me" "Hello" (VStr "2024-11-05 09:30:15");
     Message "Gemini" "Hi there" (VStr "2024-11-05 09:30:15")].
Proof.
  destruct (submission_ends_in_the_display Sample.env
              (with_message_input " Hello " Sample.with_key) [] "Hi there")
    as (_ & Hshown & _);
    [reflexivity | reflexivity | reflexivity | reflexivity | reflexivity
    | reflexivity |].
  exact Hshown.
Defined.

(** ** The end of a clip *)

(** X23.  How a clip ends decides what comes back.  When the user stops
    it, when the player reports the end of the media and when it reports
    that it stopped, the flag is cleared, the controls are hidden and the
    font slider is shown again, and nothing is displayed.  When the player
    reports invalid media or an error, and when the signal [audio_error]
    reaches its slot, the flag is cleared, the controls and the spinner are
    hidden and the error is displayed as a message of the system, but the
    font slider is left as it was. *)
Theorem end_of_a_clip env w :
  (forall a,
     a = PressStop \/ a = MediaStatusChanged EndOfMedia \/
     a = PlaybackStateChanged StoppedState ->
     fst (perform a env w) = Returned tt /\
     is_audio_playing (snd (perform a env w)) = false /\
     audio_controls_visible (snd (perform a env w)) = false /\
     font_size_slider_visible (snd (perform a env w)) = true /\
     chat_display (snd (perform a env w)) = chat_display w) /\
  playing (player (snd (perform PressStop env w))) = false /\
  (forall a error_msg,
     (a = MediaStatusChanged InvalidMedia /\ error_msg = "Invalid media.") \/
     a = PlayerError error_msg \/ a = Deliver (AudioError error_msg) ->
     fst (perform a env w) = Returned tt /\
     is_audio_playing (snd (perform a env w)) = false /\
     audio_controls_visible (snd (perform a env w)) = false /\
     spinner_visible (snd (perform a env w)) = false /\
     font_size_slider_visible (snd (perform a env w)) = font_size_slider_visible w /\
     chat_display (snd (perform a env w)) =
       chat_display w ++
         [Message "System" ("Audio error: " +:+ error_msg)
            (VStr (Fmt.display_stamp (clock env)))]).
Proof.
  split; [| split].
  - intros a [-> | [-> | ->]].
    + unfold perform, stop_audio, player_stop, on_audio_finished. run_py.
      destruct (playing (player w)); repeat split.
    + repeat split.
    + repeat split.
  - unfold perform, stop_audio, player_stop, on_audio_finished. run_py.
    now destruct (playing (player w)).
  - intros a error_msg [[-> ->] | [-> | ->]]; repeat split.
Qed.

Lemma end_of_a_clip_witness :
  font_size_slider_visible
    (snd (perform (MediaStatusChanged EndOfMedia) Sample.env
            (snd (start_audio_playback "audio/clip.mp3" Sample.env Sample.chatted)))) =
    true /\
  font_size_slider_visible
    (snd (perform (PlayerError "Device lost") Sample.env
            (snd (start_audio_playback "audio/clip.mp3" Sample.env Sample.chatted)))) =
    false.
Proof.
  destruct (end_of_a_clip Sample.env
              (snd (start_audio_playback "audio/clip.mp3" Sample.env Sample.chatted)))
    as (Hfinished & _ & Hfailed).
  split.
  - destruct (Hfinished (MediaStatusChanged EndOfMedia)) as (_ & _ & _ & Hslider & _);
      [right; left; reflexivity | exact Hslider].
  - destruct (Hfailed (PlayerError "Device lost") "Device lost")
      as (_ & _ & _ & _ & Hslider & _);
      [right; left; reflexivity | exact Hslider].
Defined.

(** ** After clearing *)

(** X24.  After a confirmed clear whose two writes succeed there is
    nothing left to read aloud: the display holds the confirmation alone,
    [get_last_gemini_response] returns [None], and with no audio playing
    [read_last_response] says that there is no response to read and starts
    no thread. *)
Theorem nothing_to_read_after_clearing env w env' :
  answers_yes env = true ->
  can_write env w (archive_filename_at (clock env)) = true ->
  can_write env w "conversations.json" = true ->
  chat_display (snd (delete_all_conversations env w)) =
    [Message "System" "All conversations deleted and archived."
       (VStr (Fmt.display_stamp (clock env)))] /\
  get_last_gemini_response env' (snd (delete_all_conversations env w)) =
    (Returned VNone, snd (delete_all_conversations env w)) /\
  (is_audio_playing w = false ->
   threads (snd (read_last_response env' (snd (delete_all_conversations env w)))) =
     threads w /\
   chat_display (snd (read_last_response env' (snd (delete_all_conversations env w)))) =
     [Message "System" "All conversations deleted and archived."
        (VStr (Fmt.display_stamp (clock env)));
      Message "System" "No response to read."
        (VStr (Fmt.display_stamp (clock env')))]).
Proof.
  intros Hyes Harchive Hlog.
  rewrite (delete_all_conversations_confirmed env w Hyes Harchive).
  pose proof (archive_is_not_the_log (clock env)) as Hne.
  unfold json_dump, display_message. run_py.
  rewrite write_file_ok
    by (etransitivity; [apply (can_write_other env w); exact Hne | exact Hlog]).
  simpl. split; [reflexivity |]. split; [reflexivity |].
  intros Hidle.
  unfold read_last_response, get_last_gemini_response, display_message. run_py.
  rewrite Hidle. simpl. split; reflexivity.
Qed.

Lemma nothing_to_read_after_clearing_witness :
  threads (snd (read_last_response Sample.env
                  (snd (delete_all_conversations Sample.env Sample.chatted)))) = [] /\
  get_last_gemini_response Sample.env
    (snd (delete_all_conversations Sample.env Sample.chatted)) =
    (Returned VNone, snd (delete_all_conversations Sample.env Sample.chatted)).
Proof.
  destruct (nothing_to_read_after_clearing Sample.env Sample.chatted Sample.env
              eq_refl eq_refl eq_refl) as (_ & Hlast & Hread).
  destruct (Hread eq_refl) as [Hthreads _].
  split; [exact Hthreads | exact Hlast].
Defined.

(** ** Stored conversations that cannot be replayed *)

Lemma for_each_app {A} (l1 l2 : list A) (body : A -> Py unit) env w :
  Py.for_each (l1 ++ l2) body env w =
  (Py.for_each l1 body >> Py.for_each l2 body) env w.
Proof.
  revert w. induction l1 as [| x l1 IH]; intros w; [reflexivity |].
  simpl. unfold Py.bind in *.
  destruct (body x env w) as [[[] | e] w1]; [apply IH | reflexivity].
Qed.

(** X25.  A stored entry that cannot be replayed stops
    [load_conversations], and with it [__init__].  A stored list in which
    an entry has no input raises [KeyError] at that entry: by then the
    whole stored list has replaced the conversations in memory, and the
    display shows the exchanges before that entry and none after it. *)
Theorem load_conversations_stops_at_a_bad_entry env w stored d rest :
  dict_get "input" d = None ->
  fs w !! "conversations.json" =
    Some (Json (VList (stored_exchanges stored ++ VDict d :: rest))) ->
  (exists e, fst (load_conversations env w) = Raised e /\ exn_is e = KeyError) /\
  conversations (snd (load_conversations env w)) =
    VList (stored_exchanges stored ++ VDict d :: rest) /\
  chat_display (snd (load_conversations env w)) =
    chat_display w ++ replayed (clock env) stored.
Proof.
  - intros Hinput Hfile.
    rewrite (load_conversations_list env w _ Hfile).
    assert (forall w1,
              Py.for_each (stored_exchanges stored ++ VDict d :: rest) replay env w1 =
                (Raised (Exn KeyError "input"),
                 with_chat_display (chat_display w1 ++ replayed (clock env) stored) w1))
      as Hloop.
    { intros w1. rewrite for_each_app. unfold Py.bind. rewrite replay_stored.
      change (Py.for_each (VDict d :: rest) replay)
        with (Py.bind (replay (VDict d)) (fun _ => Py.for_each rest replay)).
      unfold Py.bind, replay, get_method, subscript. run_py.
      now rewrite Hinput. }
    rewrite Hloop. split; [| split; reflexivity].
    eexists. split; reflexivity.
Qed.

Lemma load_conversations_stops_at_a_bad_entry_witness :
  chat_display
    (snd (load_conversations Sample.env
            (with_fs
               {["conversations.json" :=
                   Json (VList (stored_exchanges [("2024-11-04 18:00:00", "Hello", "Hi")]
                                  ++ [VDict [("output", VStr "lost")];
                                      exchange "2024-11-04 18:05:00" "Bye" "Goodbye"]))]}
               Sample.with_key))) =
    [Welcome;
     Message "Me" "Hello" (VStr "2024-11-04 18:00:00");
     Message "Gemini" "Hi" (VStr "2024-11-04 18:00:00")].
Proof.
  destruct (load_conversations_stops_at_a_bad_entry Sample.env
              (with_fs
                 {["conversations.json" :=
                     Json (VList (stored_exchanges [("2024-11-04 18:00:00", "Hello", "Hi")]
                                    ++ [VDict [("output", VStr "lost")];
                                        exchange "2024-11-04 18:05:00" "Bye" "Goodbye"]))]}
                 Sample.with_key)
              [("2024-11-04 18:00:00", "Hello", "Hi")]
              [("output", VStr "lost")]
              [exchange "2024-11-04 18:05:00" "Bye" "Goodbye"]
              eq_refl)
    as (_ & _ & Hshown).
  - apply lookup_singleton_eq.
  - rewrite Hshown. reflexivity.
Defined.
